(** * usuarioController: a shallow embedding and its verified properties

    The development follows [src/controllers/usuarioController.js]:

    - [JS]: the JavaScript values a parsed request body can hold and the
      built-ins the controller calls on them ([typeof], [!x], [trim],
      [includes], [toLowerCase], [length], [Number], [Array.prototype.includes]);
    - [Db]: the table [usuarios] and the eight SQL statements of the file;
    - [Run]: the effects of a handler (the store, the calls made to the
      store and to the hasher, thrown errors, [return], what [res] sends);
    - [Controller]: the five handlers, line by line;
    - the vocabulary of the properties, then the properties themselves:
      the tests on the fields, validation in [createUsuario] and in
      [updateUsuario], the shape of the answers, the values written, the
      uniqueness of emails.

    Conventions of the model.  A string is a sequence of UTF-16 code units;
    the model covers the code units below 256 (one [ascii] each), where
    [trim] and [toLowerCase] are given exactly.  A number is an IEEE 754
    binary64 value ([spec_float] with precision 53 and maximal exponent
    1024).  The body [req.body] is the object given by the body parser, as
    the list of its own properties.  The identifier [req.params.id] is
    taken after the store's conversion to the key type of [idusuario].
    The store compares [LOWER(email)] with its parameter exactly, and
    lowers like [toLowerCase]. *)

From Stdlib Require Import ZArith NArith List String Ascii Bool Lia.
From Stdlib Require Import Floats.SpecFloat.
Import ListNotations.

Local Open Scope string_scope.
Local Open Scope Z_scope.

(* ===================================================================== *)
(** * JavaScript values and built-ins *)
(* ===================================================================== *)

Module JS.

(** ** Numbers *)

Definition number := spec_float.

Definition prec : Z := 53.
Definition emax : Z := 1024.

Definition NaN : number := S754_nan.
Definition pos_zero : number := S754_zero false.

(** The Number value of an integer literal such as [0], [1] or [10]. *)
Definition of_Z (z : Z) : number := binary_normalize prec emax z 0 false.

(** The Number value nearest to [m * 10 ^ k] (ties to even), with the sign
    [neg] when it is zero. *)
Definition of_decimal (neg : bool) (m : Z) (k : Z) : number :=
  match m with
  | Z0 => S754_zero neg
  | Zneg _ => NaN
  | Zpos p =>
      if 0 <=? k
      then binary_normalize prec emax
             (if neg then - (m * 10 ^ k) else m * 10 ^ k) 0 neg
      else SFdiv prec emax (S754_finite neg p 0)
             (S754_finite false (Z.to_pos (10 ^ (- k))) 0)
  end.

(** Numeric equality of two finite values [m1 * 2^e1] and [m2 * 2^e2],
    whatever their representation. *)
Definition same_magnitude (m1 : positive) (e1 : Z) (m2 : positive) (e2 : Z) : bool :=
  let e := Z.min e1 e2 in
  Z.pos m1 * 2 ^ (e1 - e) =? Z.pos m2 * 2 ^ (e2 - e).

(** SameValueZero on numbers: [NaN] equals [NaN], [+0] equals [-0]. *)
Definition num_same_value_zero (x y : number) : bool :=
  match x, y with
  | S754_nan, S754_nan => true
  | S754_zero _, S754_zero _ => true
  | S754_infinity s1, S754_infinity s2 => Bool.eqb s1 s2
  | S754_finite s1 m1 e1, S754_finite s2 m2 e2 =>
      Bool.eqb s1 s2 && same_magnitude m1 e1 m2 e2
  | _, _ => false
  end.

(** ** Strings *)

Definition code (c : ascii) : Z := Z.of_N (N_of_ascii c).

(** WhiteSpace and LineTerminator code units below 256: TAB, LF, VT, FF,
    CR, SP, NBSP. *)
Definition is_white_space (c : ascii) : bool :=
  let n := code c in
  ((9 <=? n) && (n <=? 13)) || (n =? 32) || (n =? 160).

Fixpoint trim_start (s : string) : string :=
  match s with
  | EmptyString => EmptyString
  | String c s' => if is_white_space c then trim_start s' else s
  end.

Fixpoint trim_end (s : string) : string :=
  match s with
  | EmptyString => EmptyString
  | String c s' =>
      match trim_end s' with
      | EmptyString => if is_white_space c then EmptyString else String c EmptyString
      | t => String c t
      end
  end.

(** [String.prototype.trim] *)
Definition trim (s : string) : string := trim_end (trim_start s).

Fixpoint starts_with (s t : string) : bool :=
  match t, s with
  | EmptyString, _ => true
  | String b t', String a s' => Ascii.eqb a b && starts_with s' t'
  | String _ _, EmptyString => false
  end.

(** [String.prototype.includes]: [t] occurs in [s]. *)
Fixpoint includes (s t : string) : bool :=
  starts_with s t ||
  match s with
  | EmptyString => false
  | String _ s' => includes s' t
  end.

(** Lower case of one code unit below 256: A-Z, and the Latin-1 capitals
    U+00C0..U+00DE except the multiplication sign U+00D7. *)
Definition lower_code_unit (c : ascii) : ascii :=
  let n := code c in
  if ((65 <=? n) && (n <=? 90)) || ((192 <=? n) && (n <=? 222) && negb (n =? 215))
  then ascii_of_N (Z.to_N (n + 32))
  else c.

(** [String.prototype.toLowerCase] *)
Fixpoint toLowerCase (s : string) : string :=
  match s with
  | EmptyString => EmptyString
  | String c s' => String (lower_code_unit c) (toLowerCase s')
  end.

(** The [length] property of a string, as an integer. *)
Definition length (s : string) : Z := Z.of_nat (String.length s).

(** ** StringToNumber *)

Definition is_digit (base : Z) (c : ascii) : bool :=
  let n := code c in
  ((48 <=? n) && (n <? 48 + Z.min base 10))
  || ((10 <? base) && (((97 <=? n) && (n <? 87 + base)) || ((65 <=? n) && (n <? 55 + base)))).

Definition digit_value (c : ascii) : Z :=
  let n := code c in
  if n <=? 57 then n - 48 else if n <=? 90 then n - 55 else n - 87.

(** Reads the longest prefix of digits: its value, its length, the rest. *)
Fixpoint digits (base : Z) (s : string) (acc : Z) (count : Z) : Z * Z * string :=
  match s with
  | String c s' =>
      if is_digit base c then digits base s' (acc * base + digit_value c) (count + 1)
      else (acc, count, s)
  | EmptyString => (acc, count, s)
  end.

(** An optional sign: [true] for a minus. *)
Definition sign (s : string) : bool * string :=
  match s with
  | String "-" s' => (true, s')
  | String "+" s' => (false, s')
  | _ => (false, s)
  end.

(** ExponentPart (optional), then the end of the literal. *)
Definition exponent_part (s : string) : option Z :=
  match s with
  | EmptyString => Some 0
  | String c s' =>
      if Ascii.eqb c "e" || Ascii.eqb c "E" then
        let '(neg, s1) := sign s' in
        match digits 10 s1 0 0 with
        | (v, n, EmptyString) =>
            if 0 <? n then Some (if neg then - v else v) else None
        | _ => None
        end
      else None
  end.

(** StrUnsignedDecimalLiteral, apart from [Infinity]. *)
Definition unsigned_decimal (neg : bool) (s : string) : number :=
  let '(i, ni, s1) := digits 10 s 0 0 in
  match s1 with
  | String "." s2 =>
      let '(f, nf, s3) := digits 10 s2 0 0 in
      if 0 <? ni + nf then
        match exponent_part s3 with
        | Some e => of_decimal neg (i * 10 ^ nf + f) (e - nf)
        | None => NaN
        end
      else NaN
  | _ =>
      if 0 <? ni then
        match exponent_part s1 with
        | Some e => of_decimal neg i e
        | None => NaN
        end
      else NaN
  end.

(** NonDecimalIntegerLiteral: [0x], [0o], [0b] and their capitals. *)
Definition non_decimal (s : string) : option number :=
  match s with
  | String "0" (String p s') =>
      let base :=
        if Ascii.eqb p "x" || Ascii.eqb p "X" then 16
        else if Ascii.eqb p "o" || Ascii.eqb p "O" then 8
        else if Ascii.eqb p "b" || Ascii.eqb p "B" then 2
        else 0 in
      if base =? 0 then None
      else match digits base s' 0 0 with
           | (v, n, EmptyString) => if 0 <? n then Some (of_Z v) else Some NaN
           | _ => Some NaN
           end
  | _ => None
  end.

(** StringToNumber of the language specification. *)
Definition string_to_number (s : string) : number :=
  let t := trim s in
  match t with
  | EmptyString => pos_zero
  | _ =>
      match non_decimal t with
      | Some n => n
      | None =>
          let '(neg, u) := sign t in
          if String.eqb u "Infinity" then S754_infinity neg
          else unsigned_decimal neg u
      end
  end.

(** ** Values *)

(** What a parsed body can hold; [Undefined] is what reading an absent
    property gives. *)
#[warnings="-register-all"]
Inductive value : Type :=
| Undefined
| Null
| Bool (b : bool)
| Num (n : number)
| Str (s : string)
| Arr (items : list value)
| Obj (fields : list (string * value)).

(** Own property lookup in an object, [Undefined] when absent.  None of the
    property names the controller reads exists on [Object.prototype]. *)
Fixpoint get (o : list (string * value)) (k : string) : value :=
  match o with
  | [] => Undefined
  | (k', v) :: o' => if String.eqb k' k then v else get o' k
  end.

Definition has_own (o : list (string * value)) (k : string) : bool :=
  existsb (fun kv => String.eqb (fst kv) k) o.

Definition is_undefined (v : value) : bool :=
  match v with Undefined => true | _ => false end.

(** [x = d] in a destructuring pattern: the default replaces [undefined] only. *)
Definition default (v d : value) : value :=
  match v with Undefined => d | _ => v end.

(** ToBoolean *)
Definition to_boolean (v : value) : bool :=
  match v with
  | Undefined | Null => false
  | Bool b => b
  | Num (S754_zero _) | Num S754_nan => false
  | Num _ => true
  | Str EmptyString => false
  | Str _ => true
  | Arr _ | Obj _ => true
  end.

(** [typeof v === 'string'] *)
Definition typeof_string (v : value) : bool :=
  match v with Str _ => true | _ => false end.

(** SameValueZero; two distinct objects are never the same value, and a
    value of the body is never the same object as an element of an array
    literal of the controller. *)
Definition same_value_zero (x y : value) : bool :=
  match x, y with
  | Undefined, Undefined => true
  | Null, Null => true
  | Bool a, Bool b => Bool.eqb a b
  | Num a, Num b => num_same_value_zero a b
  | Str a, Str b => String.eqb a b
  | _, _ => false
  end.

(** [x === y] *)
Definition strict_equals (x y : value) : bool :=
  match x, y with
  | Num S754_nan, _ | _, Num S754_nan => false
  | _, _ => same_value_zero x y
  end.

(** [Array.prototype.includes] *)
Definition array_includes (l : list value) (v : value) : bool :=
  existsb (fun x => same_value_zero x v) l.

(** ** Completions *)

(** How the evaluation of a statement ends: normally with a value, by a
    [return] of the enclosing function, or by a thrown error (kept as its
    [message]). *)
Inductive completion (A : Type) : Type :=
| Normal (a : A)
| Return
| Throw (message : string).
Arguments Normal {A} a.
Arguments Return {A}.
Arguments Throw {A} message.

(** Calling [trim] or [toLowerCase] on a value: a method of strings only. *)
Definition call_trim (v : value) : completion string :=
  match v with
  | Str s => Normal (trim s)
  | _ => Throw "trim is not a function"
  end.

Definition call_toLowerCase (v : value) : completion string :=
  match v with
  | Str s => Normal (toLowerCase s)
  | _ => Throw "toLowerCase is not a function"
  end.

Definition type_error : string := "Cannot convert object to primitive value".

(** ToString of [v] throws: an object whose own [toString] (never callable
    in a parsed body) hides [Object.prototype.toString], alone or inside
    arrays. *)
Fixpoint to_string_throws (v : value) : bool :=
  match v with
  | Obj o => has_own o "toString"
  | Arr l => existsb to_string_throws l
  | _ => false
  end.

(** [Number] applied to a value of [-0] printed and read back. *)
Definition printed_and_read (n : number) : number :=
  match n with S754_zero _ => pos_zero | _ => n end.

(** ToNumber.  An array is converted through its [join]: the empty array
    gives the empty string, a one-element array the string of its element
    ([null] and [undefined] print as the empty string, a number reads back
    as itself), a longer array a string with a comma, which is no numeric
    literal.  An object gives [[object Object]] unless its ToString throws. *)
Fixpoint to_number (v : value) : completion number :=
  match v with
  | Undefined => Normal NaN
  | Null => Normal pos_zero
  | Bool b => Normal (if b then of_Z 1 else pos_zero)
  | Num n => Normal n
  | Str s => Normal (string_to_number s)
  | Obj o => if has_own o "toString" then Throw type_error else Normal NaN
  | Arr [] => Normal pos_zero
  | Arr [e] =>
      match e with
      | Undefined | Null => Normal pos_zero
      | Bool _ => Normal NaN
      | Num n => Normal (printed_and_read n)
      | _ => to_number e
      end
  | Arr (_ :: _ :: _) =>
      if to_string_throws v then Throw type_error else Normal NaN
  end.

End JS.

Import JS.

(* ===================================================================== *)
(** * The store: table [usuarios] *)
(* ===================================================================== *)

Module Db.

(** A row.  The columns [rol] and [activo] hold the value that was bound to
    their placeholder, as it was bound. *)
Record usuario : Type := {
  idusuario : Z;
  nombre : string;
  email : string;
  password : string;
  rol : value;
  fechacreacion : string;
  activo : value
}.

(** One [column = ?] of an UPDATE together with the value bound to it. *)
Inductive assignment : Type :=
| SetNombre (v : string)
| SetEmail (v : string)
| SetPassword (v : string)
| SetRol (v : value)
| SetActivo (v : value).

(** The statements of the controller, with their bound parameters. *)
Inductive statement : Type :=
| SelectAll
    (* SELECT idusuario, nombre, email, rol, fechacreacion, activo FROM usuarios *)
| SelectById (id : Z)
    (* SELECT idusuario, nombre, email, rol, fechacreacion, activo
       FROM usuarios WHERE idusuario = ? *)
| SelectIdByEmail (lowered : string)
    (* SELECT idusuario FROM usuarios WHERE LOWER(email) = ? *)
| Insert (nombre email password : string) (rol activo : value)
    (* INSERT INTO usuarios (nombre, email, password, rol, activo)
       VALUES (?, ?, ?, ?, ?) *)
| SelectStarById (id : Z)
    (* SELECT * FROM usuarios WHERE idusuario = ? *)
| SelectIdByEmailExcept (lowered : string) (id : Z)
    (* SELECT idusuario FROM usuarios WHERE LOWER(email) = ? AND idusuario != ? *)
| Update (sets : list assignment) (id : Z)
    (* UPDATE usuarios SET ... WHERE idusuario = ? *)
| Delete (id : Z).
    (* DELETE FROM usuarios WHERE idusuario = ? *)

(** The table, the next AUTO_INCREMENT value and the timestamp given to a
    new row. *)
Record store : Type := {
  usuarios : list usuario;
  auto_increment : Z;
  now : string
}.

(** What [db.query] resolves to (its first component): the rows of a
    SELECT, or the header of a write. *)
Inductive result : Type :=
| Rows (rows : list value)
| Header (insertId affectedRows : Z).

Definition rows_of (r : result) : list value :=
  match r with Rows l => l | Header _ _ => [] end.

Definition insertId_of (r : result) : value :=
  match r with Header i _ => Num (of_Z i) | Rows _ => Undefined end.

Definition affectedRows_of (r : result) : value :=
  match r with Header _ n => Num (of_Z n) | Rows _ => Undefined end.

(** The three projections of a row. *)
Definition public_columns (r : usuario) : value :=
  Obj [("idusuario", Num (of_Z (idusuario r)));
       ("nombre", Str (nombre r));
       ("email", Str (email r));
       ("rol", rol r);
       ("fechacreacion", Str (fechacreacion r));
       ("activo", activo r)].

Definition all_columns (r : usuario) : value :=
  Obj [("idusuario", Num (of_Z (idusuario r)));
       ("nombre", Str (nombre r));
       ("email", Str (email r));
       ("password", Str (password r));
       ("rol", rol r);
       ("fechacreacion", Str (fechacreacion r));
       ("activo", activo r)].

Definition id_column (r : usuario) : value :=
  Obj [("idusuario", Num (of_Z (idusuario r)))].

Definition has_id (id : Z) (r : usuario) : bool := idusuario r =? id.

(** LOWER(email) = ? *)
Definition has_lower_email (lowered : string) (r : usuario) : bool :=
  String.eqb (toLowerCase (email r)) lowered.

Definition assign (r : usuario) (a : assignment) : usuario :=
  match a with
  | SetNombre v =>
      {| idusuario := idusuario r; nombre := v; email := email r;
         password := password r; rol := rol r;
         fechacreacion := fechacreacion r; activo := activo r |}
  | SetEmail v =>
      {| idusuario := idusuario r; nombre := nombre r; email := v;
         password := password r; rol := rol r;
         fechacreacion := fechacreacion r; activo := activo r |}
  | SetPassword v =>
      {| idusuario := idusuario r; nombre := nombre r; email := email r;
         password := v; rol := rol r;
         fechacreacion := fechacreacion r; activo := activo r |}
  | SetRol v =>
      {| idusuario := idusuario r; nombre := nombre r; email := email r;
         password := password r; rol := v;
         fechacreacion := fechacreacion r; activo := activo r |}
  | SetActivo v =>
      {| idusuario := idusuario r; nombre := nombre r; email := email r;
         password := password r; rol := rol r;
         fechacreacion := fechacreacion r; activo := v |}
  end.

Definition with_usuarios (s : store) (l : list usuario) : store :=
  {| usuarios := l; auto_increment := auto_increment s; now := now s |}.

Definition count (f : usuario -> bool) (l : list usuario) : Z :=
  Z.of_nat (List.length (filter f l)).

(** The effect of a statement that the store carries out. *)
Definition exec (q : statement) (s : store) : result * store :=
  match q with
  | SelectAll => (Rows (map public_columns (usuarios s)), s)
  | SelectById id =>
      (Rows (map public_columns (filter (has_id id) (usuarios s))), s)
  | SelectIdByEmail lowered =>
      (Rows (map id_column (filter (has_lower_email lowered) (usuarios s))), s)
  | SelectStarById id =>
      (Rows (map all_columns (filter (has_id id) (usuarios s))), s)
  | SelectIdByEmailExcept lowered id =>
      (Rows (map id_column
               (filter (fun r => has_lower_email lowered r && negb (has_id id r))
                  (usuarios s))), s)
  | Insert n e p r a =>
      let row := {| idusuario := auto_increment s; nombre := n; email := e;
                    password := p; rol := r; fechacreacion := now s;
                    activo := a |} in
      (Header (auto_increment s) 1,
       {| usuarios := usuarios s ++ [row];
          auto_increment := auto_increment s + 1;
          now := now s |})
  | Update sets id =>
      (Header 0 (count (has_id id) (usuarios s)),
       with_usuarios s
         (map (fun r => if has_id id r then fold_left assign sets r else r)
            (usuarios s)))
  | Delete id =>
      (Header 0 (count (has_id id) (usuarios s)),
       with_usuarios s (filter (fun r => negb (has_id id r)) (usuarios s)))
  end.

End Db.

(* ===================================================================== *)
(** * Running a handler *)
(* ===================================================================== *)

Module Run.

(** What [res.status(..).json(..)] or [res.status(..).send()] sends. *)
Record response : Type := {
  status : Z;
  body : option value
}.

(** A call to a collaborator, as the handler makes it. *)
Inductive event : Type :=
| Query (q : Db.statement)
| Hash (password : string) (rounds : Z)
| ConsoleError (label : string) (err : string).

(** The world of one request: the store; the fate of the coming
    [db.query] calls, in order ([Some m]: that call rejects with an error
    of message [m] and the store is left as it is; [None], or no entry:
    it is carried out); the calls made so far, oldest first; what [res]
    has sent. *)
Record world : Type := {
  db : Db.store;
  faults : list (option string);
  calls : list event;
  sent : option response
}.

Definition M (A : Type) : Type := world -> completion A * world.

Definition ret {A} (a : A) : M A := fun w => (Normal a, w).

Definition bind {A B} (m : M A) (k : A -> M B) : M B :=
  fun w =>
    match m w with
    | (Normal a, w') => k a w'
    | (Return, w') => (Return, w')
    | (Throw e, w') => (Throw e, w')
    end.

(** [return;] *)
Definition return_ {A} : M A := fun w => (Return, w).

(** A pure evaluation that may throw. *)
Definition lift {A} (c : completion A) : M A := fun w => (c, w).

(** [try { m } catch (err) { h err }] *)
Definition try_catch {A} (m : M A) (h : string -> M A) : M A :=
  fun w =>
    match m w with
    | (Throw e, w') => h e w'
    | r => r
    end.

(** [if (c) { m }] *)
Definition when (c : bool) (m : M unit) : M unit :=
  if c then m else ret tt.

Definition record (e : event) (w : world) : world :=
  {| db := db w; faults := faults w; calls := calls w ++ [e]; sent := sent w |}.

(** The fate of the coming [db.query] call. *)
Definition next_fault (f : list (option string)) : option string :=
  match f with
  | Some m :: _ => Some m
  | _ => None
  end.

(** [await db.query(sql, params)] *)
Definition db_query (q : Db.statement) : M Db.result :=
  fun w =>
    match next_fault (faults w) with
    | Some m =>
        (Throw m,
         {| db := db w; faults := tl (faults w);
            calls := calls w ++ [Query q]; sent := sent w |})
    | None =>
        (Normal (fst (Db.exec q (db w))),
         {| db := snd (Db.exec q (db w)); faults := tl (faults w);
            calls := calls w ++ [Query q]; sent := sent w |})
    end.

(** [console.error(label, err)] *)
Definition console_error (label err : string) : M unit :=
  fun w => (Normal tt, record (ConsoleError label err) w).

Definition send (r : response) : M unit :=
  fun w =>
    (Normal tt,
     {| db := db w; faults := faults w; calls := calls w; sent := Some r |}).

(** [res.status(code).json(v)]; [res.json(v)] is [res_json 200 v]. *)
Definition res_json (code : Z) (v : value) : M unit :=
  send {| status := code; body := Some v |}.

(** [res.status(code).send()] *)
Definition res_send (code : Z) : M unit :=
  send {| status := code; body := None |}.

(** The world in which a request arrives. *)
Definition start (s : Db.store) (f : list (option string)) : world :=
  {| db := s; faults := f; calls := []; sent := None |}.

End Run.

Import Run.

Declare Scope js_scope.
Delimit Scope js_scope with js.
Notation "x <- m ;; k" := (bind m (fun x => k))
  (at level 61, m at next level, right associativity) : js_scope.
Notation "m ;; k" := (bind m (fun _ => k))
  (at level 61, right associativity) : js_scope.
Local Open Scope js_scope.

(* ===================================================================== *)
(** * The controller *)
(* ===================================================================== *)

Module Controller.

Record request : Type := {
  params_id : Z;
  req_body : list (string * value)
}.

Definition chr (n : N) : string := String (ascii_of_N n) EmptyString.
Definition quoted (s : string) : string := chr 34 ++ s ++ chr 34.

(** [{ error: m }] and [{ message: m }] *)
Definition error_body (m : string) : value := Obj [("error", Str m)].
Definition message_body (m : string) : value := Obj [("message", Str m)].

(** The messages of the file. *)
Definition msg_not_found : string := "Usuario no encontrado".
Definition msg_create_nombre : string :=
  "El campo nombre es requerido y debe ser una cadena v" ++ chr 225 ++ "lida".
Definition msg_create_email : string :=
  "El campo email es requerido y debe ser un email v" ++ chr 225 ++ "lido".
Definition msg_create_password : string :=
  "El campo password es requerido y debe tener al menos 6 caracteres".
Definition msg_rol : string :=
  "El campo rol debe ser " ++ quoted "cliente" ++ " o " ++ quoted "admin".
Definition msg_activo : string := "El campo activo debe ser 0 o 1".
Definition msg_create_duplicate (email : string) : string :=
  "Ya existe un usuario con el email " ++ quoted email.
Definition msg_create_internal : string :=
  "Ocurri" ++ chr 243 ++ " un error interno al crear el usuario".
Definition msg_update_nothing : string :=
  "Debe proporcionar al menos un campo para actualizar: nombre, email, password, rol, activo".
Definition msg_update_nombre : string :=
  "El campo nombre debe ser una cadena v" ++ chr 225 ++ "lida".
Definition msg_update_email : string :=
  "El campo email debe ser un correo v" ++ chr 225 ++ "lido".
Definition msg_update_duplicate (email : string) : string :=
  "Ya existe otro usuario con el email " ++ quoted email.
Definition msg_update_password : string :=
  "El campo password debe tener al menos 6 caracteres".
Definition msg_update_empty : string :=
  "No hay datos v" ++ chr 225 ++ "lidos para actualizar".
Definition msg_update_internal : string :=
  "Ocurri" ++ chr 243 ++ " un error interno al actualizar el usuario".

(** The template literal [`...${email}`], evaluated where [email] has
    passed the test of being a string: a string prints as itself. *)
Definition printed (v : value) : string :=
  match v with Str s => s | _ => EmptyString end.

(** ** The tests on the fields *)

(** [!nombre || typeof nombre !== 'string' || nombre.trim() === ''] *)
Definition create_nombre_rejected (nombre : value) : bool :=
  negb (to_boolean nombre)
  || negb (typeof_string nombre)
  || match nombre with Str s => String.eqb (trim s) EmptyString | _ => true end.

(** [!email || typeof email !== 'string' || !email.includes('@')] *)
Definition create_email_rejected (email : value) : bool :=
  negb (to_boolean email)
  || negb (typeof_string email)
  || match email with Str s => negb (includes s "@") | _ => true end.

(** [!password || typeof password !== 'string' || password.length < 6] *)
Definition create_password_rejected (password : value) : bool :=
  negb (to_boolean password)
  || negb (typeof_string password)
  || match password with Str s => length s <? 6 | _ => true end.

(** [!['cliente', 'admin'].includes(rol)], in both handlers *)
Definition rol_rejected (rol : value) : bool :=
  negb (array_includes [Str "cliente"; Str "admin"] rol).

(** [![0, 1].includes(Number(activo))], in both handlers *)
Definition activo_rejected (activo : value) : completion bool :=
  match to_number activo with
  | Normal n => Normal (negb (array_includes [Num (of_Z 0); Num (of_Z 1)] (Num n)))
  | Return => Return
  | Throw e => Throw e
  end.

(** [typeof nombre !== 'string' || nombre.trim() === ''] *)
Definition update_nombre_rejected (nombre : value) : bool :=
  negb (typeof_string nombre)
  || match nombre with Str s => String.eqb (trim s) EmptyString | _ => true end.

(** [typeof email !== 'string' || !email.includes('@')] *)
Definition update_email_rejected (email : value) : bool :=
  negb (typeof_string email)
  || match email with Str s => negb (includes s "@") | _ => true end.

(** [typeof password !== 'string' || password.length < 6] *)
Definition update_password_rejected (password : value) : bool :=
  negb (typeof_string password)
  || match password with Str s => length s <? 6 | _ => true end.

Section Handlers.

(** The hasher: the string that [bcrypt.hash(password, rounds)] resolves
    to.  No property below depends on what it is. *)
Variable bcrypt_hash : string -> Z -> string.

(** [await bcrypt.hash(password, rounds)] *)
Definition bcrypt_hash_call (password : value) (rounds : Z) : M string :=
  match password with
  | Str p => fun w => (Normal (bcrypt_hash p rounds), record (Hash p rounds) w)
  | _ => lift (Throw "data must be a string or Buffer")
  end.

Definition getAllUsuarios (req : request) : M unit :=
  try_catch
    (r <- db_query Db.SelectAll ;;
     res_json 200 (Arr (Db.rows_of r)))
    (fun err => res_json 500 (error_body err)).

Definition getUsuarioById (req : request) : M unit :=
  let id := params_id req in
  try_catch
    (r <- db_query (Db.SelectById id) ;;
     let rows := Db.rows_of r in
     when (Z.of_nat (List.length rows) =? 0)
       (res_json 404 (message_body msg_not_found) ;; return_) ;;
     res_json 200 (nth 0 rows Undefined))
    (fun err => res_json 500 (error_body err)).

Definition createUsuario (req : request) : M unit :=
  let nombre := get (req_body req) "nombre" in
  let email := get (req_body req) "email" in
  let password := get (req_body req) "password" in
  let rol := default (get (req_body req) "rol") (Str "cliente") in
  let activo := default (get (req_body req) "activo") (Num (of_Z 1)) in
  when (create_nombre_rejected nombre)
    (res_json 400 (error_body msg_create_nombre) ;; return_) ;;
  when (create_email_rejected email)
    (res_json 400 (error_body msg_create_email) ;; return_) ;;
  when (create_password_rejected password)
    (res_json 400 (error_body msg_create_password) ;; return_) ;;
  when (rol_rejected rol)
    (res_json 400 (error_body msg_rol) ;; return_) ;;
  bad <- lift (activo_rejected activo) ;;
  when bad
    (res_json 400 (error_body msg_activo) ;; return_) ;;
  try_catch
    (lowered <- lift (call_toLowerCase email) ;;
     existing <- db_query (Db.SelectIdByEmail lowered) ;;
     when (0 <? Z.of_nat (List.length (Db.rows_of existing)))
       (res_json 400 (error_body (msg_create_duplicate (printed email))) ;; return_) ;;
     hashedPassword <- bcrypt_hash_call password 10 ;;
     nombre' <- lift (call_trim nombre) ;;
     email' <- lift (call_trim email) ;;
     result <- db_query (Db.Insert nombre' email' hashedPassword rol activo) ;;
     nombre'' <- lift (call_trim nombre) ;;
     email'' <- lift (call_trim email) ;;
     res_json 201
       (Obj [("idusuario", Db.insertId_of result);
             ("nombre", Str nombre'');
             ("email", Str email'');
             ("rol", rol);
             ("activo", activo)]))
    (fun err =>
       console_error "Error al crear usuario:" err ;;
       res_json 500 (error_body msg_create_internal)).

(** The arrays [updates] and [values] of [updateUsuario] grow together: one
    list of assignments stands for both. *)
Definition updateUsuario (req : request) : M unit :=
  let id := params_id req in
  let nombre := get (req_body req) "nombre" in
  let email := get (req_body req) "email" in
  let password := get (req_body req) "password" in
  let rol := get (req_body req) "rol" in
  let activo := get (req_body req) "activo" in
  when (is_undefined nombre && is_undefined email && is_undefined password
        && is_undefined rol && is_undefined activo)
    (res_json 400 (error_body msg_update_nothing) ;; return_) ;;
  try_catch
    (existingUsuario <- db_query (Db.SelectStarById id) ;;
     when (Z.of_nat (List.length (Db.rows_of existingUsuario)) =? 0)
       (res_json 404 (message_body msg_not_found) ;; return_) ;;
     let updates := [] in
     updates <-
       (if negb (is_undefined nombre) then
          when (update_nombre_rejected nombre)
            (res_json 400 (error_body msg_update_nombre) ;; return_) ;;
          nombre' <- lift (call_trim nombre) ;;
          ret (updates ++ [Db.SetNombre nombre'])%list
        else ret updates) ;;
     updates <-
       (if negb (is_undefined email) then
          when (update_email_rejected email)
            (res_json 400 (error_body msg_update_email) ;; return_) ;;
          lowered <- lift (call_toLowerCase email) ;;
          emailExists <- db_query (Db.SelectIdByEmailExcept lowered id) ;;
          when (0 <? Z.of_nat (List.length (Db.rows_of emailExists)))
            (res_json 400 (error_body (msg_update_duplicate (printed email))) ;; return_) ;;
          email' <- lift (call_trim email) ;;
          ret (updates ++ [Db.SetEmail email'])%list
        else ret updates) ;;
     updates <-
       (if negb (is_undefined password) then
          when (update_password_rejected password)
            (res_json 400 (error_body msg_update_password) ;; return_) ;;
          hashedPassword <- bcrypt_hash_call password 10 ;;
          ret (updates ++ [Db.SetPassword hashedPassword])%list
        else ret updates) ;;
     updates <-
       (if negb (is_undefined rol) then
          when (rol_rejected rol)
            (res_json 400 (error_body msg_rol) ;; return_) ;;
          ret (updates ++ [Db.SetRol rol])%list
        else ret updates) ;;
     updates <-
       (if negb (is_undefined activo) then
          bad <- lift (activo_rejected activo) ;;
          when bad
            (res_json 400 (error_body msg_activo) ;; return_) ;;
          ret (updates ++ [Db.SetActivo activo])%list
        else ret updates) ;;
     when (Z.of_nat (List.length updates) =? 0)
       (res_json 400 (error_body msg_update_empty) ;; return_) ;;
     db_query (Db.Update updates id) ;;
     let updatedFields := [] in
     updatedFields <-
       (if negb (is_undefined nombre) then
          nombre' <- lift (call_trim nombre) ;;
          ret (updatedFields ++ [("nombre", Str nombre')])%list
        else ret updatedFields) ;;
     updatedFields <-
       (if negb (is_undefined email) then
          email' <- lift (call_trim email) ;;
          ret (updatedFields ++ [("email", Str email')])%list
        else ret updatedFields) ;;
     let updatedFields :=
       if negb (is_undefined rol) then (updatedFields ++ [("rol", rol)])%list
       else updatedFields in
     let updatedFields :=
       if negb (is_undefined activo) then (updatedFields ++ [("activo", activo)])%list
       else updatedFields in
     res_json 200 (Obj updatedFields))
    (fun err =>
       console_error "Error al actualizar usuario:" err ;;
       res_json 500 (error_body msg_update_internal)).

Definition deleteUsuario (req : request) : M unit :=
  let id := params_id req in
  try_catch
    (result <- db_query (Db.Delete id) ;;
     when (strict_equals (Db.affectedRows_of result) (Num (of_Z 0)))
       (res_json 404 (message_body msg_not_found) ;; return_) ;;
     res_send 204)
    (fun err => res_json 500 (error_body err)).

(** A request served from a store [s] under the faults [f]. *)
Definition serve (handler : request -> M unit) (req : request)
    (s : Db.store) (f : list (option string)) : completion unit * world :=
  handler req (start s f).

End Handlers.

End Controller.

Import Controller.

(* ===================================================================== *)
(** * Vocabulary of the properties *)
(* ===================================================================== *)

(** [module.exports] *)
Definition exports (bcrypt_hash : string -> Z -> string)
  : list (request -> M unit) :=
  [getAllUsuarios; getUsuarioById; createUsuario bcrypt_hash;
   updateUsuario bcrypt_hash; deleteUsuario].

(** The five fields as the handlers read them. *)
Definition field (req : request) (k : string) : value := get (req_body req) k.

Definition rol_or_default (req : request) : value :=
  default (field req "rol") (Str "cliente").

Definition activo_or_default (req : request) : value :=
  default (field req "activo") (Num (of_Z 1)).

(** What [res] has sent at the end of a run. *)
Definition response_of (o : completion unit * world) : option response :=
  sent (snd o).

(** The response with status [code] and JSON body [v]. *)
Definition json (code : Z) (v : value) : option response :=
  Some {| status := code; body := Some v |}.

(** A BadRequest with message [m]. *)
Definition bad_request (m : string) : option response :=
  json 400 (error_body m).

(** A number that is 0 or 1, as [[0, 1].includes] finds it. *)
Definition zero_or_one (n : number) : bool :=
  num_same_value_zero (of_Z 0) n || num_same_value_zero (of_Z 1) n.

(** ** The rules on the fields, in the words of the specification *)

Definition name_rule (v : value) : Prop :=
  exists s, v = Str s /\ trim s <> EmptyString.

Definition email_rule (v : value) : Prop :=
  exists s, v = Str s /\ includes s "@" = true.

Definition password_rule (v : value) : Prop :=
  exists s, v = Str s /\ 6 <= length s.

Definition role_rule (v : value) : Prop :=
  v = Str "cliente" \/ v = Str "admin".

(** Coerced to a number, the value is 0 or 1. *)
Definition active_rule (v : value) : Prop :=
  exists n, to_number v = Normal n /\ zero_or_one n = true.

(** Coerced to a number, the value is neither 0 nor 1. *)
Definition active_broken (v : value) : Prop :=
  exists n, to_number v = Normal n /\ zero_or_one n = false.

(** The message names the field [k]. *)
Definition names_field (m k : string) : bool :=
  starts_with m ("El campo " ++ k ++ " ").

(** ** Runs *)

(** The store has a row of identifier [id]. *)
Definition exists_id (id : Z) (s : Db.store) : Prop :=
  exists r, In r (Db.usuarios s) /\ Db.idusuario r = id.

(** No coming [db.query] call is made to fail. *)
Definition no_fault (f : list (option string)) : Prop :=
  Forall (fun x => x = None) f.

(** [createUsuario] answers the BadRequest [m] and has touched nothing: the
    store is as it was, no call was made to the store or to the hasher. *)
Definition refused_untouched (bcrypt_hash : string -> Z -> string)
    (req : request) (s : Db.store) (f : list (option string)) (m : string) : Prop :=
  serve (createUsuario bcrypt_hash) req s f =
  (Return, {| db := s; faults := f; calls := []; sent := bad_request m |}).

(** A field of the body is supplied. *)
Definition supplied (v : value) : Prop := v <> Undefined.

(** Some supplied field of an update fails its test. *)
Definition update_fails_validation (req : request) : Prop :=
  (supplied (field req "nombre") /\ update_nombre_rejected (field req "nombre") = true)
  \/ (supplied (field req "email") /\ update_email_rejected (field req "email") = true)
  \/ (supplied (field req "password")
      /\ update_password_rejected (field req "password") = true)
  \/ (supplied (field req "rol") /\ rol_rejected (field req "rol") = true)
  \/ (supplied (field req "activo")
      /\ activo_rejected (field req "activo") = Normal true).

Definition is_update (e : event) : bool :=
  match e with Query (Db.Update _ _) => true | _ => false end.

(** ** Fields of a response body *)

Definition fields_of (v : value) : list string :=
  match v with Obj o => map fst o | _ => [] end.

(** The field names of the record sent, or of every record of the array
    sent. *)
Definition record_fields (v : value) : list string :=
  match v with
  | Arr l => flat_map fields_of l
  | _ => fields_of v
  end.

(** A field that would carry the password or its hash. *)
Definition names_password (k : string) : bool :=
  includes (toLowerCase k) "password" || includes (toLowerCase k) "hash".

Definition exposes_password (r : response) : bool :=
  match body r with
  | Some v => existsb names_password (record_fields v)
  | None => false
  end.

(** Bodies of the two shapes [{ error: string }] and [{ message: string }]. *)
Definition error_shaped (r : response) : Prop :=
  exists m, body r = Some (Obj [("error", Str m)]).

Definition message_shaped (r : response) : Prop :=
  exists m, body r = Some (Obj [("message", Str m)]).

(** What the answers of the handlers satisfy, by status. *)
Definition well_shaped (r : response) : Prop :=
  (status r = 400 \/ status r = 500 -> error_shaped r)
  /\ (status r = 404 -> message_shaped r)
  /\ In (status r) [200; 201; 204; 400; 404; 500].

(** ** Uniqueness of emails *)

(** No two rows have emails that are equal once lowered. *)
Definition emails_unique (s : Db.store) : Prop :=
  NoDup (map (fun r => toLowerCase (Db.email r)) (Db.usuarios s)).

(** Exactly one row per identifier. *)
Definition ids_unique (s : Db.store) : Prop :=
  NoDup (map Db.idusuario (Db.usuarios s)).

(** ** Values written to the columns [rol] and [activo] *)

Definition rol_assigned (a : Db.assignment) : list value :=
  match a with Db.SetRol v => [v] | _ => [] end.

Definition activo_assigned (a : Db.assignment) : list value :=
  match a with Db.SetActivo v => [v] | _ => [] end.

(** The values a call binds to the column [rol], and to [activo]. *)
Definition rol_written (e : event) : list value :=
  match e with
  | Query (Db.Insert _ _ _ r _) => [r]
  | Query (Db.Update sets _) => flat_map rol_assigned sets
  | _ => []
  end.

Definition activo_written (e : event) : list value :=
  match e with
  | Query (Db.Insert _ _ _ _ a) => [a]
  | Query (Db.Update sets _) => flat_map activo_assigned sets
  | _ => []
  end.

(** The number 0 or the number 1. *)
Definition is_0_or_1 (v : value) : Prop :=
  exists n, v = Num n /\ zero_or_one n = true.

(** The values bound to [rol] and [activo] by every call of the run are a
    role of the enumeration and the number 0 or 1. *)
Definition writes_in_the_sets (w : world) : Prop :=
  Forall (fun e => Forall role_rule (rol_written e)
                   /\ Forall is_0_or_1 (activo_written e)) (calls w).

(** The values bound to [rol] and [activo] by every call of the run pass the
    tests of the handlers. *)
Definition writes_pass_the_tests (w : world) : Prop :=
  Forall (fun e => Forall role_rule (rol_written e)
                   /\ Forall active_rule (activo_written e)) (calls w).

(** The values bound to [rol] and [activo] are those of the request. *)
Definition inserts_as_sent (req : request) (w : world) : Prop :=
  Forall (fun e => Forall (eq (rol_or_default req)) (rol_written e)
                   /\ Forall (eq (activo_or_default req)) (activo_written e))
    (calls w).

Definition updates_as_sent (req : request) (w : world) : Prop :=
  Forall (fun e => Forall (eq (field req "rol")) (rol_written e)
                   /\ Forall (eq (field req "activo")) (activo_written e))
    (calls w).

(** The row [r'] is the row [r] but for its role. *)
Definition same_but_rol (r r' : Db.usuario) : Prop :=
  Db.idusuario r' = Db.idusuario r
  /\ Db.nombre r' = Db.nombre r
  /\ Db.email r' = Db.email r
  /\ Db.password r' = Db.password r
  /\ Db.fechacreacion r' = Db.fechacreacion r
  /\ Db.activo r' = Db.activo r.

(** ** Sample data *)

Definition sample_hash (p : string) (rounds : Z) : string := "$2b$10$" ++ p.

Definition empty_store : Db.store :=
  {| Db.usuarios := []; Db.auto_increment := 1; Db.now := "2024-01-01 00:00:00" |}.

Definition ana : Db.usuario :=
  {| Db.idusuario := 1; Db.nombre := "Ana"; Db.email := "ana@x.com";
     Db.password := "$2b$10$secret1"; Db.rol := Str "cliente";
     Db.fechacreacion := "2024-01-01 00:00:00"; Db.activo := Num (of_Z 1) |}.

Definition store_with_ana : Db.store :=
  {| Db.usuarios := [ana]; Db.auto_increment := 2;
     Db.now := "2024-01-01 00:00:00" |}.

Definition eva : Db.usuario :=
  {| Db.idusuario := 2; Db.nombre := "Eva"; Db.email := "eva@x.com";
     Db.password := "$2b$10$secret2"; Db.rol := Str "admin";
     Db.fechacreacion := "2024-01-02 00:00:00"; Db.activo := Num (of_Z 1) |}.

Definition store_with_ana_and_eva : Db.store :=
  {| Db.usuarios := [ana; eva]; Db.auto_increment := 3;
     Db.now := "2024-01-03 00:00:00" |}.

Definition request_of (id : Z) (b : list (string * value)) : request :=
  {| params_id := id; req_body := b |}.

(* ===================================================================== *)
(** * Symbolic execution of a handler *)
(* ===================================================================== *)

(** The scrutinee on which the goal is stuck: the innermost one. *)
Ltac innermost t k :=
  match t with
  | context [match ?x with _ => _ end] => innermost x k
  | _ => k t
  end.

(** Unfolds the operations of [Run], and nothing of the controller. *)
Ltac plumbing :=
  cbv beta iota zeta delta
    [bind when try_catch ret return_ lift res_json res_send send db_query
     console_error bcrypt_hash_call record start serve response_of
     db faults calls sent];
  cbn [fst snd].

(** Runs the handler of the goal along all its paths. *)
Ltac run :=
  plumbing;
  repeat (match goal with
          | |- ?G => innermost G ltac:(fun x => destruct x eqn:?)
          end; plumbing).

(** Unfolds the plumbing and computes the closed tests met on the way. *)
Ltac tidy :=
  plumbing;
  cbn [andb negb orb is_undefined app tl List.length Z.of_nat Z.eqb Z.ltb
       Z.compare Pos.of_succ_nat Pos.succ].

(** Follows the one path that the hypotheses select. *)
Ltac follow :=
  tidy;
  repeat (match goal with
          | H : ?l = _ |- context [?l] => rewrite H
          end;
          tidy).

(* ===================================================================== *)
(** * Vocabulary of the further properties *)
(* ===================================================================== *)

(** The two handlers that read. *)
Definition readers : list (request -> M unit) :=
  [getAllUsuarios; getUsuarioById].

(** The handlers whose [catch] answers with the message of the error. *)
Definition plain_handlers : list (request -> M unit) :=
  [getAllUsuarios; getUsuarioById; deleteUsuario].


(** The first row of identifier [id], in the order of the table. *)
Definition first_with_id (id : Z) (s : Db.store) : option Db.usuario :=
  find (Db.has_id id) (Db.usuarios s).

(** The table without its rows of identifier [id]. *)
Definition without_id (id : Z) (s : Db.store) : Db.store :=
  Db.with_usuarios s (filter (fun r => negb (Db.has_id id r)) (Db.usuarios s)).

(** A call that changes the table. *)
Definition is_write (e : event) : bool :=
  match e with
  | Query (Db.Insert _ _ _ _ _) | Query (Db.Update _ _) | Query (Db.Delete _) => true
  | _ => false
  end.

Definition is_hash (e : event) : bool :=
  match e with Hash _ _ => true | _ => false end.

(** The status of a success: 200, 201 or 204. *)
Definition succeeded (r : response) : Prop :=
  status r = 200 \/ status r = 201 \/ status r = 204.

(** The answer of a deletion: 204 and no body. *)
Definition no_content : option response :=
  Some {| status := 204; body := None |}.

Definition not_found : option response :=
  json 404 (message_body msg_not_found).

(** The lowered emails of the table. *)
Definition lowered_emails (s : Db.store) : list string :=
  map (fun r => toLowerCase (Db.email r)) (Db.usuarios s).

(** The row that [createUsuario] inserts. *)
Definition new_row (s : Db.store) (n e p : string) (r a : value) : Db.usuario :=
  {| Db.idusuario := Db.auto_increment s; Db.nombre := n; Db.email := e;
     Db.password := p; Db.rol := r; Db.fechacreacion := Db.now s;
     Db.activo := a |}.

(** The record without its field [k]. *)
Definition drop_field (k : string) (v : value) : value :=
  match v with
  | Obj o => Obj (filter (fun kv => negb (String.eqb (fst kv) k)) o)
  | _ => v
  end.

(** The strings a call binds to the column [password]. *)
Definition password_assigned (a : Db.assignment) : list string :=
  match a with Db.SetPassword v => [v] | _ => [] end.

Definition password_written (e : event) : list string :=
  match e with
  | Query (Db.Insert _ _ p _ _) => [p]
  | Query (Db.Update sets _) => flat_map password_assigned sets
  | _ => []
  end.

(** The column that an assignment sets. *)
Definition column (a : Db.assignment) : string :=
  match a with
  | Db.SetNombre _ => "nombre"
  | Db.SetEmail _ => "email"
  | Db.SetPassword _ => "password"
  | Db.SetRol _ => "rol"
  | Db.SetActivo _ => "activo"
  end.

(** Those of the names [l] that the body supplies, in the order of [l]. *)
Definition supplied_among (req : request) (l : list string) : list string :=
  filter (fun k => negb (is_undefined (field req k))) l.

(** The columns set by the UPDATE statements of a run. *)
Definition columns_set (e : event) : list (list string) :=
  match e with
  | Query (Db.Update sets _) => [map column sets]
  | _ => []
  end.

(** The row [r'] is the row [r] as an UPDATE may leave it: same identifier,
    same date of creation. *)
Definition same_identity (r r' : Db.usuario) : Prop :=
  Db.idusuario r' = Db.idusuario r
  /\ Db.fechacreacion r' = Db.fechacreacion r.

(** The tests of [createUsuario] before that of [activo] all pass. *)
Definition create_reaches_activo (req : request) : Prop :=
  create_nombre_rejected (field req "nombre") = false
  /\ create_email_rejected (field req "email") = false
  /\ create_password_rejected (field req "password") = false
  /\ rol_rejected (rol_or_default req) = false.

(** The handlers that, past the destructuring of their first lines,
    evaluate nothing outside their [try]. *)
Definition enclosed_handlers (bcrypt_hash : string -> Z -> string)
  : list (request -> M unit) :=
  [getAllUsuarios; getUsuarioById; updateUsuario bcrypt_hash; deleteUsuario].

(** ** The request as Express hands it over

    [req.body] is what the body parser left: an object, another value, or
    [undefined] when no parser ran or the request carried no body. *)
Record raw_request : Type := {
  raw_id : Z;
  raw_body : value
}.

(** [const { nombre, email, ... } = req.body] throws a TypeError on
    [undefined] and on [null]. *)
Definition body_missing (b : value) : bool :=
  match b with Undefined | Null => true | _ => false end.

Definition destructure_error : string :=
  "Cannot destructure property 'nombre' of 'req.body' as it is undefined.".

(** The properties that the destructuring reads: those of an object; a
    string, a number, a boolean or an array has none of the five names. *)
Definition properties (b : value) : list (string * value) :=
  match b with Obj o => o | _ => [] end.

(** The request past the first lines of a handler. *)
Definition seen (r : raw_request) : request :=
  {| params_id := raw_id r; req_body := properties (raw_body r) |}.

(** [createUsuario] and [updateUsuario] as they are called: the
    destructuring of [req.body], on lines 30 and 84 and outside any [try],
    then the handler. *)
Definition destructuring (handler : request -> M unit) (r : raw_request)
  : M unit :=
  if body_missing (raw_body r) then lift (Throw destructure_error)
  else handler (seen r).

(** [getAllUsuarios], [getUsuarioById] and [deleteUsuario] as they are
    called: they do not read [req.body]. *)
Definition ignoring_body (handler : request -> M unit) (r : raw_request)
  : M unit :=
  handler (seen r).

(** A call served from a store [s] under the faults [f]. *)
Definition call (entry : raw_request -> M unit) (r : raw_request)
    (s : Db.store) (f : list (option string)) : completion unit * world :=
  entry r (start s f).

(** The run has sent an answer and has not thrown. *)
Definition answered (o : completion unit * world) : Prop :=
  (exists r, response_of o = Some r) /\ forall e, fst o <> Throw e.


(** The two handlers that hash a password. *)
Definition writers (bcrypt_hash : string -> Z -> string)
  : list (request -> M unit) :=
  [createUsuario bcrypt_hash; updateUsuario bcrypt_hash].

(** The string is the hash, with cost 10, of the password of the request,
    a string of six characters or more. *)
Definition hash_of_the_password (bcrypt_hash : string -> Z -> string)
    (req : request) (x : string) : Prop :=
  exists p, field req "password" = Str p /\ 6 <= length p
            /\ x = bcrypt_hash p 10.

(** A call to the hasher is for the password of the request, with cost 10. *)
Definition hashes_the_password (req : request) (e : event) : Prop :=
  match e with
  | Hash p k => field req "password" = Str p /\ k = 10
  | _ => True
  end.

(** The record that [createUsuario] answers with. *)
Definition created (id : Z) (n e : string) (r a : value) : value :=
  Obj [("idusuario", Num (of_Z id)); ("nombre", Str n); ("email", Str e);
       ("rol", r); ("activo", a)].

(** What the answer of [updateUsuario] reports of a field: nothing when it
    is not supplied, and for [nombre] and [email] the string trimmed. *)
Definition reported (k : string) (v : value) : list (string * value) :=
  match v with Undefined => [] | _ => [(k, v)] end.

Definition trimmed (v : value) : value :=
  match v with Str x => Str (trim x) | _ => v end.

(** Another row than that of identifier [id] has the email, both lowered. *)
Definition email_of_another (id : Z) (lowered : string) (s : Db.store) : Prop :=
  exists r, In r (Db.usuarios s) /\ Db.idusuario r <> id
            /\ toLowerCase (Db.email r) = lowered.

(** The table after [UPDATE usuarios SET email = e WHERE idusuario = id]. *)
Definition with_email (id : Z) (e : string) (s : Db.store) : Db.store :=
  Db.with_usuarios s
    (map (fun r => if Db.has_id id r then Db.assign r (Db.SetEmail e) else r)
       (Db.usuarios s)).

(** The body supplies a field. *)
Definition supplies_some (req : request) : Prop :=
  supplied (field req "nombre") \/ supplied (field req "email")
  \/ supplied (field req "password") \/ supplied (field req "rol")
  \/ supplied (field req "activo").

(** The statuses that each handler of [module.exports] sends. *)
Definition statuses (bcrypt_hash : string -> Z -> string)
  : list ((request -> M unit) * list Z) :=
  [(getAllUsuarios, [200; 500]);
   (getUsuarioById, [200; 404; 500]);
   (createUsuario bcrypt_hash, [201; 400; 500]);
   (updateUsuario bcrypt_hash, [200; 400; 404; 500]);
   (deleteUsuario, [204; 404; 500])].

(** The lookup of [createUsuario]. *)
Definition is_email_lookup (e : event) : bool :=
  match e with Query (Db.SelectIdByEmail _) => true | _ => false end.

(** The strings a call binds to the columns [nombre] and [email]. *)
Definition nombre_assigned (a : Db.assignment) : list string :=
  match a with Db.SetNombre v => [v] | _ => [] end.

Definition email_assigned (a : Db.assignment) : list string :=
  match a with Db.SetEmail v => [v] | _ => [] end.

Definition nombre_written (e : event) : list string :=
  match e with
  | Query (Db.Insert n _ _ _ _) => [n]
  | Query (Db.Update sets _) => flat_map nombre_assigned sets
  | _ => []
  end.

Definition email_written (e : event) : list string :=
  match e with
  | Query (Db.Insert _ m _ _ _) => [m]
  | Query (Db.Update sets _) => flat_map email_assigned sets
  | _ => []
  end.

(** The string is the name of the request trimmed, and is not empty. *)
Definition trimmed_nombre (req : request) (x : string) : Prop :=
  exists n, field req "nombre" = Str n /\ x = trim n /\ x <> EmptyString.

(** The string is the email of the request trimmed, an email with an [@]. *)
Definition trimmed_email (req : request) (x : string) : Prop :=
  exists m, field req "email" = Str m /\ x = trim m /\ includes m "@" = true.

(** A field of an update that does not stop it: not supplied, or supplied
    and passing its test. *)
Definition update_passes (rejected : value -> bool) (v : value) : Prop :=
  v = Undefined \/ rejected v = false.

(** The email of an update that does not stop it: not supplied, or a valid
    email that no other row has. *)
Definition update_email_passes (id : Z) (s : Db.store) (v : value) : Prop :=
  v = Undefined
  \/ exists e, v = Str e /\ includes e "@" = true
               /\ ~ email_of_another id (toLowerCase e) s.

(* ===================================================================== *)
(** * Sample runs *)
(* ===================================================================== *)

(** POST with [{nombre: "Ana", email: "ana@x.com", password: "secret1"}] on
    an empty table: 201, the defaults applied, the password not echoed. *)
Example create_ana :
  serve (createUsuario sample_hash)
    (request_of 0 [("nombre", Str "Ana"); ("email", Str "ana@x.com");
                   ("password", Str "secret1")])
    empty_store []
  = (Normal tt,
     {| db := store_with_ana;
        faults := [];
        calls := [Query (Db.SelectIdByEmail "ana@x.com");
                  Hash "secret1" 10;
                  Query (Db.Insert "Ana" "ana@x.com" "$2b$10$secret1"
                           (Str "cliente") (Num (of_Z 1)))];
        sent := json 201 (Obj [("idusuario", Num (of_Z 1));
                               ("nombre", Str "Ana");
                               ("email", Str "ana@x.com");
                               ("rol", Str "cliente");
                               ("activo", Num (of_Z 1))]) |}).
Proof. reflexivity. Qed.

(** A second user whose email differs by case only is refused. *)
Example create_same_email_other_case :
  serve (createUsuario sample_hash)
    (request_of 0 [("nombre", Str "Ana"); ("email", Str "ANA@x.com");
                   ("password", Str "secret1")])
    store_with_ana []
  = (Return,
     {| db := store_with_ana;
        faults := [];
        calls := [Query (Db.SelectIdByEmail "ana@x.com")];
        sent := bad_request (msg_create_duplicate "ANA@x.com") |}).
Proof. reflexivity. Qed.

(** Deleting an absent row is NotFound; deleting a row empties its place,
    and the row is then not found. *)
Example delete_absent_then_present :
  response_of (serve deleteUsuario (request_of 7 []) store_with_ana [])
  = json 404 (message_body msg_not_found)
  /\ serve deleteUsuario (request_of 1 []) store_with_ana []
     = (Normal tt,
        {| db := Db.with_usuarios store_with_ana [];
           faults := [];
           calls := [Query (Db.Delete 1)];
           sent := Some {| status := 204; body := None |} |})
  /\ response_of (serve getUsuarioById (request_of 1 [])
                    (Db.with_usuarios store_with_ana []) [])
     = json 404 (message_body msg_not_found).
Proof. repeat split. Qed.

(** A failing store: the message of the error is sent by the readers, a
    fixed message by the writers. *)
Example store_failure :
  response_of (serve getAllUsuarios (request_of 0 []) store_with_ana
                 [Some "connect ECONNREFUSED"])
  = json 500 (error_body "connect ECONNREFUSED")
  /\ response_of (serve (updateUsuario sample_hash)
                    (request_of 1 [("rol", Str "admin")]) store_with_ana
                    [Some "connect ECONNREFUSED"])
     = json 500 (error_body msg_update_internal).
Proof. split; reflexivity. Qed.
(* ===================================================================== *)
(** * The tests on the fields and the rules *)
(* ===================================================================== *)

Lemma create_nombre_rule (v : value) :
  create_nombre_rejected v = false <-> name_rule v.
Proof.
  unfold name_rule. split.
  - destruct v as [| | b | n | s | l | o];
      unfold create_nombre_rejected, typeof_string; cbn [negb];
      rewrite ?orb_true_r; try discriminate.
    intros H. exists s. split; [reflexivity|].
    apply orb_false_iff in H. destruct H as [_ H].
    now apply String.eqb_neq in H.
  - intros [s [-> H]]. cbn.
    destruct s as [|c s]; [now elim H|]. cbn.
    now apply String.eqb_neq.
Qed.

Lemma update_nombre_rule (v : value) :
  update_nombre_rejected v = false <-> name_rule v.
Proof.
  unfold name_rule. split.
  - destruct v as [| | b | n | s | l | o]; cbn; try discriminate.
    intros H. exists s. split; [reflexivity|]. now apply String.eqb_neq in H.
  - intros [s [-> H]]. cbn. now apply String.eqb_neq.
Qed.

Lemma includes_empty (t : string) :
  includes EmptyString t = true -> t = EmptyString.
Proof. destruct t; cbn; [reflexivity | discriminate]. Qed.

Lemma create_email_rule (v : value) :
  create_email_rejected v = false <-> email_rule v.
Proof.
  unfold email_rule. split.
  - destruct v as [| | b | n | s | l | o];
      unfold create_email_rejected, typeof_string; cbn [negb];
      rewrite ?orb_true_r; try discriminate.
    intros H. exists s. split; [reflexivity|].
    apply orb_false_iff in H. destruct H as [_ H].
    now apply negb_false_iff in H.
  - intros [s [-> H]].
    destruct s as [|c s]; [apply includes_empty in H; discriminate|].
    cbn [create_email_rejected to_boolean typeof_string negb orb].
    now rewrite H.
Qed.

Lemma update_email_rule (v : value) :
  update_email_rejected v = false <-> email_rule v.
Proof.
  unfold email_rule. split.
  - destruct v as [| | b | n | s | l | o]; cbn; try discriminate.
    intros H. exists s. split; [reflexivity|]. now apply negb_false_iff in H.
  - intros [s [-> H]]. cbn [update_email_rejected typeof_string negb orb].
    now rewrite H.
Qed.

Lemma create_password_rule (v : value) :
  create_password_rejected v = false <-> password_rule v.
Proof.
  unfold password_rule. split.
  - destruct v as [| | b | n | s | l | o];
      unfold create_password_rejected, typeof_string; cbn [negb];
      rewrite ?orb_true_r; try discriminate.
    intros H. exists s. split; [reflexivity|].
    apply orb_false_iff in H. destruct H as [_ H].
    apply Z.ltb_ge in H. exact H.
  - intros [s [-> H]].
    destruct s as [|c s]; [cbn in H; lia|].
    cbn [create_password_rejected to_boolean typeof_string negb orb].
    now apply Z.ltb_ge.
Qed.

Lemma update_password_rule (v : value) :
  update_password_rejected v = false <-> password_rule v.
Proof.
  unfold password_rule. split.
  - destruct v as [| | b | n | s | l | o]; cbn; try discriminate.
    intros H. exists s. split; [reflexivity|]. now apply Z.ltb_ge in H.
  - intros [s [-> H]]. cbn [update_password_rejected typeof_string negb orb].
    now apply Z.ltb_ge.
Qed.

Lemma rol_rule (v : value) : rol_rejected v = false <-> role_rule v.
Proof.
  unfold role_rule, rol_rejected, array_includes. cbn [existsb].
  rewrite negb_false_iff, orb_false_r. split.
  - destruct v as [| | b | n | s | l | o]; try discriminate.
    cbn [same_value_zero]. intros H. apply orb_true_iff in H.
    destruct H as [H | H]; apply String.eqb_eq in H; subst; auto.
  - intros [-> | ->]; reflexivity.
Qed.

Lemma activo_not_rejected (v : value) :
  activo_rejected v = Normal false <-> active_rule v.
Proof.
  unfold active_rule, activo_rejected, array_includes, zero_or_one.
  cbn [existsb same_value_zero]. split.
  - destruct (to_number v) as [n | | e]; try discriminate.
    rewrite orb_false_r. intros [= H]. apply negb_false_iff in H. now exists n.
  - intros [n [-> H]]. now rewrite orb_false_r, H.
Qed.

Lemma activo_is_rejected (v : value) :
  activo_rejected v = Normal true <-> active_broken v.
Proof.
  unfold active_broken, activo_rejected, array_includes, zero_or_one.
  cbn [existsb same_value_zero]. split.
  - destruct (to_number v) as [n | | e]; try discriminate.
    rewrite orb_false_r. intros [= H]. apply negb_true_iff in H. now exists n.
  - intros [n [-> H]]. now rewrite orb_false_r, H.
Qed.

Lemma not_rule_rejected (P : Prop) (b : bool) :
  (b = false <-> P) -> ~ P -> b = true.
Proof. intros H N. destruct b; [reflexivity | elim N; now apply H]. Qed.

(* ===================================================================== *)
(** * Field tests of [updateUsuario] and of [createUsuario] *)
(* ===================================================================== *)

(** C9.  For each of the five fields and every supplied value (a value
    other than [undefined]), the test [updateUsuario] applies to the field
    gives the same verdict as the test [createUsuario] applies to it: the
    value passes one exactly when it passes the other.  For [rol] and
    [activo], [createUsuario] tests the value after its default. *)
Theorem update_tests_agree_with_create (v : value) :
  v <> Undefined ->
  update_nombre_rejected v = create_nombre_rejected v /\
  update_email_rejected v = create_email_rejected v /\
  update_password_rejected v = create_password_rejected v /\
  rol_rejected v = rol_rejected (default v (Str "cliente")) /\
  activo_rejected v = activo_rejected (default v (Num (of_Z 1))).
Proof.
  intros Hv.
  assert (D : forall d, default v d = v) by (destruct v; [now elim Hv | reflexivity ..]).
  rewrite !D.
  repeat split.
  - destruct (create_nombre_rejected v) eqn:E.
    + apply (not_rule_rejected _ _ (update_nombre_rule v)).
      intros H. apply create_nombre_rule in H. congruence.
    + apply update_nombre_rule. now apply create_nombre_rule.
  - destruct (create_email_rejected v) eqn:E.
    + apply (not_rule_rejected _ _ (update_email_rule v)).
      intros H. apply create_email_rule in H. congruence.
    + apply update_email_rule. now apply create_email_rule.
  - destruct (create_password_rejected v) eqn:E.
    + apply (not_rule_rejected _ _ (update_password_rule v)).
      intros H. apply create_password_rule in H. congruence.
    + apply update_password_rule. now apply create_password_rule.
Qed.

Lemma update_tests_agree_with_create_witness :
  update_nombre_rejected Null = create_nombre_rejected Null /\
  update_email_rejected Null = create_email_rejected Null /\
  update_password_rejected Null = create_password_rejected Null /\
  rol_rejected Null = rol_rejected (default Null (Str "cliente")) /\
  activo_rejected Null = activo_rejected (default Null (Num (of_Z 1))).
Proof. apply update_tests_agree_with_create. discriminate. Defined.

(* ===================================================================== *)
(** * Validation in [createUsuario] *)
(* ===================================================================== *)

Section CreateValidation.

Variable bcrypt_hash : string -> Z -> string.
Variable req : request.
Variable s : Db.store.
Variable f : list (option string).

Lemma create_refuses_nombre :
  create_nombre_rejected (field req "nombre") = true ->
  refused_untouched bcrypt_hash req s f msg_create_nombre.
Proof.
  unfold refused_untouched, serve, createUsuario, field. cbv zeta.
  intros ->. reflexivity.
Qed.

Lemma create_refuses_email :
  create_nombre_rejected (field req "nombre") = false ->
  create_email_rejected (field req "email") = true ->
  refused_untouched bcrypt_hash req s f msg_create_email.
Proof.
  unfold refused_untouched, serve, createUsuario, field. cbv zeta.
  intros -> ->. reflexivity.
Qed.

Lemma create_refuses_password :
  create_nombre_rejected (field req "nombre") = false ->
  create_email_rejected (field req "email") = false ->
  create_password_rejected (field req "password") = true ->
  refused_untouched bcrypt_hash req s f msg_create_password.
Proof.
  unfold refused_untouched, serve, createUsuario, field. cbv zeta.
  intros -> -> ->. reflexivity.
Qed.

Lemma create_refuses_rol :
  create_nombre_rejected (field req "nombre") = false ->
  create_email_rejected (field req "email") = false ->
  create_password_rejected (field req "password") = false ->
  rol_rejected (rol_or_default req) = true ->
  refused_untouched bcrypt_hash req s f msg_rol.
Proof.
  unfold refused_untouched, serve, createUsuario, rol_or_default, field.
  cbv zeta. intros -> -> -> ->. reflexivity.
Qed.

Lemma create_refuses_activo :
  create_nombre_rejected (field req "nombre") = false ->
  create_email_rejected (field req "email") = false ->
  create_password_rejected (field req "password") = false ->
  rol_rejected (rol_or_default req) = false ->
  activo_rejected (activo_or_default req) = Normal true ->
  refused_untouched bcrypt_hash req s f msg_activo.
Proof.
  unfold refused_untouched, serve, createUsuario, rol_or_default,
    activo_or_default, field.
  cbv zeta. intros -> -> -> -> H. plumbing. rewrite H. reflexivity.
Qed.

(** C4, as amended.  [createUsuario] tests the fields in the order name,
    email, password, role, active.  The first field that breaks its rule
    (name: a string that is not empty once trimmed; email: a string
    containing [@]; password: a string of length at least 6; role:
    [cliente] or [admin]) is answered with a BadRequest whose message names
    that field, the store being left as it was and no call having been
    made: no query, no hashing, no insert.  So is, the four fields before
    it keeping their rules, an active flag that coerces to a number other
    than 0 and 1.  Nothing is said of an active flag whose coercion
    throws. *)
Theorem create_validation_order :
  (~ name_rule (field req "nombre") ->
   refused_untouched bcrypt_hash req s f msg_create_nombre)
  /\ (name_rule (field req "nombre") ->
      ~ email_rule (field req "email") ->
      refused_untouched bcrypt_hash req s f msg_create_email)
  /\ (name_rule (field req "nombre") ->
      email_rule (field req "email") ->
      ~ password_rule (field req "password") ->
      refused_untouched bcrypt_hash req s f msg_create_password)
  /\ (name_rule (field req "nombre") ->
      email_rule (field req "email") ->
      password_rule (field req "password") ->
      ~ role_rule (rol_or_default req) ->
      refused_untouched bcrypt_hash req s f msg_rol)
  /\ (name_rule (field req "nombre") ->
      email_rule (field req "email") ->
      password_rule (field req "password") ->
      role_rule (rol_or_default req) ->
      active_broken (activo_or_default req) ->
      refused_untouched bcrypt_hash req s f msg_activo)
  /\ (names_field msg_create_nombre "nombre" = true
      /\ names_field msg_create_email "email" = true
      /\ names_field msg_create_password "password" = true
      /\ names_field msg_rol "rol" = true
      /\ names_field msg_activo "activo" = true).
Proof.
  repeat split; try reflexivity.
  - intros N. apply create_refuses_nombre.
    exact (not_rule_rejected _ _ (create_nombre_rule _) N).
  - intros N E. apply create_refuses_email.
    + now apply create_nombre_rule.
    + exact (not_rule_rejected _ _ (create_email_rule _) E).
  - intros N E P. apply create_refuses_password.
    + now apply create_nombre_rule.
    + now apply create_email_rule.
    + exact (not_rule_rejected _ _ (create_password_rule _) P).
  - intros N E P R. apply create_refuses_rol.
    + now apply create_nombre_rule.
    + now apply create_email_rule.
    + now apply create_password_rule.
    + exact (not_rule_rejected _ _ (rol_rule _) R).
  - intros N E P R A. apply create_refuses_activo.
    + now apply create_nombre_rule.
    + now apply create_email_rule.
    + now apply create_password_rule.
    + now apply rol_rule.
    + now apply activo_is_rejected.
Qed.

End CreateValidation.

Lemma create_validation_order_witness :
  refused_untouched sample_hash
    (request_of 0 [("nombre", Str "Ana"); ("email", Str "ana.x.com")])
    empty_store [] msg_create_email.
Proof.
  apply (create_validation_order sample_hash
           (request_of 0 [("nombre", Str "Ana"); ("email", Str "ana.x.com")])
           empty_store []).
  - exists "Ana". split; [reflexivity | discriminate].
  - intros [e [E H]]. injection E as <-. discriminate H.
Defined.

(** C4 as it was stated fails on an [activo] that cannot be coerced, an
    object with an own property [toString]: name, email, password and role
    keep their rules, the active flag does not coerce to 0 or 1, and yet
    [createUsuario] answers no BadRequest: it answers nothing. *)
Lemma unconvertible_activo_is_not_refused :
  let req :=
    request_of 0 [("nombre", Str "Ana"); ("email", Str "ana@x.com");
                  ("password", Str "secret1");
                  ("activo", Obj [("toString", Num (of_Z 0))])] in
  name_rule (field req "nombre")
  /\ email_rule (field req "email")
  /\ password_rule (field req "password")
  /\ role_rule (rol_or_default req)
  /\ ~ active_rule (activo_or_default req)
  /\ response_of (serve (createUsuario sample_hash) req empty_store []) = None
  /\ ~ refused_untouched sample_hash req empty_store [] msg_activo.
Proof.
  cbv zeta. split; [|split; [|split; [|split; [|split; [|split]]]]].
  - exists "Ana". split; [reflexivity|]. vm_compute. discriminate.
  - exists "ana@x.com". split; reflexivity.
  - exists "secret1". split; [reflexivity|]. vm_compute. discriminate.
  - left. reflexivity.
  - intros [n [H _]]. discriminate H.
  - reflexivity.
  - unfold refused_untouched. intros H. discriminate H.
Qed.

(** An [activo] that cannot be coerced: an object with an own property
    [toString], on which [Number] throws a TypeError.  [createUsuario]
    evaluates the test on [activo] outside its [try]: it ends on the error
    and answers nothing, the store and the hasher untouched.
    [updateUsuario] evaluates the test inside its [try]: the error is
    caught and the server error is answered, the store left as it was. *)
Lemma activo_whose_coercion_throws :
  (let req :=
     request_of 0 [("nombre", Str "Ana"); ("email", Str "ana@x.com");
                   ("password", Str "secret1");
                   ("activo", Obj [("toString", Num (of_Z 0))])] in
   to_number (activo_or_default req) = Throw type_error
   /\ serve (createUsuario sample_hash) req empty_store []
      = (Throw type_error, start empty_store []))
  /\ (let req := request_of 1 [("activo", Obj [("toString", Num (of_Z 0))])] in
      serve (updateUsuario sample_hash) req store_with_ana []
      = (Normal tt,
         {| db := store_with_ana; faults := [];
            calls := [Query (Db.SelectStarById 1);
                      ConsoleError "Error al actualizar usuario:" type_error];
            sent := json 500 (error_body msg_update_internal) |})).
Proof. repeat split. Qed.

(* ===================================================================== *)
(** * Facts used along the paths of [updateUsuario] *)
(* ===================================================================== *)

Lemma supplied_defined (v : value) :
  supplied v <-> negb (is_undefined v) = true.
Proof.
  unfold supplied. destruct v; cbn; split; congruence.
Qed.

Lemma no_fault_next (f : list (option string)) :
  no_fault f -> next_fault f = None.
Proof. intros H. destruct H as [|x l ->]; reflexivity. Qed.

Lemma no_fault_tl (f : list (option string)) :
  no_fault f -> no_fault (tl f).
Proof. intros H. destruct H; [constructor | assumption]. Qed.

Lemma filter_has_id (id : Z) (l : list Db.usuario) :
  (exists r, In r l /\ Db.idusuario r = id) <-> filter (Db.has_id id) l <> [].
Proof.
  split.
  - intros [r [I E]] N.
    assert (In r (filter (Db.has_id id) l)) as X.
    { apply filter_In. split; [exact I|]. unfold Db.has_id. now apply Z.eqb_eq. }
    rewrite N in X. exact X.
  - destruct (filter (Db.has_id id) l) as [|r t] eqn:F; [congruence|].
    intros _. exists r.
    assert (In r (filter (Db.has_id id) l)) as X by (rewrite F; now left).
    apply filter_In in X. destruct X as [I E]. split; [exact I|].
    unfold Db.has_id in E. now apply Z.eqb_eq.
Qed.

(** The lookup of [updateUsuario] finds a row exactly when one exists. *)
Lemma lookup_finds (id : Z) (s : Db.store) :
  exists_id id s <->
  (Z.of_nat (List.length (Db.rows_of (fst (Db.exec (Db.SelectStarById id) s)))) =? 0)
  = false.
Proof.
  unfold exists_id. rewrite filter_has_id. cbn [Db.exec fst Db.rows_of].
  rewrite length_map. rewrite Z.eqb_neq.
  destruct (filter (Db.has_id id) (Db.usuarios s)); cbn [List.length]; split;
    intros H; try congruence; lia.
Qed.

Lemma accepted_nombre_trims (v : value) :
  update_nombre_rejected v = false -> exists t, call_trim v = Normal t.
Proof. intros H. apply update_nombre_rule in H as [x [-> _]]. now eexists. Qed.

Lemma accepted_email_trims (v : value) :
  update_email_rejected v = false -> exists t, call_trim v = Normal t.
Proof. intros H. apply update_email_rule in H as [x [-> _]]. now eexists. Qed.

Lemma accepted_email_lowers (v : value) :
  update_email_rejected v = false -> exists t, call_toLowerCase v = Normal t.
Proof. intros H. apply update_email_rule in H as [x [-> _]]. now eexists. Qed.

Lemma accepted_password_string (v : value) :
  update_password_rejected v = false -> exists p, v = Str p.
Proof. intros H. apply update_password_rule in H as [x [-> _]]. now eexists. Qed.

(** Closes a path that the hypotheses exclude. *)
Ltac excluded :=
  try congruence;
  match goal with
  | H : update_nombre_rejected ?v = false, T : call_trim ?v = _ |- _ =>
      destruct (accepted_nombre_trims v H); congruence
  | H : update_email_rejected ?v = false, T : call_trim ?v = _ |- _ =>
      destruct (accepted_email_trims v H); congruence
  | H : update_email_rejected ?v = false, T : call_toLowerCase ?v = _ |- _ =>
      destruct (accepted_email_lowers v H); congruence
  | H : update_password_rejected _ = false |- _ =>
      destruct (accepted_password_string _ H); congruence
  end.

(* ===================================================================== *)
(** * [updateUsuario] and the store *)
(* ===================================================================== *)

Section UpdateValidation.

Variable bcrypt_hash : string -> Z -> string.

Lemma update_refuses_empty (req : request) (s : Db.store) (f : list (option string)) :
  field req "nombre" = Undefined ->
  field req "email" = Undefined ->
  field req "password" = Undefined ->
  field req "rol" = Undefined ->
  field req "activo" = Undefined ->
  serve (updateUsuario bcrypt_hash) req s f =
  (Return, {| db := s; faults := f; calls := [];
              sent := bad_request msg_update_nothing |}).
Proof.
  unfold serve, updateUsuario, field. cbv zeta.
  intros -> -> -> -> ->. reflexivity.
Qed.

Lemma update_failure_keeps_store (req : request) (s : Db.store)
    (f : list (option string)) :
  update_fails_validation req ->
  db (snd (serve (updateUsuario bcrypt_hash) req s f)) = s
  /\ existsb is_update (calls (snd (serve (updateUsuario bcrypt_hash) req s f)))
     = false.
Proof.
  unfold update_fails_validation, serve, updateUsuario, field. cbv zeta.
  rewrite !supplied_defined.
  generalize (get (req_body req) "nombre") (get (req_body req) "email")
    (get (req_body req) "password") (get (req_body req) "rol")
    (get (req_body req) "activo").
  intros v1 v2 v3 v4 v5 H.
  run; cbn [Db.exec snd]; try (split; reflexivity);
    exfalso; decompose [and or] H; clear H; cbn in *; congruence.
Qed.

Lemma update_failure_is_bad_request (req : request) (s : Db.store)
    (f : list (option string)) :
  update_fails_validation req ->
  exists_id (params_id req) s ->
  no_fault f ->
  exists m,
    response_of (serve (updateUsuario bcrypt_hash) req s f) = bad_request m.
Proof.
  intros H X F.
  apply lookup_finds in X.
  pose proof (no_fault_next _ F) as F1.
  pose proof (no_fault_next _ (no_fault_tl _ F)) as F2.
  clear F. revert H X.
  unfold update_fails_validation, serve, updateUsuario, field. cbv zeta.
  rewrite !supplied_defined.
  generalize (get (req_body req) "nombre") (get (req_body req) "email")
    (get (req_body req) "password") (get (req_body req) "rol")
    (get (req_body req) "activo").
  intros v1 v2 v3 v4 v5 H X.
  run; cbn [Db.exec snd] in *; try (eexists; reflexivity);
    exfalso; try excluded;
    decompose [and or] H; clear H; cbn in *; congruence.
Qed.

Lemma update_bad_request_keeps_store (req : request) (s : Db.store)
    (f : list (option string)) (m : string) :
  response_of (serve (updateUsuario bcrypt_hash) req s f) = bad_request m ->
  db (snd (serve (updateUsuario bcrypt_hash) req s f)) = s
  /\ existsb is_update (calls (snd (serve (updateUsuario bcrypt_hash) req s f)))
     = false.
Proof.
  unfold serve, updateUsuario, field. cbv zeta.
  generalize (get (req_body req) "nombre") (get (req_body req) "email")
    (get (req_body req) "password") (get (req_body req) "rol")
    (get (req_body req) "activo").
  intros v1 v2 v3 v4 v5.
  run; cbn [Db.exec snd]; intros H; try (split; reflexivity); discriminate H.
Qed.

End UpdateValidation.

(** C6.  [updateUsuario] never writes to the store on a validation
    failure.  With none of the five fields supplied it answers BadRequest
    before any access to the store.  When the test of a supplied field
    rejects it, the UPDATE statement is not executed and the store is left
    as it was; the answer is a BadRequest, the handler having found the
    target row and the store answering.  Every BadRequest of the handler
    leaves the store as it was, no UPDATE having been executed. *)
Theorem update_validation_failure_never_writes
    (bcrypt_hash : string -> Z -> string) (req : request) (s : Db.store)
    (f : list (option string)) :
  (field req "nombre" = Undefined ->
   field req "email" = Undefined ->
   field req "password" = Undefined ->
   field req "rol" = Undefined ->
   field req "activo" = Undefined ->
   serve (updateUsuario bcrypt_hash) req s f =
   (Return, {| db := s; faults := f; calls := [];
               sent := bad_request msg_update_nothing |}))
  /\ (update_fails_validation req ->
      db (snd (serve (updateUsuario bcrypt_hash) req s f)) = s
      /\ existsb is_update
           (calls (snd (serve (updateUsuario bcrypt_hash) req s f))) = false)
  /\ (update_fails_validation req ->
      exists_id (params_id req) s ->
      no_fault f ->
      exists m,
        response_of (serve (updateUsuario bcrypt_hash) req s f) = bad_request m)
  /\ (forall m,
        response_of (serve (updateUsuario bcrypt_hash) req s f) = bad_request m ->
        db (snd (serve (updateUsuario bcrypt_hash) req s f)) = s
        /\ existsb is_update
             (calls (snd (serve (updateUsuario bcrypt_hash) req s f))) = false).
Proof.
  split; [apply update_refuses_empty|].
  split; [apply update_failure_keeps_store|].
  split; [apply update_failure_is_bad_request|].
  intros m. apply update_bad_request_keeps_store.
Qed.

Lemma update_validation_failure_never_writes_witness :
  db (snd (serve (updateUsuario sample_hash)
             (request_of 1 [("password", Str "short")]) store_with_ana []))
  = store_with_ana
  /\ exists m,
       response_of (serve (updateUsuario sample_hash)
                      (request_of 1 [("password", Str "short")])
                      store_with_ana [])
       = bad_request m.
Proof.
  assert (V : update_fails_validation (request_of 1 [("password", Str "short")])).
  { right. right. left. split; [discriminate | reflexivity]. }
  split.
  - apply (update_validation_failure_never_writes sample_hash
             (request_of 1 [("password", Str "short")]) store_with_ana []).
    exact V.
  - apply (update_validation_failure_never_writes sample_hash
             (request_of 1 [("password", Str "short")]) store_with_ana []).
    + exact V.
    + exists ana. split; [now left | reflexivity].
    + constructor.
Defined.

(* ===================================================================== *)
(** * Supplied fields: [null] is not [undefined] *)
(* ===================================================================== *)

Lemma update_guard_exact
    (bcrypt_hash : string -> Z -> string) (req : request) (s : Db.store)
    (f : list (option string)) :
  response_of (serve (updateUsuario bcrypt_hash) req s f)
  = bad_request msg_update_nothing
  <-> (field req "nombre" = Undefined /\ field req "email" = Undefined
       /\ field req "password" = Undefined /\ field req "rol" = Undefined
       /\ field req "activo" = Undefined).
Proof.
  split.
  - unfold serve, updateUsuario, field. cbv zeta.
    generalize (get (req_body req) "nombre") (get (req_body req) "email")
      (get (req_body req) "password") (get (req_body req) "rol")
      (get (req_body req) "activo").
    intros v1 v2 v3 v4 v5.
    run; intros H; try discriminate H;
      try (exfalso; injection H as H; cbv in H; discriminate H).
    destruct v1, v2, v3, v4, v5; try discriminate Heqb. now repeat split.
  - intros (H1 & H2 & H3 & H4 & H5).
    now rewrite (update_refuses_empty bcrypt_hash req s f H1 H2 H3 H4 H5).
Qed.

(** C10.  In [updateUsuario] a field counts as supplied exactly when its
    value is not [undefined]: the must-supply BadRequest is the answer
    exactly when the five fields are all [undefined].  A body whose only
    field is [nombre: null] is therefore never answered with it: the
    handler goes on to the lookup of the target and, the row found, answers
    with the BadRequest on the format of the name, the store untouched.
    (When no row has the identifier the lookup answers NotFound; when the
    lookup itself fails, the server error.) *)
Theorem update_null_is_supplied
    (bcrypt_hash : string -> Z -> string) (id : Z) (s : Db.store)
    (f : list (option string)) :
  (forall req,
     response_of (serve (updateUsuario bcrypt_hash) req s f)
     = bad_request msg_update_nothing
     <-> (field req "nombre" = Undefined /\ field req "email" = Undefined
          /\ field req "password" = Undefined /\ field req "rol" = Undefined
          /\ field req "activo" = Undefined))
  /\ response_of (serve (updateUsuario bcrypt_hash)
                    (request_of id [("nombre", Null)]) s f)
     <> bad_request msg_update_nothing
  /\ (exists_id id s -> next_fault f = None ->
      serve (updateUsuario bcrypt_hash) (request_of id [("nombre", Null)]) s f
      = (Return, {| db := s; faults := tl f;
                    calls := [Query (Db.SelectStarById id)];
                    sent := bad_request msg_update_nombre |}))
  /\ (~ exists_id id s -> next_fault f = None ->
      serve (updateUsuario bcrypt_hash) (request_of id [("nombre", Null)]) s f
      = (Return, {| db := s; faults := tl f;
                    calls := [Query (Db.SelectStarById id)];
                    sent := json 404 (message_body msg_not_found) |}))
  /\ (forall m, next_fault f = Some m ->
      serve (updateUsuario bcrypt_hash) (request_of id [("nombre", Null)]) s f
      = (Normal tt,
         {| db := s; faults := tl f;
            calls := [Query (Db.SelectStarById id);
                      ConsoleError "Error al actualizar usuario:" m];
            sent := json 500 (error_body msg_update_internal) |})).
Proof.
  split; [intros req; apply update_guard_exact|].
  split.
  - intros H. apply update_guard_exact in H. destruct H as [H _].
    discriminate H.
  - split; [|split]; [intros X F | intros X F | intros m F].
    + apply lookup_finds in X.
      unfold serve, updateUsuario, request_of. cbv zeta. plumbing.
      cbn [get String.eqb Ascii.eqb Bool.eqb is_undefined andb params_id req_body].
      plumbing. rewrite F. cbn [params_id] in *. rewrite X. reflexivity.
    + assert (Y : (Z.of_nat (List.length
                     (Db.rows_of (fst (Db.exec (Db.SelectStarById id) s)))) =? 0)
                  = true).
      { destruct (Z.of_nat _ =? 0) eqn:E; [reflexivity|].
        elim X. now apply lookup_finds. }
      unfold serve, updateUsuario, request_of. cbv zeta. plumbing.
      cbn [get String.eqb Ascii.eqb Bool.eqb is_undefined andb params_id req_body].
      plumbing. rewrite F. cbn [params_id] in *. rewrite Y. reflexivity.
    + unfold serve, updateUsuario, request_of. cbv zeta. plumbing.
      cbn [get String.eqb Ascii.eqb Bool.eqb is_undefined andb params_id req_body].
      plumbing. rewrite F. reflexivity.
Qed.

Lemma update_null_is_supplied_witness :
  serve (updateUsuario sample_hash) (request_of 1 [("nombre", Null)])
    store_with_ana []
  = (Return, {| db := store_with_ana; faults := [];
                calls := [Query (Db.SelectStarById 1)];
                sent := bad_request msg_update_nombre |}).
Proof.
  apply (update_null_is_supplied sample_hash 1 store_with_ana []).
  - exists ana. split; [now left | reflexivity].
  - reflexivity.
Defined.

(** An identifier that no row has: the lookup answers NotFound before any
    field is tested. *)
Lemma update_without_target :
  serve (updateUsuario sample_hash) (request_of 1 [("password", Str "short")])
    empty_store []
  = (Return, {| db := empty_store; faults := [];
                calls := [Query (Db.SelectStarById 1)];
                sent := json 404 (message_body msg_not_found) |}).
Proof. reflexivity. Qed.

(* ===================================================================== *)
(** * An update of the role alone *)
(* ===================================================================== *)

Lemma Forall2_map_same {A : Type} (P : A -> A -> Prop) (g : A -> A) (l : list A) :
  (forall x, P x (g x)) -> Forall2 P l (map g l).
Proof. intros H. induction l; cbn; constructor; auto. Qed.

(** Whatever the store does, an update that supplies the role alone
    executes no other UPDATE than the one of the column [rol], and leaves
    every row as it was but for its role. *)
Lemma update_role_alone_frame
    (bcrypt_hash : string -> Z -> string) (req : request) (v : value)
    (s : Db.store) (f : list (option string)) :
  field req "nombre" = Undefined ->
  field req "email" = Undefined ->
  field req "password" = Undefined ->
  field req "rol" = v ->
  field req "activo" = Undefined ->
  let after := snd (serve (updateUsuario bcrypt_hash) req s f) in
  Forall (fun e => is_update e = true ->
                   e = Query (Db.Update [Db.SetRol v] (params_id req)))
    (calls after)
  /\ Forall2 (fun r r' => same_but_rol r r'
                          /\ (Db.idusuario r <> params_id req -> r' = r))
       (Db.usuarios s) (Db.usuarios (db after)).
Proof.
  intros H1 H2 H3 H4 H5. unfold field in *.
  unfold serve, updateUsuario. cbv zeta.
  rewrite H1, H2, H3, H4, H5. clear H1 H2 H3 H4 H5.
  assert (K : Forall2 (fun r r' => same_but_rol r r'
                                   /\ (Db.idusuario r <> params_id req -> r' = r))
                (Db.usuarios s) (Db.usuarios s)).
  { rewrite <- (map_id (Db.usuarios s)) at 2. apply Forall2_map_same.
    intros r. repeat split. }
  run; cbn [is_undefined negb andb app Db.exec snd Db.with_usuarios Db.usuarios] in *;
    try discriminate;
    (split;
     [ repeat (constructor; try (cbn [is_update]; intros; congruence))
     | try exact K ]).
  all: apply Forall2_map_same; intros r; unfold Db.has_id;
    destruct (Z.eqb_spec (Db.idusuario r) (params_id req)) as [E | E];
    cbn [fold_left Db.assign]; repeat split; try reflexivity;
    intros N; now elim N.
Qed.

(** The same update on an existing row, the role being valid and the store
    answering. *)
Lemma update_role_alone_succeeds
    (bcrypt_hash : string -> Z -> string) (req : request) (v : value)
    (s : Db.store) (f : list (option string)) :
  field req "nombre" = Undefined ->
  field req "email" = Undefined ->
  field req "password" = Undefined ->
  field req "rol" = v ->
  field req "activo" = Undefined ->
  role_rule v ->
  exists_id (params_id req) s ->
  no_fault f ->
  let after := snd (serve (updateUsuario bcrypt_hash) req s f) in
  calls after = [Query (Db.SelectStarById (params_id req));
                 Query (Db.Update [Db.SetRol v] (params_id req))]
  /\ sent after = json 200 (Obj [("rol", v)])
  /\ Forall2
       (fun r r' =>
          same_but_rol r r'
          /\ (Db.idusuario r = params_id req -> Db.rol r' = v)
          /\ (Db.idusuario r <> params_id req -> r' = r))
       (Db.usuarios s) (Db.usuarios (db after))
  /\ Db.auto_increment (db after) = Db.auto_increment s
  /\ Db.now (db after) = Db.now s.
Proof.
  intros H1 H2 H3 H4 H5 R X F.
  apply lookup_finds in X.
  pose proof (no_fault_next _ F) as F1.
  pose proof (no_fault_next _ (no_fault_tl _ F)) as F2.
  assert (U : is_undefined v = false) by (destruct R as [-> | ->]; reflexivity).
  apply rol_rule in R.
  unfold serve, updateUsuario. cbv zeta. unfold field in *.
  rewrite H1, H2, H3, H4, H5. follow.
  cbn [Db.exec snd Db.with_usuarios Db.usuarios Db.auto_increment Db.now].
  repeat split.
  apply Forall2_map_same. intros r. unfold Db.has_id.
  destruct (Z.eqb_spec (Db.idusuario r) (params_id req)) as [E | E].
  - cbn. repeat split; try reflexivity. intros N; now elim N.
  - repeat split. intros N; now elim E.
Qed.

(** C7.  An [updateUsuario] call on an existing identifier whose body
    supplies the role alone, a valid one such as [admin]: the UPDATE
    statement sets the column [rol] and no other; afterwards every column
    but [rol] of the target row is as before, and so is every other row;
    the body of the answer is the single field [rol] with the role sent.
    The frame holds whatever the store does; the answer is the one of a
    store that answers. *)
Theorem update_role_alone
    (bcrypt_hash : string -> Z -> string) (req : request) (v : value)
    (s : Db.store) (f : list (option string)) :
  field req "nombre" = Undefined ->
  field req "email" = Undefined ->
  field req "password" = Undefined ->
  field req "rol" = v ->
  field req "activo" = Undefined ->
  role_rule v ->
  exists_id (params_id req) s ->
  let after := snd (serve (updateUsuario bcrypt_hash) req s f) in
  (Forall (fun e => is_update e = true ->
                    e = Query (Db.Update [Db.SetRol v] (params_id req)))
     (calls after)
   /\ Forall2 (fun r r' => same_but_rol r r'
                           /\ (Db.idusuario r <> params_id req -> r' = r))
        (Db.usuarios s) (Db.usuarios (db after)))
  /\ (no_fault f ->
      calls after = [Query (Db.SelectStarById (params_id req));
                     Query (Db.Update [Db.SetRol v] (params_id req))]
      /\ sent after = json 200 (Obj [("rol", v)])
      /\ Forall2
           (fun r r' =>
              same_but_rol r r'
              /\ (Db.idusuario r = params_id req -> Db.rol r' = v)
              /\ (Db.idusuario r <> params_id req -> r' = r))
           (Db.usuarios s) (Db.usuarios (db after))
      /\ Db.auto_increment (db after) = Db.auto_increment s
      /\ Db.now (db after) = Db.now s).
Proof.
  intros H1 H2 H3 H4 H5 R X. split.
  - now apply update_role_alone_frame.
  - intros F. now apply update_role_alone_succeeds.
Qed.

Lemma update_role_alone_witness :
  let after := snd (serve (updateUsuario sample_hash)
                      (request_of 1 [("rol", Str "admin")]) store_with_ana []) in
  calls after = [Query (Db.SelectStarById 1);
                 Query (Db.Update [Db.SetRol (Str "admin")] 1)]
  /\ sent after = json 200 (Obj [("rol", Str "admin")])
  /\ Forall2
       (fun r r' =>
          same_but_rol r r'
          /\ (Db.idusuario r = 1 -> Db.rol r' = Str "admin")
          /\ (Db.idusuario r <> 1 -> r' = r))
       [ana] (Db.usuarios (db after))
  /\ Db.auto_increment (db after) = 2
  /\ Db.now (db after) = "2024-01-01 00:00:00".
Proof.
  apply (update_role_alone sample_hash (request_of 1 [("rol", Str "admin")])
           (Str "admin") store_with_ana []); try reflexivity.
  - now right.
  - exists ana. split; [now left | reflexivity].
  - constructor.
Defined.

(* ===================================================================== *)
(** * Acceptance of [activo] *)
(* ===================================================================== *)

Section ActiveAcceptance.

Variable bcrypt_hash : string -> Z -> string.

(** A broken [activo] makes [createUsuario] answer BadRequest, whatever
    the other fields. *)
Lemma create_broken_activo_refused (req : request) (s : Db.store)
    (f : list (option string)) :
  active_broken (activo_or_default req) ->
  exists m, refused_untouched bcrypt_hash req s f m.
Proof.
  intros A. apply activo_is_rejected in A.
  destruct (create_nombre_rejected (field req "nombre")) eqn:N;
    [eexists; now apply create_refuses_nombre|].
  destruct (create_email_rejected (field req "email")) eqn:E;
    [eexists; now apply create_refuses_email|].
  destruct (create_password_rejected (field req "password")) eqn:P;
    [eexists; now apply create_refuses_password|].
  destruct (rol_rejected (rol_or_default req)) eqn:R;
    [eexists; now apply create_refuses_rol|].
  eexists; now apply create_refuses_activo.
Qed.

(** With valid fields, [createUsuario] goes on to ask the store about the
    email. *)
Lemma create_valid_reaches_store (req : request) (s : Db.store)
    (f : list (option string)) :
  name_rule (field req "nombre") ->
  email_rule (field req "email") ->
  password_rule (field req "password") ->
  role_rule (rol_or_default req) ->
  active_rule (activo_or_default req) ->
  exists e rest,
    field req "email" = Str e
    /\ calls (snd (serve (createUsuario bcrypt_hash) req s f))
       = Query (Db.SelectIdByEmail (toLowerCase e)) :: rest.
Proof.
  intros N E P R A.
  apply create_nombre_rule in N. apply create_password_rule in P.
  apply rol_rule in R. apply activo_not_rejected in A.
  destruct E as [e [Ee E]]. exists e.
  assert (E' : create_email_rejected (Str e) = false)
    by (apply create_email_rule; now exists e).
  revert N P R A.
  unfold serve, createUsuario, rol_or_default, activo_or_default, field.
  cbv zeta. unfold field in Ee. rewrite Ee.
  generalize (get (req_body req) "nombre") (get (req_body req) "password")
    (default (get (req_body req) "rol") (Str "cliente"))
    (default (get (req_body req) "activo") (Num (of_Z 1))).
  intros v1 v3 v4 v5 N P R A.
  rewrite N, E', P, R. plumbing. rewrite A. cbn [call_toLowerCase].
  run; cbn [app]; eexists; (split; [reflexivity|]); reflexivity.
Qed.

(** An update that supplies [activo] alone, on an existing row. *)
Lemma update_activo_alone (req : request) (v : value) (s : Db.store)
    (f : list (option string)) :
  field req "nombre" = Undefined ->
  field req "email" = Undefined ->
  field req "password" = Undefined ->
  field req "rol" = Undefined ->
  field req "activo" = v ->
  supplied v ->
  exists_id (params_id req) s ->
  no_fault f ->
  (active_broken v ->
   serve (updateUsuario bcrypt_hash) req s f
   = (Return, {| db := s; faults := tl f;
                 calls := [Query (Db.SelectStarById (params_id req))];
                 sent := bad_request msg_activo |}))
  /\ (active_rule v ->
      serve (updateUsuario bcrypt_hash) req s f
      = (Normal tt,
         {| db := snd (Db.exec (Db.Update [Db.SetActivo v] (params_id req)) s);
            faults := tl (tl f);
            calls := [Query (Db.SelectStarById (params_id req));
                      Query (Db.Update [Db.SetActivo v] (params_id req))];
            sent := json 200 (Obj [("activo", v)]) |})).
Proof.
  intros H1 H2 H3 H4 H5 U X F.
  apply lookup_finds in X.
  pose proof (no_fault_next _ F) as F1.
  pose proof (no_fault_next _ (no_fault_tl _ F)) as F2.
  assert (U' : is_undefined v = false) by (destruct v; [now elim U | reflexivity ..]).
  unfold field in *.
  split; intros A.
  - apply activo_is_rejected in A.
    unfold serve, updateUsuario. cbv zeta.
    rewrite H1, H2, H3, H4, H5. follow. reflexivity.
  - apply activo_not_rejected in A.
    unfold serve, updateUsuario. cbv zeta.
    rewrite H1, H2, H3, H4, H5. follow. reflexivity.
Qed.

End ActiveAcceptance.

(** C5.  In [createUsuario] and in [updateUsuario] alike, a supplied
    [activo] is accepted exactly when its coercion by [Number] gives 0 or 1.
    The numbers 0 and 1 and the strings ["0"] and ["1"] are accepted; 2, -1
    and ["yes"] are rejected, with a BadRequest: always in [createUsuario]
    (on [activo] itself when the fields before it are valid), and in
    [updateUsuario] at the test of [activo], which the handler reaches once
    it has found the target row. *)
Theorem activo_accepted_exactly_when_zero_or_one
    (bcrypt_hash : string -> Z -> string) (req : request) (s : Db.store)
    (f : list (option string)) :
  (* the test of both handlers *)
  (forall v, activo_rejected v = Normal false <-> active_rule v)
  /\ (forall v, activo_rejected v = Normal true <-> active_broken v)
  (* the values named *)
  /\ Forall active_rule [Num (of_Z 0); Num (of_Z 1); Str "0"; Str "1"]
  /\ Forall active_broken [Num (of_Z 2); Num (of_Z (-1)); Str "yes"]
  (* createUsuario *)
  /\ (active_broken (activo_or_default req) ->
      exists m, refused_untouched bcrypt_hash req s f m)
  /\ (name_rule (field req "nombre") ->
      email_rule (field req "email") ->
      password_rule (field req "password") ->
      role_rule (rol_or_default req) ->
      (active_broken (activo_or_default req) ->
       refused_untouched bcrypt_hash req s f msg_activo)
      /\ (active_rule (activo_or_default req) ->
          exists e rest,
            field req "email" = Str e
            /\ calls (snd (serve (createUsuario bcrypt_hash) req s f))
               = Query (Db.SelectIdByEmail (toLowerCase e)) :: rest))
  (* updateUsuario *)
  /\ (supplied (field req "activo") ->
      active_broken (field req "activo") ->
      exists_id (params_id req) s ->
      no_fault f ->
      (exists m,
         response_of (serve (updateUsuario bcrypt_hash) req s f) = bad_request m)
      /\ db (snd (serve (updateUsuario bcrypt_hash) req s f)) = s)
  /\ (field req "nombre" = Undefined ->
      field req "email" = Undefined ->
      field req "password" = Undefined ->
      field req "rol" = Undefined ->
      supplied (field req "activo") ->
      exists_id (params_id req) s ->
      no_fault f ->
      (active_broken (field req "activo") ->
       serve (updateUsuario bcrypt_hash) req s f
       = (Return, {| db := s; faults := tl f;
                     calls := [Query (Db.SelectStarById (params_id req))];
                     sent := bad_request msg_activo |}))
      /\ (active_rule (field req "activo") ->
          serve (updateUsuario bcrypt_hash) req s f
          = (Normal tt,
             {| db := snd (Db.exec (Db.Update [Db.SetActivo (field req "activo")]
                                      (params_id req)) s);
                faults := tl (tl f);
                calls := [Query (Db.SelectStarById (params_id req));
                          Query (Db.Update [Db.SetActivo (field req "activo")]
                                   (params_id req))];
                sent := json 200 (Obj [("activo", field req "activo")]) |}))).
Proof.
  split; [exact activo_not_rejected|].
  split; [exact activo_is_rejected|].
  split.
  { repeat constructor; eexists; (split; [reflexivity | vm_compute; reflexivity]). }
  split.
  { repeat constructor; eexists; (split; [reflexivity | vm_compute; reflexivity]). }
  split; [apply create_broken_activo_refused|].
  split.
  { intros N E P R. split; intros A.
    - apply create_refuses_activo.
      + now apply create_nombre_rule.
      + now apply create_email_rule.
      + now apply create_password_rule.
      + now apply rol_rule.
      + now apply activo_is_rejected.
    - apply create_valid_reaches_store; assumption. }
  split.
  { intros U A X F.
    assert (V : update_fails_validation req).
    { do 4 right. split; [exact U | now apply activo_is_rejected]. }
    split.
    - now apply update_failure_is_bad_request.
    - now apply update_failure_keeps_store. }
  intros H1 H2 H3 H4 U X F.
  now apply update_activo_alone.
Qed.

Lemma activo_accepted_exactly_when_zero_or_one_witness :
  serve (updateUsuario sample_hash) (request_of 1 [("activo", Num (of_Z 2))])
    store_with_ana []
  = (Return, {| db := store_with_ana; faults := [];
                calls := [Query (Db.SelectStarById 1)];
                sent := bad_request msg_activo |}).
Proof.
  apply (activo_accepted_exactly_when_zero_or_one sample_hash
           (request_of 1 [("activo", Num (of_Z 2))]) store_with_ana []);
    try reflexivity.
  - discriminate.
  - exists ana. split; [now left | reflexivity].
  - constructor.
  - eexists. split; [reflexivity | vm_compute; reflexivity].
Defined.

(* ===================================================================== *)
(** * The bodies of the responses *)
(* ===================================================================== *)

Lemma public_columns_hide_password (l : list Db.usuario) :
  existsb names_password (flat_map fields_of (map Db.public_columns l)) = false.
Proof.
  induction l as [|r l IH]; [reflexivity|].
  cbn [map flat_map]. rewrite existsb_app, IH. reflexivity.
Qed.

Lemma first_row_hides_password (l : list Db.usuario) :
  existsb names_password
    (record_fields (nth 0 (map Db.public_columns l) Undefined)) = false.
Proof. destruct l; reflexivity. Qed.

Section Responses.

Variable req : request.
Variable s : Db.store.
Variable f : list (option string).

Ltac shaped :=
  intros [= <-]; unfold well_shaped, error_shaped, message_shaped, error_body,
    message_body; cbn [status body];
  repeat split; intros; try (eexists; reflexivity); try lia;
  cbn; tauto.

Lemma getAllUsuarios_shape (r : response) :
  response_of (serve getAllUsuarios req s f) = Some r -> well_shaped r.
Proof. unfold serve, getAllUsuarios. run; shaped. Qed.

Lemma getUsuarioById_shape (r : response) :
  response_of (serve getUsuarioById req s f) = Some r -> well_shaped r.
Proof. unfold serve, getUsuarioById. cbv zeta. run; shaped. Qed.

Lemma deleteUsuario_shape (r : response) :
  response_of (serve deleteUsuario req s f) = Some r -> well_shaped r.
Proof. unfold serve, deleteUsuario. cbv zeta. run; shaped. Qed.

Ltac hidden :=
  intros [= <-]; unfold exposes_password; cbn [body];
  first [ reflexivity
        | cbn [Db.exec fst Db.rows_of record_fields];
          first [ apply public_columns_hide_password
                | apply first_row_hides_password ] ].

Lemma getAllUsuarios_hides_password (r : response) :
  response_of (serve getAllUsuarios req s f) = Some r ->
  exposes_password r = false.
Proof. unfold serve, getAllUsuarios. run; hidden. Qed.

Lemma getUsuarioById_hides_password (r : response) :
  response_of (serve getUsuarioById req s f) = Some r ->
  exposes_password r = false.
Proof. unfold serve, getUsuarioById. cbv zeta. run; hidden. Qed.

Lemma deleteUsuario_hides_password (r : response) :
  response_of (serve deleteUsuario req s f) = Some r ->
  exposes_password r = false.
Proof. unfold serve, deleteUsuario. cbv zeta. run; hidden. Qed.

Variable bcrypt_hash : string -> Z -> string.

Lemma createUsuario_shape (r : response) :
  response_of (serve (createUsuario bcrypt_hash) req s f) = Some r ->
  well_shaped r.
Proof.
  unfold serve, createUsuario. cbv zeta.
  generalize (get (req_body req) "nombre") (get (req_body req) "email")
    (get (req_body req) "password")
    (default (get (req_body req) "rol") (Str "cliente"))
    (default (get (req_body req) "activo") (Num (of_Z 1))).
  intros v1 v2 v3 v4 v5.
  run; try discriminate; shaped.
Qed.

Lemma updateUsuario_shape (r : response) :
  response_of (serve (updateUsuario bcrypt_hash) req s f) = Some r ->
  well_shaped r.
Proof.
  unfold serve, updateUsuario. cbv zeta.
  generalize (get (req_body req) "nombre") (get (req_body req) "email")
    (get (req_body req) "password") (get (req_body req) "rol")
    (get (req_body req) "activo").
  intros v1 v2 v3 v4 v5.
  run; shaped.
Qed.

Lemma createUsuario_hides_password (r : response) :
  response_of (serve (createUsuario bcrypt_hash) req s f) = Some r ->
  exposes_password r = false.
Proof.
  unfold serve, createUsuario. cbv zeta.
  generalize (get (req_body req) "nombre") (get (req_body req) "email")
    (get (req_body req) "password")
    (default (get (req_body req) "rol") (Str "cliente"))
    (default (get (req_body req) "activo") (Num (of_Z 1))).
  intros v1 v2 v3 v4 v5.
  run; try discriminate; hidden.
Qed.

Lemma updateUsuario_hides_password (r : response) :
  response_of (serve (updateUsuario bcrypt_hash) req s f) = Some r ->
  exposes_password r = false.
Proof.
  unfold serve, updateUsuario. cbv zeta.
  generalize (get (req_body req) "nombre") (get (req_body req) "email")
    (get (req_body req) "password") (get (req_body req) "rol")
    (get (req_body req) "activo").
  intros v1 v2 v3 v4 v5.
  run; hidden.
Qed.

End Responses.

(** C1.  Whatever the request, to any of the five handlers, and whatever
    the status of the answer, success or error, the body sent has no field
    for the password or its hash, neither as the record sent nor in a
    record of the array sent. *)
Theorem responses_never_expose_password
    (bcrypt_hash : string -> Z -> string) (handler : request -> M unit)
    (req : request) (s : Db.store) (f : list (option string)) (r : response) :
  In handler (exports bcrypt_hash) ->
  response_of (serve handler req s f) = Some r ->
  exposes_password r = false.
Proof.
  unfold exports. cbn [In].
  intros [<- | [<- | [<- | [<- | [<- | []]]]]].
  - apply getAllUsuarios_hides_password.
  - apply getUsuarioById_hides_password.
  - apply createUsuario_hides_password.
  - apply updateUsuario_hides_password.
  - apply deleteUsuario_hides_password.
Qed.

Lemma responses_never_expose_password_witness :
  exposes_password
    {| status := 200;
       body := Some (Arr [Db.public_columns ana]) |} = false.
Proof.
  apply (responses_never_expose_password sample_hash getAllUsuarios
           (request_of 0 []) store_with_ana []).
  - now left.
  - reflexivity.
Defined.

(** C8.  In the five handlers, every answer for a validation error
    (status 400) and every answer for a server error (status 500) has a
    body of the shape [{ error: string }], and every answer for a row not
    found (status 404) a body of the shape [{ message: string }]; no other
    status than 200, 201, 204, 400, 404 and 500 is sent. *)
Theorem error_bodies_follow_their_class
    (bcrypt_hash : string -> Z -> string) (handler : request -> M unit)
    (req : request) (s : Db.store) (f : list (option string)) (r : response) :
  In handler (exports bcrypt_hash) ->
  response_of (serve handler req s f) = Some r ->
  (status r = 400 \/ status r = 500 -> error_shaped r)
  /\ (status r = 404 -> message_shaped r)
  /\ In (status r) [200; 201; 204; 400; 404; 500].
Proof.
  unfold exports. cbn [In].
  intros [<- | [<- | [<- | [<- | [<- | []]]]]].
  - intros H. eapply getAllUsuarios_shape. exact H.
  - intros H. eapply getUsuarioById_shape. exact H.
  - intros H. eapply createUsuario_shape. exact H.
  - intros H. eapply updateUsuario_shape. exact H.
  - intros H. eapply deleteUsuario_shape. exact H.
Qed.

Lemma error_bodies_follow_their_class_witness :
  well_shaped {| status := 404; body := Some (message_body msg_not_found) |}.
Proof.
  unfold well_shaped.
  apply (error_bodies_follow_their_class sample_hash deleteUsuario
           (request_of 7 []) empty_store []
           {| status := 404; body := Some (message_body msg_not_found) |}).
  - do 4 right. now left.
  - reflexivity.
Defined.

(* ===================================================================== *)
(** * Values written to [rol] and [activo] *)
(* ===================================================================== *)

Section Written.

Variable bcrypt_hash : string -> Z -> string.
Variable req : request.
Variable s : Db.store.
Variable f : list (option string).

Ltac written :=
  cbn [app];
  repeat first
    [ apply Forall_nil
    | apply Forall_cons
    | split
    | progress cbn [rol_written activo_written flat_map app
                    rol_assigned activo_assigned] ];
  try reflexivity;
  try (apply rol_rule; assumption);
  try (apply activo_not_rejected; assumption).

Lemma createUsuario_writes :
  writes_pass_the_tests (snd (serve (createUsuario bcrypt_hash) req s f))
  /\ inserts_as_sent req (snd (serve (createUsuario bcrypt_hash) req s f)).
Proof.
  unfold writes_pass_the_tests, inserts_as_sent, rol_or_default,
    activo_or_default, field, serve, createUsuario. cbv zeta.
  generalize (get (req_body req) "nombre") (get (req_body req) "email")
    (get (req_body req) "password")
    (default (get (req_body req) "rol") (Str "cliente"))
    (default (get (req_body req) "activo") (Num (of_Z 1))).
  intros v1 v2 v3 v4 v5.
  run; split; written.
Qed.

Lemma updateUsuario_writes :
  writes_pass_the_tests (snd (serve (updateUsuario bcrypt_hash) req s f))
  /\ updates_as_sent req (snd (serve (updateUsuario bcrypt_hash) req s f)).
Proof.
  unfold writes_pass_the_tests, updates_as_sent, field, serve, updateUsuario.
  cbv zeta.
  generalize (get (req_body req) "nombre") (get (req_body req) "email")
    (get (req_body req) "password") (get (req_body req) "rol")
    (get (req_body req) "activo").
  intros v1 v2 v3 v4 v5.
  run; split; written.
Qed.

End Written.

(** C3, as amended.  In every run of [createUsuario] and of
    [updateUsuario], hence after every successful one, the value written to
    the column [rol] is [cliente] or [admin], and the value written to the
    column [activo] is the value of the request itself (the default 1 when
    [createUsuario] is sent none), not its coercion: a value whose number
    is 0 or 1.  The row inserted by a successful [createUsuario] holds
    these two values. *)
Theorem written_rol_and_activo_pass_the_tests
    (bcrypt_hash : string -> Z -> string) (req : request) (s : Db.store)
    (f : list (option string)) :
  (writes_pass_the_tests (snd (serve (createUsuario bcrypt_hash) req s f))
   /\ inserts_as_sent req (snd (serve (createUsuario bcrypt_hash) req s f)))
  /\ (writes_pass_the_tests (snd (serve (updateUsuario bcrypt_hash) req s f))
      /\ updates_as_sent req (snd (serve (updateUsuario bcrypt_hash) req s f)))
  /\ (forall r,
        response_of (serve (createUsuario bcrypt_hash) req s f) = Some r ->
        status r = 201 ->
        exists row,
          Db.usuarios (db (snd (serve (createUsuario bcrypt_hash) req s f)))
          = (Db.usuarios s ++ [row])%list
          /\ Db.rol row = rol_or_default req
          /\ Db.activo row = activo_or_default req
          /\ role_rule (Db.rol row)
          /\ active_rule (Db.activo row)).
Proof.
  split; [apply createUsuario_writes|].
  split; [apply updateUsuario_writes|].
  unfold rol_or_default, activo_or_default, field, serve, createUsuario.
  cbv zeta.
  generalize (get (req_body req) "nombre") (get (req_body req) "email")
    (get (req_body req) "password")
    (default (get (req_body req) "rol") (Str "cliente"))
    (default (get (req_body req) "activo") (Num (of_Z 1))).
  intros v1 v2 v3 v4 v5 r.
  run; intros E; try discriminate E; injection E as <-; cbn [status];
    intros C; try discriminate C.
  cbn [Db.exec snd Db.usuarios]. eexists. split; [reflexivity|].
  cbn [Db.rol Db.activo]. repeat split.
  - now apply rol_rule.
  - now apply activo_not_rejected.
Qed.

Lemma written_rol_and_activo_pass_the_tests_witness :
  exists row,
    Db.usuarios
      (db (snd (serve (createUsuario sample_hash)
                  (request_of 0 [("nombre", Str "Eva"); ("email", Str "eva@x.com");
                                 ("password", Str "secret2"); ("activo", Str "1")])
                  store_with_ana [])))
    = ([ana] ++ [row])%list
    /\ Db.rol row = Str "cliente"
    /\ Db.activo row = Str "1"
    /\ role_rule (Db.rol row)
    /\ active_rule (Db.activo row).
Proof.
  apply (proj2 (proj2 (written_rol_and_activo_pass_the_tests sample_hash
           (request_of 0 [("nombre", Str "Eva"); ("email", Str "eva@x.com");
                          ("password", Str "secret2"); ("activo", Str "1")])
           store_with_ana []))
           {| status := 201;
              body := Some (Obj [("idusuario", Num (of_Z 2));
                                 ("nombre", Str "Eva");
                                 ("email", Str "eva@x.com");
                                 ("rol", Str "cliente");
                                 ("activo", Str "1")]) |}).
  - reflexivity.
  - reflexivity.
Defined.

(** The values [null] and ["1"] pass the test on [activo] and are written
    as they are: neither is the number 0 or 1. *)
Lemma activo_written_is_not_a_number :
  (let after := snd (serve (createUsuario sample_hash)
                       (request_of 0 [("nombre", Str "Eva");
                                      ("email", Str "eva@x.com");
                                      ("password", Str "secret2");
                                      ("activo", Null)])
                       store_with_ana []) in
   (exists b, sent after = json 201 b)
   /\ map Db.activo (Db.usuarios (db after)) = [Num (of_Z 1); Null]
   /\ ~ writes_in_the_sets after)
  /\ (let after := snd (serve (updateUsuario sample_hash)
                          (request_of 1 [("activo", Str "1")])
                          store_with_ana []) in
      sent after = json 200 (Obj [("activo", Str "1")])
      /\ map Db.activo (Db.usuarios (db after)) = [Str "1"]
      /\ ~ writes_in_the_sets after).
Proof.
  split; cbv zeta.
  - split; [eexists; reflexivity|]. split; [reflexivity|].
    unfold writes_in_the_sets. intros H. rewrite Forall_forall in H.
    destruct (H (Query (Db.Insert "Eva" "eva@x.com" (sample_hash "secret2" 10)
                          (Str "cliente") Null))) as [_ A].
    + right. right. left. reflexivity.
    + inversion A as [|x l [n [E _]] T]. discriminate E.
  - split; [reflexivity|]. split; [reflexivity|].
    unfold writes_in_the_sets. intros H. rewrite Forall_forall in H.
    destruct (H (Query (Db.Update [Db.SetActivo (Str "1")] 1))) as [_ A].
    + right. left. reflexivity.
    + inversion A as [|x l [n [E _]] T]. discriminate E.
Qed.

(* ===================================================================== *)
(** * Uniqueness of emails *)
(* ===================================================================== *)

Lemma no_row_with_lower_email (lowered : string) (s : Db.store) :
  (0 <? Z.of_nat (List.length
                    (Db.rows_of (fst (Db.exec (Db.SelectIdByEmail lowered) s)))))
  = false ->
  ~ In lowered (map (fun r => toLowerCase (Db.email r)) (Db.usuarios s)).
Proof.
  cbn [Db.exec fst Db.rows_of]. rewrite length_map. intros H I.
  apply in_map_iff in I. destruct I as [r [E I]].
  assert (X : In r (filter (Db.has_lower_email lowered) (Db.usuarios s))).
  { apply filter_In. split; [exact I|]. unfold Db.has_lower_email.
    now apply String.eqb_eq. }
  destruct (filter (Db.has_lower_email lowered) (Db.usuarios s)); [exact X|].
  cbn in H. discriminate H.
Qed.

(** When the email sent has no white space around it, [createUsuario]
    keeps the emails unique. *)
Lemma create_trimmed_email_keeps_unique
    (bcrypt_hash : string -> Z -> string) (req : request) (s : Db.store)
    (f : list (option string)) :
  emails_unique s ->
  (forall e, field req "email" = Str e -> trim e = e) ->
  emails_unique (db (snd (serve (createUsuario bcrypt_hash) req s f))).
Proof.
  unfold field, serve, createUsuario. cbv zeta.
  generalize (get (req_body req) "nombre") (get (req_body req) "email")
    (get (req_body req) "password")
    (default (get (req_body req) "rol") (Str "cliente"))
    (default (get (req_body req) "activo") (Num (of_Z 1))).
  intros v1 v2 v3 v4 v5 U T.
  run; cbn [Db.exec snd]; try exact U.
  all: match goal with
       | H : create_email_rejected _ = false |- _ =>
           apply create_email_rule in H; destruct H as [e [-> _]]
       end.
  all: cbn [call_toLowerCase call_trim] in *.
  all: repeat match goal with H : Normal _ = Normal _ |- _ =>
                injection H as <- end.
  all: unfold emails_unique; cbn [Db.usuarios Db.email].
  all: rewrite map_app; cbn [map Db.email].
  all: rewrite (T e eq_refl).
  all: apply NoDup_app.
  - exact U.
  - constructor; [intros I; destruct I | constructor].
  - intros x I [<- | []]. revert I. now apply no_row_with_lower_email.
Qed.

Lemma no_other_row_with_lower_email (lowered : string) (id : Z) (s : Db.store) :
  (0 <? Z.of_nat (List.length
                    (Db.rows_of
                       (fst (Db.exec (Db.SelectIdByEmailExcept lowered id) s)))))
  = false ->
  forall r, In r (Db.usuarios s) -> Db.idusuario r <> id ->
            toLowerCase (Db.email r) <> lowered.
Proof.
  cbn [Db.exec fst Db.rows_of]. rewrite length_map. intros H r I N E.
  assert (X : In r (filter (fun r => Db.has_lower_email lowered r
                                     && negb (Db.has_id id r))
                      (Db.usuarios s))).
  { apply filter_In. split; [exact I|]. unfold Db.has_lower_email, Db.has_id.
    apply andb_true_iff. split; [now apply String.eqb_eq|].
    apply negb_true_iff. now apply Z.eqb_neq. }
  destruct (filter _ (Db.usuarios s)); [exact X|]. cbn in H. discriminate H.
Qed.

(** Replacing the key of the one row of identifier [i] by a key that no
    other row has keeps the keys distinct. *)
Lemma NoDup_map_replace {A : Type} (key : A -> string) (idf : A -> Z)
    (g : A -> A) (i : Z) (x : string) (l : list A) :
  NoDup (map key l) ->
  NoDup (map idf l) ->
  (forall r, In r l -> idf r <> i -> key r <> x) ->
  (forall r, key (g r) = x) ->
  NoDup (map (fun r => key (if idf r =? i then g r else r)) l).
Proof.
  intros K I O G. induction l as [|a l IH]; [constructor|].
  cbn [map] in *. apply NoDup_cons_iff in K. destruct K as [Ka K].
  apply NoDup_cons_iff in I. destruct I as [Ia I].
  destruct (Z.eqb_spec (idf a) i) as [E | E].
  - assert (S : map (fun r => key (if idf r =? i then g r else r)) l = map key l).
    { apply map_ext_in. intros r R.
      destruct (Z.eqb_spec (idf r) i) as [E' | E']; [|reflexivity].
      elim Ia. apply in_map_iff. exists r. split; [congruence | exact R]. }
    rewrite S, G. constructor; [|exact K].
    intros X. apply in_map_iff in X. destruct X as [r [Er R]].
    apply (O r); [now right | | exact Er].
    intros E'. elim Ia. apply in_map_iff. exists r. split; [congruence | exact R].
  - constructor.
    + intros X. apply in_map_iff in X. destruct X as [r [Er R]].
      destruct (Z.eqb_spec (idf r) i) as [E' | E'].
      * rewrite G in Er. apply (O a); [now left | exact E | congruence].
      * elim Ka. apply in_map_iff. exists r. split; [exact Er | exact R].
    + apply IH; try assumption. intros r R. apply O. now right.
Qed.

(** When the email sent has no white space around it and identifiers are
    unique, [updateUsuario] keeps the emails unique. *)
Lemma update_trimmed_email_keeps_unique
    (bcrypt_hash : string -> Z -> string) (req : request) (s : Db.store)
    (f : list (option string)) :
  emails_unique s ->
  ids_unique s ->
  (forall e, field req "email" = Str e -> trim e = e) ->
  emails_unique (db (snd (serve (updateUsuario bcrypt_hash) req s f))).
Proof.
  unfold field, serve, updateUsuario. cbv zeta.
  generalize (get (req_body req) "nombre") (get (req_body req) "email")
    (get (req_body req) "password") (get (req_body req) "rol")
    (get (req_body req) "activo").
  intros v1 v2 v3 v4 v5 U I T.
  run; cbn [Db.exec snd]; try exact U.
  all: unfold emails_unique; cbn [Db.with_usuarios Db.usuarios app];
    rewrite map_map.
  all: try (erewrite map_ext; [exact U|]; intros r; cbn beta;
            destruct (Db.has_id (params_id req) r); reflexivity).
  all: match goal with
       | H : update_email_rejected _ = false |- _ =>
           apply update_email_rule in H; destruct H as [e [-> _]]
       end.
  all: cbn [call_toLowerCase call_trim] in *.
  all: repeat match goal with H : Normal _ = Normal _ |- _ =>
                injection H as <- end.
  all: rewrite (T e eq_refl) in *.
  all: unfold Db.has_id;
    apply (NoDup_map_replace (fun r => toLowerCase (Db.email r)) Db.idusuario
             _ (params_id req) (toLowerCase e));
    [ exact U | exact I
    | now apply no_other_row_with_lower_email
    | intros r; reflexivity ].
Qed.

(** C2 at its failing input.  The check of [createUsuario] for an existing
    email compares the email as sent, lowered, while the row is inserted
    with the email trimmed: an email sent with a leading space passes the
    check and duplicates a stored email.  [updateUsuario] has the same
    check and the same write. *)
Theorem untrimmed_email_breaks_uniqueness :
  (let after :=
     snd (serve (createUsuario sample_hash)
            (request_of 0 [("nombre", Str "Ana"); ("email", Str " ana@x.com");
                           ("password", Str "secret1")])
            store_with_ana []) in
   emails_unique store_with_ana
   /\ (exists b, sent after = json 201 b)
   /\ map Db.email (Db.usuarios (db after)) = ["ana@x.com"; "ana@x.com"]
   /\ ~ emails_unique (db after))
  /\ (let after :=
        snd (serve (updateUsuario sample_hash)
               (request_of 2 [("email", Str " ana@x.com")])
               store_with_ana_and_eva []) in
      emails_unique store_with_ana_and_eva
      /\ sent after = json 200 (Obj [("email", Str "ana@x.com")])
      /\ map Db.email (Db.usuarios (db after)) = ["ana@x.com"; "ana@x.com"]
      /\ ~ emails_unique (db after)).
Proof.
  split; cbv zeta.
  - split.
    { unfold emails_unique. cbn. repeat constructor. intros []. }
    split; [eexists; reflexivity|]. split; [reflexivity|].
    unfold emails_unique. intros H. vm_compute in H.
    inversion H as [|x l N _]. apply N. now left.
  - split.
    { unfold emails_unique. vm_compute. repeat constructor.
      - intros [E | []]. discriminate E.
      - intros []. }
    split; [reflexivity|]. split; [reflexivity|].
    unfold emails_unique. intros H. vm_compute in H.
    inversion H as [|x l N _]. apply N. now left.
Qed.

(* ===================================================================== *)
(** * The number of an integer is zero for zero only *)
(* ===================================================================== *)

Lemma digits2_pos_lower (p : positive) :
  2 ^ (Z.pos (digits2_pos p) - 1) <= Z.pos p.
Proof.
  induction p as [p IH | p IH |]; cbn [digits2_pos].
  - rewrite Pos2Z.inj_succ.
    replace (Z.succ (Z.pos (digits2_pos p)) - 1)
      with (Z.succ (Z.pos (digits2_pos p) - 1)) by lia.
    rewrite Z.pow_succ_r by lia. lia.
  - rewrite Pos2Z.inj_succ.
    replace (Z.succ (Z.pos (digits2_pos p)) - 1)
      with (Z.succ (Z.pos (digits2_pos p) - 1)) by lia.
    rewrite Z.pow_succ_r by lia. lia.
  - cbn. lia.
Qed.

Lemma shr_1_half (x : shr_record) :
  0 <= shr_m x -> shr_m (shr_1 x) = shr_m x / 2.
Proof.
  destruct x as [m r s]. cbn [shr_m]. intros H.
  destruct m as [|[p|p|]|p]; cbn [shr_1 shr_m]; try lia.
  - reflexivity.
  - apply Z.div_unique with (r := 1); lia.
  - apply Z.div_unique with (r := 0); lia.
  - reflexivity.
Qed.

Lemma shr_iter_quotient (n : positive) :
  forall x, 0 <= shr_m x ->
            shr_m (iter_pos shr_1 n x) = shr_m x / 2 ^ Z.pos n.
Proof.
  induction n as [n IH | n IH |]; intros x H; cbn [iter_pos].
  - assert (H1 : 0 <= shr_m (shr_1 x))
      by (rewrite shr_1_half by exact H; apply Z.div_pos; lia).
    assert (H2 : 0 <= shr_m (iter_pos shr_1 n (shr_1 x)))
      by (rewrite IH by exact H1; apply Z.div_pos; [exact H1 | lia]).
    rewrite IH by exact H2. rewrite IH by exact H1. rewrite shr_1_half by exact H.
    rewrite !Z.div_div by lia. f_equal.
    replace (Z.pos n~1) with (1 + Z.pos n + Z.pos n) by lia.
    rewrite !Z.pow_add_r by lia. lia.
  - assert (H1 : 0 <= shr_m (iter_pos shr_1 n x))
      by (rewrite IH by exact H; apply Z.div_pos; [exact H | lia]).
    rewrite IH by exact H1. rewrite IH by exact H.
    rewrite Z.div_div by lia. f_equal.
    replace (Z.pos n~0) with (Z.pos n + Z.pos n) by lia.
    rewrite Z.pow_add_r by lia. reflexivity.
  - rewrite shr_1_half by exact H. reflexivity.
Qed.

(** Shifting a positive mantissa to its exponent leaves it positive. *)
Lemma shr_fexp_positive (m : positive) (e : Z) (l : location) :
  -1073 <= e ->
  0 < shr_m (fst (shr_fexp prec emax (Z.pos m) e l))
  /\ e <= snd (shr_fexp prec emax (Z.pos m) e l).
Proof.
  intros He. unfold shr_fexp, shr, fexp, emin, prec, emax, Zdigits2.
  pose proof (digits2_pos_lower m) as D.
  set (d := Z.pos (digits2_pos m)) in *.
  assert (Hd : 1 <= d) by (unfold d; lia).
  destruct (Z.max (d + e - 53) (3 - 1024 - 53) - e) as [|n|n] eqn:N; cbn [fst snd].
  - split; [|lia]. destruct l as [|[| |]]; cbn; lia.
  - split; [|lia].
    rewrite shr_iter_quotient
      by (destruct l as [|[| |]]; cbn; lia).
    replace (shr_m (shr_record_of_loc (Z.pos m) l)) with (Z.pos m)
      by (destruct l as [|[| |]]; reflexivity).
    assert (Hn : Z.pos n <= d - 1) by lia.
    assert (P : 2 ^ Z.pos n <= Z.pos m).
    { apply Z.le_trans with (2 ^ (d - 1)); [|exact D].
      apply Z.pow_le_mono_r; lia. }
    apply Z.div_str_pos. lia.
  - split; [|lia]. destruct l as [|[| |]]; cbn; lia.
Qed.

Lemma binary_round_aux_not_zero (m : positive) (e : Z) (l : location) (z : bool) :
  -1073 <= e ->
  binary_round_aux prec emax false (Z.pos m) e l <> S754_zero z
  /\ binary_round_aux prec emax false (Z.pos m) e l <> S754_nan.
Proof.
  intros He. unfold binary_round_aux.
  destruct (shr_fexp_positive m e l He) as [P1 E1].
  destruct (shr_fexp prec emax (Z.pos m) e l) as [mrs' e'] eqn:S1.
  cbn [fst snd] in P1, E1.
  assert (R : 0 < round_nearest_even (shr_m mrs') (loc_of_shr_record mrs')).
  { unfold round_nearest_even.
    destruct (loc_of_shr_record mrs') as [|[| |]];
      try destruct (Z.even (shr_m mrs')); lia. }
  destruct (round_nearest_even (shr_m mrs') (loc_of_shr_record mrs'))
    as [|m2|m2] eqn:R2; try lia.
  assert (He' : -1073 <= e') by lia.
  destruct (shr_fexp_positive m2 e' loc_Exact He') as [P2 _].
  destruct (shr_fexp prec emax (Z.pos m2) e' loc_Exact) as [mrs'' e''].
  cbn [fst] in P2.
  destruct (shr_m mrs'') as [|m3|m3]; try lia.
  destruct (e'' <=? emax - prec); split; discriminate.
Qed.

Lemma shl_align_exponent (p : positive) :
  -1073 <= snd (shl_align p 0 (fexp prec emax (Z.pos (digits2_pos p) + 0))).
Proof.
  assert (E : -52 <= fexp prec emax (Z.pos (digits2_pos p) + 0))
    by (unfold fexp, emin, prec, emax; lia).
  unfold shl_align.
  set (e := fexp prec emax (Z.pos (digits2_pos p) + 0)) in *.
  destruct (e - 0); cbn [snd]; lia.
Qed.

Lemma of_Z_zero (n : Z) :
  0 <= n ->
  (strict_equals (Num (of_Z n)) (Num (of_Z 0)) = true <-> n = 0).
Proof.
  intros Hn. split; [|intros ->; reflexivity].
  destruct n as [|p|p]; [reflexivity | | lia].
  intros H. exfalso.
  unfold of_Z in H. cbn [binary_normalize] in H.
  unfold binary_round in H.
  destruct (shl_align p 0 (fexp prec emax (Z.pos (digits2_pos p) + 0)))
    as [mz ez] eqn:A.
  assert (Hez : -1073 <= ez).
  { change ez with (snd (mz, ez)). rewrite <- A. apply shl_align_exponent. }
  pose proof (fun z => proj1 (binary_round_aux_not_zero mz ez loc_Exact z Hez)) as Z3.
  destruct (binary_round_aux prec emax false (Z.pos mz) ez loc_Exact) as [z| | |];
    cbn in H; try discriminate H.
  now apply (Z3 z).
Qed.

(* ===================================================================== *)
(** * The readers and the deletion *)
(* ===================================================================== *)

Lemma readers_keep (handler : request -> M unit) (req : request)
    (s : Db.store) (f : list (option string)) :
  In handler readers -> db (snd (serve handler req s f)) = s.
Proof.
  unfold readers. cbn [In].
  intros [<- | [<- | []]]; unfold serve, getAllUsuarios, getUsuarioById;
    cbv zeta; run; reflexivity.
Qed.

(** X1.  The two readers, [getAllUsuarios] and [getUsuarioById], make one
    call, a query that writes nothing, and leave the store as it was:
    whatever the request and whether the store answers or rejects. *)
Theorem readers_leave_the_store_alone
    (handler : request -> M unit) (req : request) (s : Db.store)
    (f : list (option string)) :
  In handler readers ->
  db (snd (serve handler req s f)) = s
  /\ exists q, calls (snd (serve handler req s f)) = [Query q]
               /\ is_write (Query q) = false.
Proof.
  intros H. split; [now apply readers_keep|]. revert H.
  unfold readers. cbn [In].
  intros [<- | [<- | []]]; unfold serve, getAllUsuarios, getUsuarioById;
    cbv zeta; run; cbn [app]; eexists; split; reflexivity.
Qed.

Lemma readers_leave_the_store_alone_witness :
  db (snd (serve getUsuarioById (request_of 1 []) store_with_ana [])) = store_with_ana
  /\ exists q,
      calls (snd (serve getUsuarioById (request_of 1 []) store_with_ana []))
      = [Query q]
      /\ is_write (Query q) = false.
Proof.
  apply (readers_leave_the_store_alone getUsuarioById (request_of 1 [])
           store_with_ana []).
  right. now left.
Defined.

Lemma first_of_filter {A B : Type} (p : A -> bool) (g : A -> B) (d : B)
    (l : list A) :
  match find p l with
  | Some x => filter p l <> [] /\ nth 0 (map g (filter p l)) d = g x
  | None => filter p l = []
  end.
Proof.
  induction l as [|a l IH]; [reflexivity|].
  cbn [find filter]. destruct (p a); [|exact IH].
  split; [discriminate | reflexivity].
Qed.

(** X2.  When the store answers, [getUsuarioById] sends the public columns
    of the first row of the table that has the identifier asked, with
    status 200, and NotFound with status 404 when no row has it. *)
Theorem getUsuarioById_answers_the_first_row
    (req : request) (s : Db.store) (f : list (option string)) :
  next_fault f = None ->
  response_of (serve getUsuarioById req s f) =
  match first_with_id (params_id req) s with
  | Some r => json 200 (Db.public_columns r)
  | None => not_found
  end.
Proof.
  intros F. unfold serve, getUsuarioById, first_with_id. cbv zeta.
  plumbing. rewrite F. cbn [Db.exec fst snd Db.rows_of].
  rewrite length_map.
  pose proof (first_of_filter (Db.has_id (params_id req)) Db.public_columns
                Undefined (Db.usuarios s)) as X.
  destruct (find (Db.has_id (params_id req)) (Db.usuarios s)) as [r|].
  - destruct X as [N E]. rewrite E.
    destruct (filter (Db.has_id (params_id req)) (Db.usuarios s));
      [congruence | reflexivity].
  - rewrite X. reflexivity.
Qed.

Lemma getUsuarioById_answers_the_first_row_witness :
  response_of (serve getUsuarioById (request_of 2 []) store_with_ana_and_eva [])
  = json 200 (Db.public_columns eva).
Proof.
  apply (getUsuarioById_answers_the_first_row (request_of 2 [])
           store_with_ana_and_eva []).
  reflexivity.
Defined.

(** X3.  When the store rejects their query, [getAllUsuarios],
    [getUsuarioById] and [deleteUsuario] answer status 500 with the message
    of the store's error as it is, and the store is as it was. *)
Theorem plain_handlers_surface_the_store_error
    (handler : request -> M unit) (req : request) (s : Db.store)
    (f : list (option string)) (m : string) :
  In handler plain_handlers ->
  next_fault f = Some m ->
  response_of (serve handler req s f) = json 500 (error_body m)
  /\ db (snd (serve handler req s f)) = s.
Proof.
  unfold plain_handlers. cbn [In].
  intros [<- | [<- | [<- | []]]] F;
    unfold serve, getAllUsuarios, getUsuarioById, deleteUsuario; cbv zeta;
    plumbing; rewrite F; split; reflexivity.
Qed.

Lemma plain_handlers_surface_the_store_error_witness :
  response_of (serve deleteUsuario (request_of 1 []) store_with_ana
                 [Some "ECONNRESET"])
  = json 500 (error_body "ECONNRESET")
  /\ db (snd (serve deleteUsuario (request_of 1 []) store_with_ana
                [Some "ECONNRESET"])) = store_with_ana.
Proof.
  apply (plain_handlers_surface_the_store_error deleteUsuario (request_of 1 [])
           store_with_ana [Some "ECONNRESET"] "ECONNRESET").
  - do 2 right. now left.
  - reflexivity.
Defined.

Lemma count_zero (id : Z) (l : list Db.usuario) :
  Db.count (Db.has_id id) l = 0 <-> filter (Db.has_id id) l = [].
Proof.
  unfold Db.count. destruct (filter (Db.has_id id) l); cbn [List.length];
    split; intros H; try reflexivity; try discriminate H; lia.
Qed.

(** The test of [deleteUsuario], [result.affectedRows === 0], holds exactly
    when no row has the identifier. *)
Lemma delete_affects_none (id : Z) (s : Db.store) :
  strict_equals (Db.affectedRows_of (fst (Db.exec (Db.Delete id) s)))
    (Num (of_Z 0)) = true
  <-> ~ exists_id id s.
Proof.
  cbn [Db.exec fst Db.affectedRows_of].
  rewrite of_Z_zero by (unfold Db.count; lia).
  rewrite count_zero. unfold exists_id. rewrite filter_has_id.
  destruct (filter (Db.has_id id) (Db.usuarios s)); split; intros H;
    try reflexivity; try congruence.
  exfalso. apply H. discriminate.
Qed.

Lemma filter_out_absent (id : Z) (l : list Db.usuario) :
  filter (Db.has_id id) l = [] ->
  filter (fun r => negb (Db.has_id id r)) l = l.
Proof.
  induction l as [|a l IH]; [reflexivity|].
  cbn [filter]. destruct (Db.has_id id a); [discriminate|].
  intros H. cbn [negb]. now rewrite IH.
Qed.

Lemma without_absent_id (id : Z) (s : Db.store) :
  ~ exists_id id s -> without_id id s = s.
Proof.
  unfold exists_id. rewrite filter_has_id. intros H.
  unfold without_id. rewrite filter_out_absent.
  - destruct s; reflexivity.
  - destruct (filter (Db.has_id id) (Db.usuarios s)); [reflexivity|].
    exfalso. apply H. discriminate.
Qed.

Lemma without_id_has_none (id : Z) (s : Db.store) :
  ~ exists_id id (without_id id s).
Proof.
  intros [r [I E]]. unfold without_id in I. cbn [Db.with_usuarios Db.usuarios] in I.
  apply filter_In in I. destruct I as [_ N].
  unfold Db.has_id in N. apply Z.eqb_eq in E. rewrite E in N. discriminate N.
Qed.

Lemma delete_leaves_without_id (req : request) (s : Db.store)
    (f : list (option string)) :
  next_fault f = None ->
  db (snd (serve deleteUsuario req s f)) = without_id (params_id req) s.
Proof.
  intros F. unfold serve, deleteUsuario. cbv zeta. plumbing. rewrite F.
  destruct (strict_equals _ _); reflexivity.
Qed.

Lemma delete_absent_id (req : request) (s : Db.store)
    (f : list (option string)) :
  next_fault f = None ->
  ~ exists_id (params_id req) s ->
  response_of (serve deleteUsuario req s f) = not_found
  /\ db (snd (serve deleteUsuario req s f)) = s.
Proof.
  intros F X. split.
  - apply delete_affects_none in X.
    unfold serve, deleteUsuario. cbv zeta. plumbing. rewrite F, X. reflexivity.
  - rewrite delete_leaves_without_id by exact F. now apply without_absent_id.
Qed.

(** X4.  When the store answers, [deleteUsuario] leaves the table without
    the rows of the identifier asked, the other rows in their order.  It
    answers status 204 with no body when a row had the identifier, and
    NotFound with status 404, the store as it was, when none had. *)
Theorem deleteUsuario_removes_the_rows
    (req : request) (s : Db.store) (f : list (option string)) :
  next_fault f = None ->
  db (snd (serve deleteUsuario req s f)) = without_id (params_id req) s
  /\ (exists_id (params_id req) s ->
      response_of (serve deleteUsuario req s f) = no_content)
  /\ (~ exists_id (params_id req) s ->
      response_of (serve deleteUsuario req s f) = not_found
      /\ db (snd (serve deleteUsuario req s f)) = s).
Proof.
  intros F. split; [now apply delete_leaves_without_id|]. split.
  - intros X.
    pose proof (delete_affects_none (params_id req) s) as T.
    unfold serve, deleteUsuario. cbv zeta. plumbing. rewrite F.
    destruct (strict_equals
                (Db.affectedRows_of (fst (Db.exec (Db.Delete (params_id req)) s)))
                (Num (of_Z 0))); [|reflexivity].
    exfalso. now apply (proj1 T).
  - now apply delete_absent_id.
Qed.

Lemma deleteUsuario_removes_the_rows_witness :
  db (snd (serve deleteUsuario (request_of 1 []) store_with_ana_and_eva []))
  = without_id 1 store_with_ana_and_eva
  /\ response_of (serve deleteUsuario (request_of 1 []) store_with_ana_and_eva [])
     = no_content.
Proof.
  split.
  - apply (proj1 (deleteUsuario_removes_the_rows (request_of 1 [])
                    store_with_ana_and_eva [] eq_refl)).
  - apply (proj1 (proj2 (deleteUsuario_removes_the_rows (request_of 1 [])
                           store_with_ana_and_eva [] eq_refl))).
    exists ana. split; [now left | reflexivity].
Defined.

Lemma get_absent_id (req : request) (s : Db.store)
    (f : list (option string)) :
  next_fault f = None ->
  ~ exists_id (params_id req) s ->
  response_of (serve getUsuarioById req s f) = not_found.
Proof.
  unfold exists_id. rewrite filter_has_id. intros F X.
  unfold serve, getUsuarioById. cbv zeta. plumbing. rewrite F.
  cbn [Db.exec fst snd Db.rows_of].
  destruct (filter (Db.has_id (params_id req)) (Db.usuarios s));
    [reflexivity|].
  exfalso. apply X. discriminate.
Qed.

(** X5.  After a deletion that the store carried out, the identifier is
    gone: asked again, [getUsuarioById] and [deleteUsuario] both answer
    NotFound with status 404, and the second deletion changes nothing. *)
Theorem deleted_identifier_is_gone
    (req : request) (s : Db.store) (f f' : list (option string)) :
  next_fault f = None ->
  next_fault f' = None ->
  response_of
    (serve getUsuarioById req (db (snd (serve deleteUsuario req s f))) f')
  = not_found
  /\ response_of
       (serve deleteUsuario req (db (snd (serve deleteUsuario req s f))) f')
     = not_found
  /\ db (snd (serve deleteUsuario req
                (db (snd (serve deleteUsuario req s f))) f'))
     = db (snd (serve deleteUsuario req s f)).
Proof.
  intros F F'.
  rewrite (delete_leaves_without_id req s f F).
  split.
  - apply get_absent_id; [exact F' | apply without_id_has_none].
  - apply delete_absent_id; [exact F' | apply without_id_has_none].
Qed.

Lemma deleted_identifier_is_gone_witness :
  response_of
    (serve getUsuarioById (request_of 1 [])
       (db (snd (serve deleteUsuario (request_of 1 []) store_with_ana_and_eva [])))
       [])
  = not_found
  /\ response_of
       (serve deleteUsuario (request_of 1 [])
          (db (snd (serve deleteUsuario (request_of 1 []) store_with_ana_and_eva [])))
          [])
     = not_found
  /\ db (snd (serve deleteUsuario (request_of 1 [])
                (db (snd (serve deleteUsuario (request_of 1 [])
                            store_with_ana_and_eva []))) []))
     = db (snd (serve deleteUsuario (request_of 1 []) store_with_ana_and_eva [])).
Proof.
  apply (deleted_identifier_is_gone (request_of 1 []) store_with_ana_and_eva
           [] []); reflexivity.
Defined.

(* ===================================================================== *)
(** * What every handler keeps *)
(* ===================================================================== *)

Section Unsuccessful.

Variable req : request.
Variable s : Db.store.
Variable f : list (option string).

(** Closes a path: the store is as it was, or the answer is a success. *)
Ltac kept :=
  cbn [Db.exec snd]; intros H;
  first [ reflexivity
        | exfalso; eapply H; [reflexivity|]; unfold succeeded; cbn [status];
          tauto ].

Lemma deleteUsuario_keeps :
  (forall r, response_of (serve deleteUsuario req s f) = Some r -> ~ succeeded r) ->
  db (snd (serve deleteUsuario req s f)) = s.
Proof.
  pose proof (delete_affects_none (params_id req) s) as T. revert T.
  unfold serve, deleteUsuario. cbv zeta. run; intros T; try kept.
  intros _. cbn [Db.exec snd]. apply without_absent_id. now apply T.
Qed.

Variable bcrypt_hash : string -> Z -> string.

Lemma createUsuario_keeps :
  (forall r, response_of (serve (createUsuario bcrypt_hash) req s f) = Some r ->
             ~ succeeded r) ->
  db (snd (serve (createUsuario bcrypt_hash) req s f)) = s.
Proof.
  unfold serve, createUsuario. cbv zeta.
  generalize (get (req_body req) "nombre") (get (req_body req) "email")
    (get (req_body req) "password")
    (default (get (req_body req) "rol") (Str "cliente"))
    (default (get (req_body req) "activo") (Num (of_Z 1))).
  intros v1 v2 v3 v4 v5.
  run; kept.
Qed.

Lemma updateUsuario_keeps :
  (forall r, response_of (serve (updateUsuario bcrypt_hash) req s f) = Some r ->
             ~ succeeded r) ->
  db (snd (serve (updateUsuario bcrypt_hash) req s f)) = s.
Proof.
  unfold serve, updateUsuario. cbv zeta.
  generalize (get (req_body req) "nombre") (get (req_body req) "email")
    (get (req_body req) "password") (get (req_body req) "rol")
    (get (req_body req) "activo").
  intros v1 v2 v3 v4 v5.
  run; kept.
Qed.

End Unsuccessful.

(** X6.  A request that is not answered with a success (status 200, 201 or
    204), or is not answered at all, leaves the store as it was: whichever
    of the five handlers serves it, and whichever calls the store
    rejects. *)
Theorem store_changes_only_on_success
    (bcrypt_hash : string -> Z -> string) (handler : request -> M unit)
    (req : request) (s : Db.store) (f : list (option string)) :
  In handler (exports bcrypt_hash) ->
  (forall r, response_of (serve handler req s f) = Some r -> ~ succeeded r) ->
  db (snd (serve handler req s f)) = s.
Proof.
  unfold exports. cbn [In].
  intros [<- | [<- | [<- | [<- | [<- | []]]]]] H.
  - apply readers_keep. now left.
  - apply readers_keep. right. now left.
  - now apply createUsuario_keeps.
  - now apply updateUsuario_keeps.
  - now apply deleteUsuario_keeps.
Qed.

Lemma store_changes_only_on_success_witness :
  db (snd (serve deleteUsuario (request_of 7 []) empty_store [])) = empty_store.
Proof.
  apply (store_changes_only_on_success sample_hash deleteUsuario
           (request_of 7 []) empty_store []).
  - do 4 right. now left.
  - intros r [= <-] [H | [H | H]]; discriminate H.
Defined.

(* ===================================================================== *)
(** * The [catch] of the handlers that write *)
(* ===================================================================== *)

Section Guarded.

Variable bcrypt_hash : string -> Z -> string.
Variable req : request.
Variable s : Db.store.
Variable f : list (option string).




End Guarded.



(* ===================================================================== *)
(** * Requests that get no answer *)
(* ===================================================================== *)

Lemma to_number_completes : forall v : value, to_number v <> Return.
Proof.
  fix IH 1. intros v. destruct v as [| | b | n | x | l | o]; cbn [to_number];
    try discriminate.
  - destruct l as [|e [|e' l']]; try discriminate.
    + pose proof (IH e) as He. destruct e; try discriminate; exact He.
    + destruct (to_string_throws _); discriminate.
  - destruct (has_own o "toString"); discriminate.
Qed.

Lemma to_number_throws : forall (v : value) (e : string),
  to_number v = Throw e -> e = type_error.
Proof.
  fix IH 1. intros v. destruct v as [| | b | n | x | l | o]; cbn [to_number];
    intros e; try discriminate.
  - destruct l as [|e0 [|e' l']]; try discriminate.
    + pose proof (IH e0 e) as He. destruct e0; try discriminate; exact He.
    + destruct (to_string_throws _); [congruence | discriminate].
  - destruct (has_own o "toString"); [congruence | discriminate].
Qed.

Lemma call_trim_completes (v : value) : call_trim v <> Return.
Proof. destruct v; discriminate. Qed.

Lemma call_toLowerCase_completes (v : value) : call_toLowerCase v <> Return.
Proof. destruct v; discriminate. Qed.

(** Past the destructuring of their first lines, [getAllUsuarios],
    [getUsuarioById], [updateUsuario] and [deleteUsuario] answer and do not
    throw. *)
Lemma enclosed_handlers_answer
    (bcrypt_hash : string -> Z -> string) (handler : request -> M unit)
    (req : request) (s : Db.store) (f : list (option string)) :
  In handler (enclosed_handlers bcrypt_hash) ->
  answered (serve handler req s f).
Proof.
  unfold answered, enclosed_handlers. cbn [In].
  intros [<- | [<- | [<- | [<- | []]]]];
    unfold serve, getAllUsuarios, getUsuarioById, updateUsuario, deleteUsuario;
    cbv zeta.
  1, 2, 4: run; (split; [eexists; reflexivity | discriminate]).
  unfold activo_rejected.
  generalize (to_number_completes (get (req_body req) "activo")).
  generalize (get (req_body req) "nombre") (get (req_body req) "email")
    (get (req_body req) "password") (get (req_body req) "rol")
    (get (req_body req) "activo").
  intros v1 v2 v3 v4 v5 C.
  run; try contradiction;
    try (split; [eexists; reflexivity | discriminate]); excluded.
Qed.

(** X8.  [getAllUsuarios], [getUsuarioById] and [deleteUsuario], which do
    not read [req.body], answer every request and never throw, whichever
    calls the store rejects.  So does [updateUsuario] whenever [req.body]
    is neither [undefined] nor [null], whatever it holds: all that it
    evaluates past its first test is inside a [try] whose [catch] answers.
    On a [req.body] that is [undefined] or [null] the destructuring of line
    84, outside the [try], throws: [updateUsuario] answers nothing and has
    made no call. *)
Theorem handlers_answer_unless_the_body_is_missing
    (bcrypt_hash : string -> Z -> string) (r : raw_request) (s : Db.store)
    (f : list (option string)) :
  (forall handler, In handler plain_handlers ->
                   answered (call (ignoring_body handler) r s f))
  /\ (body_missing (raw_body r) = false ->
      answered (call (destructuring (updateUsuario bcrypt_hash)) r s f))
  /\ (body_missing (raw_body r) = true ->
      call (destructuring (updateUsuario bcrypt_hash)) r s f
      = (Throw destructure_error, start s f)).
Proof.
  split; [|split].
  - intros handler H. unfold call, ignoring_body.
    apply (enclosed_handlers_answer bcrypt_hash handler (seen r) s f).
    revert H. unfold plain_handlers, enclosed_handlers. cbn [In]. tauto.
  - intros B. unfold call, destructuring. rewrite B.
    apply (enclosed_handlers_answer bcrypt_hash (updateUsuario bcrypt_hash)
             (seen r) s f).
    unfold enclosed_handlers. cbn [In]. tauto.
  - intros B. unfold call, destructuring. rewrite B. reflexivity.
Qed.

Lemma handlers_answer_unless_the_body_is_missing_witness :
  answered (call (destructuring (updateUsuario sample_hash))
              {| raw_id := 1;
                 raw_body := Obj [("activo", Obj [("toString", Num (of_Z 0))])] |}
              store_with_ana [])
  /\ call (destructuring (updateUsuario sample_hash))
       {| raw_id := 1; raw_body := Undefined |} store_with_ana []
     = (Throw destructure_error, start store_with_ana []).
Proof.
  split.
  - apply (proj1 (proj2 (handlers_answer_unless_the_body_is_missing sample_hash
                           {| raw_id := 1;
                              raw_body :=
                                Obj [("activo", Obj [("toString", Num (of_Z 0))])] |}
                           store_with_ana []))).
    reflexivity.
  - apply (proj2 (proj2 (handlers_answer_unless_the_body_is_missing sample_hash
                           {| raw_id := 1; raw_body := Undefined |}
                           store_with_ana []))).
    reflexivity.
Defined.

(** Past the destructuring of line 30, [createUsuario] leaves a request
    without answer exactly when the tests of nombre, email, password and
    rol pass and [Number(activo)] throws. *)
Lemma createUsuario_unanswered_past_destructuring
    (bcrypt_hash : string -> Z -> string) (req : request) (s : Db.store)
    (f : list (option string)) :
  (response_of (serve (createUsuario bcrypt_hash) req s f) = None
   <-> create_reaches_activo req
       /\ to_number (activo_or_default req) = Throw type_error)
  /\ (response_of (serve (createUsuario bcrypt_hash) req s f) = None ->
      serve (createUsuario bcrypt_hash) req s f = (Throw type_error, start s f)).
Proof.
  unfold create_reaches_activo, rol_or_default, activo_or_default, field, serve,
    createUsuario, activo_rejected. cbv zeta.
  generalize (get (req_body req) "nombre") (get (req_body req) "email")
    (get (req_body req) "password")
    (default (get (req_body req) "rol") (Str "cliente"))
    (default (get (req_body req) "activo") (Num (of_Z 1))).
  intros v1 v2 v3 v4 v5.
  pose proof (to_number_completes v5) as C.
  pose proof (to_number_throws v5) as T.
  pose proof (call_trim_completes v1) as C1.
  pose proof (call_trim_completes v2) as C2.
  pose proof (call_toLowerCase_completes v2) as C3.
  run; try contradiction;
    try (split; [split; [intros H; discriminate H
                        | intros [[A1 [A2 [A3 A4]]] A5]; congruence]
                | intros H; discriminate H]).
  rewrite (T _ eq_refl). repeat split; reflexivity.
Qed.

(** X9.  [createUsuario] leaves a request without answer in two cases and
    no other: [req.body] is [undefined] or [null], on which the
    destructuring of line 30 throws; or the tests of nombre, email,
    password and rol pass and [Number(activo)] throws.  Both lines are
    outside the [try]: the TypeError escapes the handler, which has called
    neither the store nor the hasher. *)
Theorem createUsuario_unanswered_exactly_when_it_throws
    (bcrypt_hash : string -> Z -> string) (r : raw_request) (s : Db.store)
    (f : list (option string)) :
  (response_of (call (destructuring (createUsuario bcrypt_hash)) r s f) = None
   <-> body_missing (raw_body r) = true
       \/ (create_reaches_activo (seen r)
           /\ to_number (activo_or_default (seen r)) = Throw type_error))
  /\ (response_of (call (destructuring (createUsuario bcrypt_hash)) r s f) = None ->
      exists e,
        call (destructuring (createUsuario bcrypt_hash)) r s f
        = (Throw e, start s f)).
Proof.
  destruct (createUsuario_unanswered_past_destructuring bcrypt_hash (seen r) s f)
    as [I T].
  unfold call, destructuring.
  destruct (body_missing (raw_body r)) eqn:B.
  - split.
    + split; [intros _; now left | reflexivity].
    + intros _. eexists. reflexivity.
  - fold (serve (createUsuario bcrypt_hash) (seen r) s f). split.
    + rewrite I. split; [intros H; now right | intros [H | H]; [discriminate H | exact H]].
    + intros H. exists type_error. now apply T.
Qed.

Lemma createUsuario_unanswered_exactly_when_it_throws_witness :
  response_of (call (destructuring (createUsuario sample_hash))
                 {| raw_id := 0; raw_body := Null |} empty_store []) = None.
Proof.
  apply (proj2 (proj1 (createUsuario_unanswered_exactly_when_it_throws
                         sample_hash {| raw_id := 0; raw_body := Null |}
                         empty_store []))).
  left. reflexivity.
Defined.

(* ===================================================================== *)
(** * The paths of [createUsuario] past its tests *)
(* ===================================================================== *)

(** The lookup of [createUsuario] finds a row exactly when a row has the
    email, both lowered. *)
Lemma email_lookup (lowered : string) (s : Db.store) :
  (0 <? Z.of_nat (List.length
                    (Db.rows_of (fst (Db.exec (Db.SelectIdByEmail lowered) s)))))
  = true
  <-> In lowered (lowered_emails s).
Proof.
  cbn [Db.exec fst Db.rows_of]. rewrite length_map. unfold lowered_emails.
  rewrite in_map_iff. split.
  - destruct (filter (Db.has_lower_email lowered) (Db.usuarios s)) as [|r l] eqn:F;
      [discriminate|].
    intros _. exists r.
    assert (X : In r (filter (Db.has_lower_email lowered) (Db.usuarios s)))
      by (rewrite F; now left).
    apply filter_In in X. destruct X as [I E]. split; [|exact I].
    now apply String.eqb_eq.
  - intros [r [E I]].
    assert (X : In r (filter (Db.has_lower_email lowered) (Db.usuarios s))).
    { apply filter_In. split; [exact I|]. now apply String.eqb_eq. }
    destruct (filter (Db.has_lower_email lowered) (Db.usuarios s));
      [destruct X | reflexivity].
Qed.

Lemma email_lookup_free (lowered : string) (s : Db.store) :
  ~ In lowered (lowered_emails s) ->
  (0 <? Z.of_nat (List.length
                    (Db.rows_of (fst (Db.exec (Db.SelectIdByEmail lowered) s)))))
  = false.
Proof.
  intros H.
  destruct (0 <? Z.of_nat (List.length
                    (Db.rows_of (fst (Db.exec (Db.SelectIdByEmail lowered) s)))))
    eqn:E; [|reflexivity].
  exfalso. apply H. now apply email_lookup.
Qed.

(** X10.  A creation whose fields pass the tests and whose email, lowered,
    is that of a row, lowered, is refused when the store answers: status
    400 with the message on the duplicate, citing the email as sent; the
    lookup is the only call made, the hasher is not called, and the store
    is as it was. *)
Theorem createUsuario_refuses_a_taken_email
    (bcrypt_hash : string -> Z -> string) (req : request) (s : Db.store)
    (f : list (option string)) (n e p : string) :
  field req "nombre" = Str n -> trim n <> EmptyString ->
  field req "email" = Str e -> includes e "@" = true ->
  field req "password" = Str p -> 6 <= length p ->
  role_rule (rol_or_default req) ->
  active_rule (activo_or_default req) ->
  In (toLowerCase e) (lowered_emails s) ->
  next_fault f = None ->
  serve (createUsuario bcrypt_hash) req s f =
  (Return,
   {| db := s; faults := tl f;
      calls := [Query (Db.SelectIdByEmail (toLowerCase e))];
      sent := bad_request (msg_create_duplicate e) |}).
Proof.
  intros N N' E E' P P' R A D F.
  assert (T1 : create_nombre_rejected (Str n) = false)
    by (apply create_nombre_rule; now exists n).
  assert (T2 : create_email_rejected (Str e) = false)
    by (apply create_email_rule; now exists e).
  assert (T3 : create_password_rejected (Str p) = false)
    by (apply create_password_rule; now exists p).
  apply rol_rule in R. apply activo_not_rejected in A.
  apply email_lookup in D.
  revert R A.
  unfold rol_or_default, activo_or_default, serve, createUsuario. cbv zeta.
  unfold field in *. rewrite N, E, P.
  generalize (default (get (req_body req) "rol") (Str "cliente"))
    (default (get (req_body req) "activo") (Num (of_Z 1))).
  intros v4 v5 R A.
  cbn [call_toLowerCase call_trim printed]. follow. reflexivity.
Qed.

Lemma createUsuario_refuses_a_taken_email_witness :
  serve (createUsuario sample_hash)
    (request_of 0 [("nombre", Str "Ana"); ("email", Str "Ana@X.com");
                   ("password", Str "secret1")])
    store_with_ana []
  = (Return,
     {| db := store_with_ana; faults := [];
        calls := [Query (Db.SelectIdByEmail "ana@x.com")];
        sent := bad_request (msg_create_duplicate "Ana@X.com") |}).
Proof.
  apply (createUsuario_refuses_a_taken_email sample_hash
           (request_of 0 [("nombre", Str "Ana"); ("email", Str "Ana@X.com");
                          ("password", Str "secret1")])
           store_with_ana [] "Ana" "Ana@X.com" "secret1").
  - reflexivity.
  - vm_compute. discriminate.
  - reflexivity.
  - reflexivity.
  - reflexivity.
  - vm_compute. discriminate.
  - left. reflexivity.
  - exists (of_Z 1). split; reflexivity.
  - left. reflexivity.
  - reflexivity.
Defined.

(** X11.  A creation whose fields pass the tests and whose email, lowered,
    is that of no row, served by a store that answers, appends one row to
    the table: the next identifier, the name and the email trimmed, the
    hash of the password with cost 10, the role and the active flag of the
    request or their defaults, the date of the store.  It makes three
    calls, the lookup, the hasher and the INSERT, and answers status 201
    with the identifier, the trimmed name and email, the role and the
    active flag. *)
Theorem createUsuario_inserts_one_row
    (bcrypt_hash : string -> Z -> string) (req : request) (s : Db.store)
    (f : list (option string)) (n e p : string) :
  field req "nombre" = Str n -> trim n <> EmptyString ->
  field req "email" = Str e -> includes e "@" = true ->
  field req "password" = Str p -> 6 <= length p ->
  role_rule (rol_or_default req) ->
  active_rule (activo_or_default req) ->
  ~ In (toLowerCase e) (lowered_emails s) ->
  no_fault f ->
  serve (createUsuario bcrypt_hash) req s f =
  (Normal tt,
   {| db := {| Db.usuarios :=
                 Db.usuarios s
                 ++ [new_row s (trim n) (trim e) (bcrypt_hash p 10)
                       (rol_or_default req) (activo_or_default req)];
               Db.auto_increment := Db.auto_increment s + 1;
               Db.now := Db.now s |};
      faults := tl (tl f);
      calls := [Query (Db.SelectIdByEmail (toLowerCase e));
                Hash p 10;
                Query (Db.Insert (trim n) (trim e) (bcrypt_hash p 10)
                         (rol_or_default req) (activo_or_default req))];
      sent := json 201 (created (Db.auto_increment s) (trim n) (trim e)
                          (rol_or_default req) (activo_or_default req)) |}).
Proof.
  intros N N' E E' P P' R A D F.
  assert (T1 : create_nombre_rejected (Str n) = false)
    by (apply create_nombre_rule; now exists n).
  assert (T2 : create_email_rejected (Str e) = false)
    by (apply create_email_rule; now exists e).
  assert (T3 : create_password_rejected (Str p) = false)
    by (apply create_password_rule; now exists p).
  apply rol_rule in R. apply activo_not_rejected in A.
  apply email_lookup_free in D.
  pose proof (no_fault_next _ F) as F1.
  pose proof (no_fault_next _ (no_fault_tl _ F)) as F2.
  revert R A.
  unfold new_row, created, rol_or_default, activo_or_default, serve,
    createUsuario. cbv zeta.
  unfold field in *. rewrite N, E, P.
  generalize (default (get (req_body req) "rol") (Str "cliente"))
    (default (get (req_body req) "activo") (Num (of_Z 1))).
  intros v4 v5 R A.
  cbn [call_toLowerCase call_trim printed]. follow. reflexivity.
Qed.

Lemma createUsuario_inserts_one_row_witness :
  serve (createUsuario sample_hash)
    (request_of 0 [("nombre", Str " Eva "); ("email", Str "Eva@X.com");
                   ("password", Str "secret2"); ("rol", Str "admin")])
    store_with_ana []
  = (Normal tt,
     {| db := {| Db.usuarios :=
                   [ana;
                    new_row store_with_ana "Eva" "Eva@X.com"
                      (sample_hash "secret2" 10) (Str "admin") (Num (of_Z 1))];
                 Db.auto_increment := 3;
                 Db.now := "2024-01-01 00:00:00" |};
        faults := [];
        calls := [Query (Db.SelectIdByEmail "eva@x.com");
                  Hash "secret2" 10;
                  Query (Db.Insert "Eva" "Eva@X.com" (sample_hash "secret2" 10)
                           (Str "admin") (Num (of_Z 1)))];
        sent := json 201 (created 2 "Eva" "Eva@X.com" (Str "admin")
                            (Num (of_Z 1))) |}).
Proof.
  apply (createUsuario_inserts_one_row sample_hash
           (request_of 0 [("nombre", Str " Eva "); ("email", Str "Eva@X.com");
                          ("password", Str "secret2"); ("rol", Str "admin")])
           store_with_ana [] " Eva " "Eva@X.com" "secret2").
  - reflexivity.
  - vm_compute. discriminate.
  - reflexivity.
  - reflexivity.
  - reflexivity.
  - vm_compute. discriminate.
  - right. reflexivity.
  - exists (of_Z 1). split; reflexivity.
  - vm_compute. intros [H | []]. discriminate H.
  - constructor.
Defined.

(** X12.  A user created is read back: when [createUsuario] has answered
    status 201 and no row had the identifier given to the new row,
    [getUsuarioById] asked for that identifier answers status 200 with a
    record that, its date of creation and its active flag apart, is the
    record that [createUsuario] answered with.  The active flag agrees too
    when it is the number 0 or the number 1, as sent or by default; of
    another value, which [createUsuario] echoes as sent, what the column
    gives back is the store's to say. *)
Theorem created_user_reads_back
    (bcrypt_hash : string -> Z -> string) (req req' : request) (s : Db.store)
    (f f' : list (option string)) (r : response) :
  response_of (serve (createUsuario bcrypt_hash) req s f) = Some r ->
  status r = 201 ->
  ~ exists_id (Db.auto_increment s) s ->
  params_id req' = Db.auto_increment s ->
  next_fault f' = None ->
  exists v w,
    response_of
      (serve getUsuarioById req'
         (db (snd (serve (createUsuario bcrypt_hash) req s f))) f')
    = json 200 v
    /\ body r = Some w
    /\ drop_field "activo" w
       = drop_field "activo" (drop_field "fechacreacion" v)
    /\ (activo_or_default req = Num (of_Z 0)
        \/ activo_or_default req = Num (of_Z 1) ->
        w = drop_field "fechacreacion" v).
Proof.
  intros H S X I F'. revert H.
  assert (Q : filter (Db.has_id (Db.auto_increment s)) (Db.usuarios s) = []).
  { unfold exists_id in X. rewrite filter_has_id in X.
    destruct (filter (Db.has_id (Db.auto_increment s)) (Db.usuarios s));
      [reflexivity|].
    exfalso. apply X. discriminate. }
  unfold serve, getUsuarioById, createUsuario, activo_or_default, field.
  cbv zeta. rewrite I.
  generalize (get (req_body req) "nombre") (get (req_body req) "email")
    (get (req_body req) "password")
    (default (get (req_body req) "rol") (Str "cliente"))
    (default (get (req_body req) "activo") (Num (of_Z 1))).
  intros v1 v2 v3 v4 v5.
  plumbing. rewrite F'.
  run; try discriminate; intros [= <-]; try discriminate S.
  all: cbn [Db.exec snd fst Db.rows_of Db.usuarios] in *.
  all: match goal with
       | H : (Z.of_nat _ =? 0) = _ |- _ =>
           rewrite filter_app, Q in H;
           cbn [filter app] in H; unfold Db.has_id in H;
           cbn [Db.idusuario] in H; rewrite Z.eqb_refl in H;
           try discriminate H
       end.
  rewrite filter_app, Q. cbn [filter app]. unfold Db.has_id.
  cbn [Db.idusuario]. rewrite Z.eqb_refl.
  eexists. eexists. split; [reflexivity|]. split; [reflexivity|].
  split; [reflexivity|]. intros _. reflexivity.
Qed.

Lemma created_user_reads_back_witness :
  exists v w,
    response_of
      (serve getUsuarioById (request_of 2 [])
         (db (snd (serve (createUsuario sample_hash)
                     (request_of 0 [("nombre", Str " Eva ");
                                    ("email", Str "eva@x.com");
                                    ("password", Str "secret2")])
                     store_with_ana []))) [])
    = json 200 v
    /\ body {| status := 201;
               body := Some (created 2 "Eva" "eva@x.com" (Str "cliente")
                               (Num (of_Z 1))) |}
       = Some w
    /\ drop_field "activo" w
       = drop_field "activo" (drop_field "fechacreacion" v)
    /\ (activo_or_default
          (request_of 0 [("nombre", Str " Eva "); ("email", Str "eva@x.com");
                         ("password", Str "secret2")]) = Num (of_Z 0)
        \/ activo_or_default
             (request_of 0 [("nombre", Str " Eva "); ("email", Str "eva@x.com");
                            ("password", Str "secret2")]) = Num (of_Z 1) ->
        w = drop_field "fechacreacion" v).
Proof.
  apply (created_user_reads_back sample_hash
           (request_of 0 [("nombre", Str " Eva "); ("email", Str "eva@x.com");
                          ("password", Str "secret2")])
           (request_of 2 []) store_with_ana [] []
           {| status := 201;
              body := Some (created 2 "Eva" "eva@x.com" (Str "cliente")
                              (Num (of_Z 1))) |}).
  - reflexivity.
  - reflexivity.
  - intros [r [[<- | []] H]]. vm_compute in H. discriminate H.
  - reflexivity.
  - reflexivity.
Defined.

(* ===================================================================== *)
(** * The passwords written *)
(* ===================================================================== *)

Section Hashed.

Variable bcrypt_hash : string -> Z -> string.
Variable req : request.
Variable s : Db.store.
Variable f : list (option string).

Ltac long_enough :=
  match goal with
  | H : create_password_rejected (Str ?p) = false |- _ =>
      apply create_password_rule in H; destruct H as [? [[= <-] ?]]
  | H : update_password_rejected (Str ?p) = false |- _ =>
      apply update_password_rule in H; destruct H as [? [[= <-] ?]]
  end.

Ltac hashed :=
  cbn [app];
  repeat first
    [ apply Forall_nil
    | apply Forall_cons
    | apply conj
    | progress cbn [password_written flat_map app password_assigned] ];
  try reflexivity; try exact I;
  try (long_enough; eexists; repeat apply conj; (reflexivity || assumption)).

Lemma createUsuario_hashes :
  Forall (fun e => Forall (hash_of_the_password bcrypt_hash req) (password_written e)
                   /\ hashes_the_password req e)
    (calls (snd (serve (createUsuario bcrypt_hash) req s f))).
Proof.
  unfold hash_of_the_password, hashes_the_password, field, serve, createUsuario.
  cbv zeta.
  generalize (get (req_body req) "nombre") (get (req_body req) "email")
    (get (req_body req) "password")
    (default (get (req_body req) "rol") (Str "cliente"))
    (default (get (req_body req) "activo") (Num (of_Z 1))).
  intros v1 v2 v3 v4 v5.
  run; hashed.
Qed.

Lemma updateUsuario_hashes :
  Forall (fun e => Forall (hash_of_the_password bcrypt_hash req) (password_written e)
                   /\ hashes_the_password req e)
    (calls (snd (serve (updateUsuario bcrypt_hash) req s f))).
Proof.
  unfold hash_of_the_password, hashes_the_password, field, serve, updateUsuario.
  cbv zeta.
  generalize (get (req_body req) "nombre") (get (req_body req) "email")
    (get (req_body req) "password") (get (req_body req) "rol")
    (get (req_body req) "activo").
  intros v1 v2 v3 v4 v5.
  run; hashed.
Qed.

End Hashed.

(** X13.  In every run of [createUsuario] and of [updateUsuario], every
    string bound to the column [password], by an INSERT or by an UPDATE, is
    what the hasher gave, with cost 10, for the password of the request, a
    string of six characters or more; and every call to the hasher is for
    that password, with cost 10. *)
Theorem passwords_are_written_hashed
    (bcrypt_hash : string -> Z -> string) (handler : request -> M unit)
    (req : request) (s : Db.store) (f : list (option string)) :
  In handler (writers bcrypt_hash) ->
  Forall (fun e => Forall (hash_of_the_password bcrypt_hash req) (password_written e)
                   /\ hashes_the_password req e)
    (calls (snd (serve handler req s f))).
Proof.
  unfold writers. cbn [In].
  intros [<- | [<- | []]].
  - apply createUsuario_hashes.
  - apply updateUsuario_hashes.
Qed.

Lemma passwords_are_written_hashed_witness :
  Forall (fun e => Forall (hash_of_the_password sample_hash
                             (request_of 1 [("password", Str "secret9")]))
                     (password_written e)
                   /\ hashes_the_password
                        (request_of 1 [("password", Str "secret9")]) e)
    [Query (Db.SelectStarById 1); Hash "secret9" 10;
     Query (Db.Update [Db.SetPassword (sample_hash "secret9" 10)] 1)].
Proof.
  apply (passwords_are_written_hashed sample_hash (updateUsuario sample_hash)
           (request_of 1 [("password", Str "secret9")]) store_with_ana []).
  right. now left.
Defined.

(* ===================================================================== *)
(** * What [updateUsuario] sets and reports *)
(* ===================================================================== *)

(** X14.  [updateUsuario] never answers that there are no valid data to
    update: where it tests its list of assignments, a field was supplied
    and has passed its test, so the list is not empty. *)
Theorem updateUsuario_never_answers_empty
    (bcrypt_hash : string -> Z -> string) (req : request) (s : Db.store)
    (f : list (option string)) :
  response_of (serve (updateUsuario bcrypt_hash) req s f)
  <> bad_request msg_update_empty.
Proof.
  unfold serve, updateUsuario. cbv zeta.
  generalize (get (req_body req) "nombre") (get (req_body req) "email")
    (get (req_body req) "password") (get (req_body req) "rol")
    (get (req_body req) "activo").
  intros v1 v2 v3 v4 v5.
  run; intros H; try discriminate H;
    try (injection H as H; vm_compute in H; discriminate H);
    exfalso; clear H.
  all: try match goal with
           | H : (Z.of_nat (List.length _) =? 0) = true |- _ =>
               cbn in H; discriminate H
           end.
  destruct (is_undefined v1), (is_undefined v2), (is_undefined v3),
    (is_undefined v4), (is_undefined v5); discriminate.
Qed.

Section UpdateReports.

Variable bcrypt_hash : string -> Z -> string.
Variable req : request.
Variable s : Db.store.
Variable f : list (option string).

Ltac as_supplied :=
  repeat match goal with
         | H : negb (is_undefined ?v) = _ |- context [negb (is_undefined ?v)] =>
             rewrite H
         end;
  cbn [is_undefined negb].

Lemma updateUsuario_columns :
  Forall (fun e => Forall (eq (supplied_among req
                                 ["nombre"; "email"; "password"; "rol"; "activo"]))
                     (columns_set e))
    (calls (snd (serve (updateUsuario bcrypt_hash) req s f))).
Proof.
  unfold supplied_among, field, serve, updateUsuario. cbv zeta. cbn [filter].
  generalize (get (req_body req) "nombre") (get (req_body req) "email")
    (get (req_body req) "password") (get (req_body req) "rol")
    (get (req_body req) "activo").
  intros v1 v2 v3 v4 v5.
  run; cbn [app];
    repeat first [ apply Forall_nil | apply Forall_cons
                 | progress cbn [columns_set map column] ];
    as_supplied; reflexivity.
Qed.

End UpdateReports.

Lemma reported_supplied (k : string) (v : value) :
  negb (is_undefined v) = true -> reported k v = [(k, v)].
Proof. destruct v; (discriminate || reflexivity). Qed.

Lemma reported_absent (k : string) (v : value) :
  negb (is_undefined v) = false -> reported k v = [].
Proof. destruct v; (discriminate || reflexivity). Qed.

Lemma reported_trimmed (k : string) (v : value) (a : string) :
  call_trim v = Normal a -> reported k (trimmed v) = [(k, Str a)].
Proof. destruct v; try discriminate. now intros [= <-]. Qed.

Lemma reported_trimmed_absent (k : string) (v : value) :
  negb (is_undefined v) = false -> reported k (trimmed v) = [].
Proof. destruct v; (discriminate || reflexivity). Qed.

Ltac as_reported :=
  repeat match goal with
         | H : call_trim ?v = Normal _ |- context [reported ?k (trimmed ?v)] =>
             rewrite (reported_trimmed k v _ H)
         | H : negb (is_undefined ?v) = false
           |- context [reported ?k (trimmed ?v)] =>
             rewrite (reported_trimmed_absent k v H)
         | H : negb (is_undefined ?v) = true |- context [reported ?k ?v] =>
             rewrite (reported_supplied k v H)
         | H : negb (is_undefined ?v) = false |- context [reported ?k ?v] =>
             rewrite (reported_absent k v H)
         end.

(** X15.  The UPDATE statement that [updateUsuario] sends sets the columns
    of the fields that the body supplies, all of them and no other, in the
    order nombre, email, password, rol, activo. *)
Theorem updateUsuario_sets_the_supplied_columns
    (bcrypt_hash : string -> Z -> string) (req : request) (s : Db.store)
    (f : list (option string)) (e : event) (l : list string) :
  In e (calls (snd (serve (updateUsuario bcrypt_hash) req s f))) ->
  In l (columns_set e) ->
  l = supplied_among req ["nombre"; "email"; "password"; "rol"; "activo"].
Proof.
  intros I J.
  pose proof (updateUsuario_columns bcrypt_hash req s f) as H.
  rewrite Forall_forall in H. specialize (H e I).
  rewrite Forall_forall in H. symmetry. now apply H.
Qed.

Lemma updateUsuario_sets_the_supplied_columns_witness :
  ["email"; "password"; "activo"]
  = supplied_among
      (request_of 1 [("activo", Null); ("password", Str "secret9");
                     ("email", Str "ana@y.com")])
      ["nombre"; "email"; "password"; "rol"; "activo"].
Proof.
  apply (updateUsuario_sets_the_supplied_columns sample_hash
           (request_of 1 [("activo", Null); ("password", Str "secret9");
                          ("email", Str "ana@y.com")])
           store_with_ana []
           (Query (Db.Update [Db.SetEmail "ana@y.com";
                              Db.SetPassword (sample_hash "secret9" 10);
                              Db.SetActivo Null] 1))).
  - vm_compute. do 3 right. left. reflexivity.
  - left. reflexivity.
Defined.

(** X16.  The record that [updateUsuario] answers with status 200 holds,
    in the order nombre, email, rol, activo, the fields among these four
    that the body supplies: nombre and email trimmed, rol and activo as
    sent.  It never holds the password, supplied or not: an update of the
    password alone is answered with the empty record. *)
Theorem updateUsuario_reports_the_supplied_fields
    (bcrypt_hash : string -> Z -> string) (req : request) (s : Db.store)
    (f : list (option string)) (r : response) :
  response_of (serve (updateUsuario bcrypt_hash) req s f) = Some r ->
  status r = 200 ->
  body r
  = Some (Obj (reported "nombre" (trimmed (field req "nombre"))
               ++ reported "email" (trimmed (field req "email"))
               ++ reported "rol" (field req "rol")
               ++ reported "activo" (field req "activo"))%list).
Proof.
  unfold field, serve, updateUsuario. cbv zeta.
  generalize (get (req_body req) "nombre") (get (req_body req) "email")
    (get (req_body req) "password") (get (req_body req) "rol")
    (get (req_body req) "activo").
  intros v1 v2 v3 v4 v5.
  run; intros [= <-] S; try discriminate S; cbn [body]; as_reported;
    reflexivity.
Qed.

Lemma updateUsuario_reports_the_supplied_fields_witness :
  let req := request_of 1 [("password", Str "secret9"); ("nombre", Str " Ana B ")] in
  body {| status := 200; body := Some (Obj [("nombre", Str "Ana B")]) |}
  = Some (Obj (reported "nombre" (trimmed (field req "nombre"))
               ++ reported "email" (trimmed (field req "email"))
               ++ reported "rol" (field req "rol")
               ++ reported "activo" (field req "activo"))%list).
Proof.
  apply (updateUsuario_reports_the_supplied_fields sample_hash
           (request_of 1 [("password", Str "secret9"); ("nombre", Str " Ana B ")])
           store_with_ana []
           {| status := 200; body := Some (Obj [("nombre", Str "Ana B")]) |}).
  - reflexivity.
  - reflexivity.
Defined.

(* ===================================================================== *)
(** * The target row of [updateUsuario] *)
(* ===================================================================== *)

(** The second lookup of [updateUsuario] finds a row exactly when another
    row than the target has the email, both lowered. *)
Lemma other_email_lookup (lowered : string) (id : Z) (s : Db.store) :
  (0 <? Z.of_nat (List.length
                    (Db.rows_of
                       (fst (Db.exec (Db.SelectIdByEmailExcept lowered id) s)))))
  = true
  <-> email_of_another id lowered s.
Proof.
  cbn [Db.exec fst Db.rows_of]. rewrite length_map. unfold email_of_another.
  set (p := fun r => Db.has_lower_email lowered r && negb (Db.has_id id r)).
  assert (P : forall r, p r = true
                        <-> Db.idusuario r <> id
                            /\ toLowerCase (Db.email r) = lowered).
  { intros r. unfold p, Db.has_lower_email, Db.has_id.
    rewrite andb_true_iff, negb_true_iff, String.eqb_eq, Z.eqb_neq. tauto. }
  split.
  - destruct (filter p (Db.usuarios s)) as [|r l] eqn:F; [discriminate|].
    intros _. exists r.
    assert (X : In r (filter p (Db.usuarios s))) by (rewrite F; now left).
    apply filter_In in X. destruct X as [I E]. apply P in E. tauto.
  - intros [r [I E]].
    assert (X : In r (filter p (Db.usuarios s))).
    { apply filter_In. split; [exact I|]. now apply P. }
    destruct (filter p (Db.usuarios s)); [destruct X | reflexivity].
Qed.

(** X17.  The email of an update is compared with the rows other than the
    target: an update that supplies a valid email alone, on an existing
    identifier and with a store that answers, is refused with status 400,
    citing the email as sent and leaving the store as it was, exactly when
    another row has that email, both lowered; otherwise, and so when only
    the target row itself has it, the email trimmed is written to the rows
    of the identifier and answered with status 200. *)
Theorem updateUsuario_compares_email_with_other_rows
    (bcrypt_hash : string -> Z -> string) (req : request) (s : Db.store)
    (f : list (option string)) (e : string) :
  field req "nombre" = Undefined ->
  field req "email" = Str e ->
  field req "password" = Undefined ->
  field req "rol" = Undefined ->
  field req "activo" = Undefined ->
  includes e "@" = true ->
  exists_id (params_id req) s ->
  no_fault f ->
  (email_of_another (params_id req) (toLowerCase e) s ->
   response_of (serve (updateUsuario bcrypt_hash) req s f)
   = bad_request (msg_update_duplicate e)
   /\ db (snd (serve (updateUsuario bcrypt_hash) req s f)) = s)
  /\ (~ email_of_another (params_id req) (toLowerCase e) s ->
      response_of (serve (updateUsuario bcrypt_hash) req s f)
      = json 200 (Obj [("email", Str (trim e))])
      /\ db (snd (serve (updateUsuario bcrypt_hash) req s f))
         = with_email (params_id req) (trim e) s).
Proof.
  intros H1 H2 H3 H4 H5 V X F.
  apply lookup_finds in X.
  pose proof (no_fault_next _ F) as F1.
  pose proof (no_fault_next _ (no_fault_tl _ F)) as F2.
  pose proof (no_fault_next _ (no_fault_tl _ (no_fault_tl _ F))) as F3.
  assert (T : update_email_rejected (Str e) = false)
    by (apply update_email_rule; now exists e).
  pose proof (other_email_lookup (toLowerCase e) (params_id req) s) as L.
  unfold field in *.
  split; intros D.
  - apply L in D.
    assert (D' : (0 <? Z.of_nat
                         (List.length
                            (Db.rows_of
                               (fst (Db.exec
                                       (Db.SelectIdByEmailExcept (toLowerCase e)
                                          (params_id req))
                                       (snd (Db.exec
                                               (Db.SelectStarById (params_id req))
                                               s))))))) = true) by exact D.
    unfold serve, updateUsuario. cbv zeta.
    rewrite H1, H2, H3, H4, H5. cbn [call_toLowerCase call_trim printed].
    follow. split; reflexivity.
  - assert (D' : (0 <? Z.of_nat
                         (List.length
                            (Db.rows_of
                               (fst (Db.exec
                                       (Db.SelectIdByEmailExcept (toLowerCase e)
                                          (params_id req))
                                       (snd (Db.exec
                                               (Db.SelectStarById (params_id req))
                                               s))))))) = false).
    { destruct (0 <? _); [|reflexivity]. exfalso. apply D.
      now apply L. }
    unfold serve, updateUsuario. cbv zeta.
    rewrite H1, H2, H3, H4, H5. cbn [call_toLowerCase call_trim printed].
    follow. split; reflexivity.
Qed.

Lemma updateUsuario_compares_email_with_other_rows_witness :
  response_of (serve (updateUsuario sample_hash)
                 (request_of 1 [("email", Str "ANA@x.com")])
                 store_with_ana_and_eva [])
  = json 200 (Obj [("email", Str (trim "ANA@x.com"))])
  /\ db (snd (serve (updateUsuario sample_hash)
                (request_of 1 [("email", Str "ANA@x.com")])
                store_with_ana_and_eva []))
     = with_email 1 (trim "ANA@x.com") store_with_ana_and_eva.
Proof.
  apply (proj2 (updateUsuario_compares_email_with_other_rows sample_hash
                  (request_of 1 [("email", Str "ANA@x.com")])
                  store_with_ana_and_eva [] "ANA@x.com"
                  eq_refl eq_refl eq_refl eq_refl eq_refl eq_refl
                  (ex_intro _ ana (conj (or_introl eq_refl) eq_refl))
                  (Forall_nil _))).
  intros [r [[<- | [<- | []]] [N E]]].
  - now elim N.
  - vm_compute in E. discriminate E.
Defined.

(** X18.  [updateUsuario] looks the identifier up before it tests any
    field: when the body supplies a field, valid or not, no row has the
    identifier and the store answers, the answer is NotFound with status
    404; the lookup is the only call made. *)
Theorem updateUsuario_looks_up_before_it_validates
    (bcrypt_hash : string -> Z -> string) (req : request) (s : Db.store)
    (f : list (option string)) :
  supplies_some req ->
  ~ exists_id (params_id req) s ->
  next_fault f = None ->
  serve (updateUsuario bcrypt_hash) req s f
  = (Return, {| db := s; faults := tl f;
                calls := [Query (Db.SelectStarById (params_id req))];
                sent := not_found |}).
Proof.
  intros U X F.
  assert (Q : (Z.of_nat (List.length
                 (Db.rows_of (fst (Db.exec (Db.SelectStarById (params_id req)) s))))
               =? 0) = true).
  { destruct (_ =? 0) eqn:B; [reflexivity|]. exfalso. apply X.
    now apply lookup_finds. }
  assert (G : is_undefined (field req "nombre") && is_undefined (field req "email")
              && is_undefined (field req "password")
              && is_undefined (field req "rol")
              && is_undefined (field req "activo") = false).
  { unfold supplies_some in U. rewrite !supplied_defined in U.
    destruct (is_undefined (field req "nombre")),
      (is_undefined (field req "email")), (is_undefined (field req "password")),
      (is_undefined (field req "rol")), (is_undefined (field req "activo"));
      try reflexivity.
    cbn in U. decompose [or] U; discriminate. }
  unfold serve, updateUsuario. cbv zeta. unfold field in G.
  plumbing. rewrite G. plumbing. rewrite F, Q. reflexivity.
Qed.

Lemma updateUsuario_looks_up_before_it_validates_witness :
  serve (updateUsuario sample_hash) (request_of 9 [("email", Num (of_Z 3))])
    store_with_ana []
  = (Return, {| db := store_with_ana; faults := [];
                calls := [Query (Db.SelectStarById 9)];
                sent := not_found |}).
Proof.
  apply (updateUsuario_looks_up_before_it_validates sample_hash
           (request_of 9 [("email", Num (of_Z 3))]) store_with_ana []).
  - right. left. discriminate.
  - intros [r [[<- | []] H]]. vm_compute in H. discriminate H.
  - reflexivity.
Defined.

Lemma assign_keeps_identity (sets : list Db.assignment) :
  forall r, same_identity r (fold_left Db.assign sets r).
Proof.
  induction sets as [|a sets IH]; intros r; [split; reflexivity|].
  cbn [fold_left]. destruct (IH (Db.assign r a)) as [E1 E2].
  split; [rewrite E1 | rewrite E2]; destruct a; reflexivity.
Qed.

(** X19.  Whatever the request and whatever the store does, [updateUsuario]
    adds no row and removes none, leaves the identifier and the date of
    creation of every row as they were, leaves every row of another
    identifier than the one asked as it was, and leaves the next
    identifier and the clock of the store as they were. *)
Theorem updateUsuario_keeps_rows_and_identities
    (bcrypt_hash : string -> Z -> string) (req : request) (s : Db.store)
    (f : list (option string)) :
  Forall2 (fun r r' => same_identity r r'
                       /\ (Db.idusuario r <> params_id req -> r' = r))
    (Db.usuarios s)
    (Db.usuarios (db (snd (serve (updateUsuario bcrypt_hash) req s f))))
  /\ Db.auto_increment (db (snd (serve (updateUsuario bcrypt_hash) req s f)))
     = Db.auto_increment s
  /\ Db.now (db (snd (serve (updateUsuario bcrypt_hash) req s f))) = Db.now s.
Proof.
  assert (K : Forall2 (fun r r' => same_identity r r'
                                   /\ (Db.idusuario r <> params_id req -> r' = r))
                (Db.usuarios s) (Db.usuarios s)).
  { rewrite <- (map_id (Db.usuarios s)) at 2. apply Forall2_map_same.
    intros r. repeat split. }
  unfold serve, updateUsuario. cbv zeta.
  generalize (get (req_body req) "nombre") (get (req_body req) "email")
    (get (req_body req) "password") (get (req_body req) "rol")
    (get (req_body req) "activo").
  intros v1 v2 v3 v4 v5.
  run;
    cbn [Db.exec snd Db.with_usuarios Db.usuarios Db.auto_increment Db.now];
    (split; [|split; reflexivity]); try exact K.
  all: apply Forall2_map_same; intros r; unfold Db.has_id;
    destruct (Z.eqb_spec (Db.idusuario r) (params_id req)) as [E | E];
    [ split; [apply assign_keeps_identity | intros N; now elim N]
    | repeat split ].
Qed.

(* ===================================================================== *)
(** * The statuses of each handler *)
(* ===================================================================== *)

Section Statuses.

Variable req : request.
Variable s : Db.store.
Variable f : list (option string).

Ltac among :=
  intros [= <-]; cbn [status body In]; split;
  [ tauto | split; intros H; (discriminate H || reflexivity) ].

Lemma getAllUsuarios_statuses (r : response) :
  response_of (serve getAllUsuarios req s f) = Some r ->
  In (status r) [200; 500] /\ (body r = None <-> status r = 204).
Proof. unfold serve, getAllUsuarios. run; among. Qed.

Lemma getUsuarioById_statuses (r : response) :
  response_of (serve getUsuarioById req s f) = Some r ->
  In (status r) [200; 404; 500] /\ (body r = None <-> status r = 204).
Proof. unfold serve, getUsuarioById. cbv zeta. run; among. Qed.

Lemma deleteUsuario_statuses (r : response) :
  response_of (serve deleteUsuario req s f) = Some r ->
  In (status r) [204; 404; 500] /\ (body r = None <-> status r = 204).
Proof. unfold serve, deleteUsuario. cbv zeta. run; among. Qed.

Variable bcrypt_hash : string -> Z -> string.

Lemma createUsuario_statuses (r : response) :
  response_of (serve (createUsuario bcrypt_hash) req s f) = Some r ->
  In (status r) [201; 400; 500] /\ (body r = None <-> status r = 204).
Proof.
  unfold serve, createUsuario. cbv zeta.
  generalize (get (req_body req) "nombre") (get (req_body req) "email")
    (get (req_body req) "password")
    (default (get (req_body req) "rol") (Str "cliente"))
    (default (get (req_body req) "activo") (Num (of_Z 1))).
  intros v1 v2 v3 v4 v5.
  run; try discriminate; among.
Qed.

Lemma updateUsuario_statuses (r : response) :
  response_of (serve (updateUsuario bcrypt_hash) req s f) = Some r ->
  In (status r) [200; 400; 404; 500] /\ (body r = None <-> status r = 204).
Proof.
  unfold serve, updateUsuario. cbv zeta.
  generalize (get (req_body req) "nombre") (get (req_body req) "email")
    (get (req_body req) "password") (get (req_body req) "rol")
    (get (req_body req) "activo").
  intros v1 v2 v3 v4 v5.
  run; try discriminate; among.
Qed.

End Statuses.

(** X20.  Each handler sends the statuses of its own and no other:
    [getAllUsuarios] 200 or 500; [getUsuarioById] 200, 404 or 500;
    [createUsuario] 201, 400 or 500; [updateUsuario] 200, 400, 404 or 500;
    [deleteUsuario] 204, 404 or 500.  The answer of status 204 is the only
    one without a body. *)
Theorem handlers_send_their_own_statuses
    (bcrypt_hash : string -> Z -> string) (handler : request -> M unit)
    (l : list Z) (req : request) (s : Db.store) (f : list (option string))
    (r : response) :
  In (handler, l) (statuses bcrypt_hash) ->
  response_of (serve handler req s f) = Some r ->
  In (status r) l /\ (body r = None <-> status r = 204).
Proof.
  unfold statuses. cbn [In].
  intros [[= <- <-] | [[= <- <-] | [[= <- <-] | [[= <- <-] | [[= <- <-] | []]]]]].
  - apply getAllUsuarios_statuses.
  - apply getUsuarioById_statuses.
  - apply createUsuario_statuses.
  - apply updateUsuario_statuses.
  - apply deleteUsuario_statuses.
Qed.

Lemma handlers_send_their_own_statuses_witness :
  In (status {| status := 204; body := None |}) [204; 404; 500]
  /\ (body {| status := 204; body := None |} = None
      <-> status {| status := 204; body := None |} = 204).
Proof.
  apply (handlers_send_their_own_statuses sample_hash deleteUsuario
           [204; 404; 500] (request_of 1 []) store_with_ana []).
  - do 4 right. now left.
  - reflexivity.
Defined.

(** X21.  A creation refused with status 400 has cost no hashing and has
    sent no INSERT: [createUsuario] has then made no call at all, or the
    lookup of the email alone. *)
Theorem createUsuario_refusal_costs_no_hash
    (bcrypt_hash : string -> Z -> string) (req : request) (s : Db.store)
    (f : list (option string)) (r : response) :
  response_of (serve (createUsuario bcrypt_hash) req s f) = Some r ->
  status r = 400 ->
  existsb is_hash (calls (snd (serve (createUsuario bcrypt_hash) req s f))) = false
  /\ existsb is_write (calls (snd (serve (createUsuario bcrypt_hash) req s f)))
     = false
  /\ forallb is_email_lookup
       (calls (snd (serve (createUsuario bcrypt_hash) req s f))) = true
  /\ (List.length (calls (snd (serve (createUsuario bcrypt_hash) req s f)))
      <= 1)%nat.
Proof.
  unfold serve, createUsuario. cbv zeta.
  generalize (get (req_body req) "nombre") (get (req_body req) "email")
    (get (req_body req) "password")
    (default (get (req_body req) "rol") (Str "cliente"))
    (default (get (req_body req) "activo") (Num (of_Z 1))).
  intros v1 v2 v3 v4 v5.
  run; try discriminate; intros [= <-] S; try discriminate S;
    cbn; repeat split; lia.
Qed.

Lemma createUsuario_refusal_costs_no_hash_witness :
  let o := serve (createUsuario sample_hash)
             (request_of 0 [("nombre", Str "Ana"); ("email", Str "ANA@x.com");
                            ("password", Str "secret1")])
             store_with_ana [] in
  existsb is_hash (calls (snd o)) = false
  /\ existsb is_write (calls (snd o)) = false
  /\ forallb is_email_lookup (calls (snd o)) = true
  /\ (List.length (calls (snd o)) <= 1)%nat.
Proof.
  apply (createUsuario_refusal_costs_no_hash sample_hash
           (request_of 0 [("nombre", Str "Ana"); ("email", Str "ANA@x.com");
                          ("password", Str "secret1")])
           store_with_ana []
           {| status := 400;
              body := Some (error_body (msg_create_duplicate "ANA@x.com")) |}).
  - reflexivity.
  - reflexivity.
Defined.

(** X22.  When the store answers, [getAllUsuarios] sends with status 200
    the public columns of every row, one record per row in the order of
    the table; and a record that [getUsuarioById] sends with status 200
    from the same store is one of them. *)
Theorem getAllUsuarios_lists_every_row
    (req req' : request) (s : Db.store) (f f' : list (option string)) :
  next_fault f = None ->
  next_fault f' = None ->
  response_of (serve getAllUsuarios req s f)
  = json 200 (Arr (map Db.public_columns (Db.usuarios s)))
  /\ forall v,
      response_of (serve getUsuarioById req' s f') = json 200 v ->
      In v (map Db.public_columns (Db.usuarios s)).
Proof.
  intros F F'. split.
  - unfold serve, getAllUsuarios. plumbing. rewrite F. reflexivity.
  - intros v. unfold serve, getUsuarioById. cbv zeta. plumbing. rewrite F'.
    cbn [Db.exec fst snd Db.rows_of]. rewrite length_map.
    pose proof (first_of_filter (Db.has_id (params_id req')) Db.public_columns
                  Undefined (Db.usuarios s)) as X.
    destruct (find (Db.has_id (params_id req')) (Db.usuarios s)) as [r|] eqn:E.
    + destruct X as [N X]. rewrite X.
      destruct (filter (Db.has_id (params_id req')) (Db.usuarios s));
        [congruence|].
      cbn. intros [= <-]. apply in_map. apply find_some in E. tauto.
    + rewrite X. cbn. discriminate.
Qed.

Lemma getAllUsuarios_lists_every_row_witness :
  response_of (serve getAllUsuarios (request_of 0 []) store_with_ana_and_eva [])
  = json 200 (Arr (map Db.public_columns [ana; eva]))
  /\ forall v,
      response_of (serve getUsuarioById (request_of 2 []) store_with_ana_and_eva [])
      = json 200 v ->
      In v (map Db.public_columns [ana; eva]).
Proof.
  apply (getAllUsuarios_lists_every_row (request_of 0 []) (request_of 2 [])
           store_with_ana_and_eva [] []); reflexivity.
Defined.

(* ===================================================================== *)
(** * The names and emails written *)
(* ===================================================================== *)

Section Trimmed.

Variable bcrypt_hash : string -> Z -> string.
Variable req : request.
Variable s : Db.store.
Variable f : list (option string).

Ltac as_strings :=
  repeat match goal with
         | H : create_nombre_rejected ?v = false |- _ =>
             apply create_nombre_rule in H; destruct H as [? [-> ?]]
         | H : update_nombre_rejected ?v = false |- _ =>
             apply update_nombre_rule in H; destruct H as [? [-> ?]]
         | H : create_email_rejected ?v = false |- _ =>
             apply create_email_rule in H; destruct H as [? [-> ?]]
         | H : update_email_rejected ?v = false |- _ =>
             apply update_email_rule in H; destruct H as [? [-> ?]]
         end;
  cbn [call_trim] in *;
  repeat match goal with
         | H : Normal _ = Normal _ |- _ => injection H as <-
         end.

Ltac trimmed_written :=
  cbn [app];
  repeat first
    [ apply Forall_nil
    | apply Forall_cons
    | apply conj
    | progress cbn [nombre_written email_written flat_map app
                    nombre_assigned email_assigned] ];
  try (as_strings; eexists; repeat apply conj; (reflexivity || assumption)).

Lemma createUsuario_trims :
  Forall (fun e => Forall (trimmed_nombre req) (nombre_written e)
                   /\ Forall (trimmed_email req) (email_written e))
    (calls (snd (serve (createUsuario bcrypt_hash) req s f))).
Proof.
  unfold trimmed_nombre, trimmed_email, field, serve, createUsuario.
  cbv zeta.
  generalize (get (req_body req) "nombre") (get (req_body req) "email")
    (get (req_body req) "password")
    (default (get (req_body req) "rol") (Str "cliente"))
    (default (get (req_body req) "activo") (Num (of_Z 1))).
  intros v1 v2 v3 v4 v5.
  run; trimmed_written.
Qed.

Lemma updateUsuario_trims :
  Forall (fun e => Forall (trimmed_nombre req) (nombre_written e)
                   /\ Forall (trimmed_email req) (email_written e))
    (calls (snd (serve (updateUsuario bcrypt_hash) req s f))).
Proof.
  unfold trimmed_nombre, trimmed_email, field, serve, updateUsuario.
  cbv zeta.
  generalize (get (req_body req) "nombre") (get (req_body req) "email")
    (get (req_body req) "password") (get (req_body req) "rol")
    (get (req_body req) "activo").
  intros v1 v2 v3 v4 v5.
  run; trimmed_written.
Qed.

End Trimmed.

(** X23.  In every run of [createUsuario] and of [updateUsuario], every
    string bound to the column [nombre] is the name of the request
    trimmed, and is not empty; every string bound to the column [email] is
    the email of the request trimmed, an email that contains [@]. *)
Theorem names_and_emails_are_written_trimmed
    (bcrypt_hash : string -> Z -> string) (handler : request -> M unit)
    (req : request) (s : Db.store) (f : list (option string)) :
  In handler (writers bcrypt_hash) ->
  Forall (fun e => Forall (trimmed_nombre req) (nombre_written e)
                   /\ Forall (trimmed_email req) (email_written e))
    (calls (snd (serve handler req s f))).
Proof.
  unfold writers. cbn [In].
  intros [<- | [<- | []]].
  - apply createUsuario_trims.
  - apply updateUsuario_trims.
Qed.

Lemma names_and_emails_are_written_trimmed_witness :
  let req := request_of 0 [("nombre", Str " Eva "); ("email", Str " eva@x.com");
                           ("password", Str "secret2")] in
  Forall (fun e => Forall (trimmed_nombre req) (nombre_written e)
                   /\ Forall (trimmed_email req) (email_written e))
    [Query (Db.SelectIdByEmail " eva@x.com"); Hash "secret2" 10;
     Query (Db.Insert "Eva" "eva@x.com" (sample_hash "secret2" 10)
              (Str "cliente") (Num (of_Z 1)))].
Proof.
  apply (names_and_emails_are_written_trimmed sample_hash
           (createUsuario sample_hash)
           (request_of 0 [("nombre", Str " Eva "); ("email", Str " eva@x.com");
                          ("password", Str "secret2")])
           store_with_ana []).
  now left.
Defined.

(* ===================================================================== *)
(** * The order of the tests of [updateUsuario] *)
(* ===================================================================== *)

Lemma supplied_not_undefined (v : value) :
  supplied v -> is_undefined v = false.
Proof. destruct v; [intros H; now elim H | reflexivity ..]. Qed.

(** A field that passes its test is a value that the test accepts: the
    cases of the other values are closed. *)
Ltac passing :=
  repeat match goal with
         | H : update_passes _ _ |- _ => destruct H as [H | H]
         | H : update_email_passes _ _ _ |- _ =>
             destruct H as [H | [? [H [? ?]]]]
         end;
  subst;
  repeat match goal with
         | H : update_nombre_rejected ?v = false |- _ =>
             is_var v; destruct v; try solve [cbn in H; discriminate H]
         | H : update_password_rejected ?v = false |- _ =>
             is_var v; destruct v; try solve [cbn in H; discriminate H]
         | H : rol_rejected ?v = false |- _ =>
             is_var v; destruct v; try solve [cbn in H; discriminate H]
         | H : supplied ?v |- _ => apply supplied_not_undefined in H
         end.

(** X24.  On an existing identifier and with a store that answers,
    [updateUsuario] tests the supplied fields in the order nombre, email,
    password, rol, activo, the fields not supplied being passed over, and
    answers status 400 with the message of the first one that fails: the
    fields after it are not looked at, valid or not.  The email passes
    when it is valid and no other row has it. *)
Theorem update_validation_order
    (bcrypt_hash : string -> Z -> string) (req : request) (s : Db.store)
    (f : list (option string)) :
  exists_id (params_id req) s ->
  no_fault f ->
  (supplied (field req "nombre") ->
   update_nombre_rejected (field req "nombre") = true ->
   response_of (serve (updateUsuario bcrypt_hash) req s f)
   = bad_request msg_update_nombre)
  /\ (update_passes update_nombre_rejected (field req "nombre") ->
      supplied (field req "email") ->
      update_email_rejected (field req "email") = true ->
      response_of (serve (updateUsuario bcrypt_hash) req s f)
      = bad_request msg_update_email)
  /\ (update_passes update_nombre_rejected (field req "nombre") ->
      update_email_passes (params_id req) s (field req "email") ->
      supplied (field req "password") ->
      update_password_rejected (field req "password") = true ->
      response_of (serve (updateUsuario bcrypt_hash) req s f)
      = bad_request msg_update_password)
  /\ (update_passes update_nombre_rejected (field req "nombre") ->
      update_email_passes (params_id req) s (field req "email") ->
      update_passes update_password_rejected (field req "password") ->
      supplied (field req "rol") ->
      rol_rejected (field req "rol") = true ->
      response_of (serve (updateUsuario bcrypt_hash) req s f)
      = bad_request msg_rol)
  /\ (update_passes update_nombre_rejected (field req "nombre") ->
      update_email_passes (params_id req) s (field req "email") ->
      update_passes update_password_rejected (field req "password") ->
      update_passes rol_rejected (field req "rol") ->
      supplied (field req "activo") ->
      activo_rejected (field req "activo") = Normal true ->
      response_of (serve (updateUsuario bcrypt_hash) req s f)
      = bad_request msg_activo).
Proof.
  intros X F.
  apply lookup_finds in X.
  pose proof (no_fault_next _ F) as F1.
  pose proof (no_fault_next _ (no_fault_tl _ F)) as F2.
  assert (D : forall e,
             includes e "@" = true ->
             ~ email_of_another (params_id req) (toLowerCase e) s ->
             update_email_rejected (Str e) = false
             /\ (0 <? Z.of_nat
                        (List.length
                           (Db.rows_of
                              (fst (Db.exec
                                      (Db.SelectIdByEmailExcept (toLowerCase e)
                                         (params_id req))
                                      (snd (Db.exec
                                              (Db.SelectStarById (params_id req))
                                              s))))))) = false).
  { intros e V N. split; [apply update_email_rule; now exists e|].
    pose proof (other_email_lookup (toLowerCase e) (params_id req) s) as L.
    destruct (0 <? _); [|reflexivity]. exfalso. apply N. now apply L. }
  unfold field, serve, updateUsuario. cbv zeta.
  generalize (get (req_body req) "nombre") (get (req_body req) "email")
    (get (req_body req) "password") (get (req_body req) "rol")
    (get (req_body req) "activo").
  intros v1 v2 v3 v4 v5.
  split; [|split; [|split; [|split]]]; intros; passing;
    repeat match goal with
           | V : includes ?e "@" = true,
             N : ~ email_of_another _ (toLowerCase ?e) _ |- _ =>
               destruct (D e V N); clear V N
           end;
    cbn [call_toLowerCase call_trim printed]; follow; reflexivity.
Qed.

Lemma update_validation_order_witness :
  response_of
    (serve (updateUsuario sample_hash)
       (request_of 1 [("activo", Str "yes"); ("rol", Str "root");
                      ("password", Str "secret9"); ("email", Str "ANA@x.com")])
       store_with_ana_and_eva [])
  = bad_request msg_rol.
Proof.
  apply (proj1 (proj2 (proj2 (proj2
           (update_validation_order sample_hash
              (request_of 1 [("activo", Str "yes"); ("rol", Str "root");
                             ("password", Str "secret9");
                             ("email", Str "ANA@x.com")])
              store_with_ana_and_eva []
              (ex_intro _ ana (conj (or_introl eq_refl) eq_refl))
              (Forall_nil _)))))).
  - left. reflexivity.
  - right. exists "ANA@x.com". split; [reflexivity|]. split; [reflexivity|].
    intros [r [[<- | [<- | []]] [N E]]].
    + now elim N.
    + vm_compute in E. discriminate E.
  - right. reflexivity.
  - discriminate.
  - reflexivity.
Defined.

(** X25.  In [updateUsuario] the coercion of [activo] is evaluated inside
    the [try]: on an existing identifier, with a store that answers and
    the fields before it passing, an [activo] whose [Number(activo)] throws
    is answered, with status 500 and the message of the handler; the error
    thrown is logged, and the store is as it was. *)
Theorem update_activo_that_throws_is_answered
    (bcrypt_hash : string -> Z -> string) (req : request) (s : Db.store)
    (f : list (option string)) (e : string) :
  exists_id (params_id req) s ->
  no_fault f ->
  update_passes update_nombre_rejected (field req "nombre") ->
  update_email_passes (params_id req) s (field req "email") ->
  update_passes update_password_rejected (field req "password") ->
  update_passes rol_rejected (field req "rol") ->
  to_number (field req "activo") = Throw e ->
  response_of (serve (updateUsuario bcrypt_hash) req s f)
  = json 500 (error_body msg_update_internal)
  /\ In (ConsoleError "Error al actualizar usuario:" e)
       (calls (snd (serve (updateUsuario bcrypt_hash) req s f)))
  /\ db (snd (serve (updateUsuario bcrypt_hash) req s f)) = s.
Proof.
  intros X F.
  apply lookup_finds in X.
  pose proof (no_fault_next _ F) as F1.
  pose proof (no_fault_next _ (no_fault_tl _ F)) as F2.
  assert (D : forall e,
             includes e "@" = true ->
             ~ email_of_another (params_id req) (toLowerCase e) s ->
             update_email_rejected (Str e) = false
             /\ (0 <? Z.of_nat
                        (List.length
                           (Db.rows_of
                              (fst (Db.exec
                                      (Db.SelectIdByEmailExcept (toLowerCase e)
                                         (params_id req))
                                      (snd (Db.exec
                                              (Db.SelectStarById (params_id req))
                                              s))))))) = false).
  { intros m V N. split; [apply update_email_rule; now exists m|].
    pose proof (other_email_lookup (toLowerCase m) (params_id req) s) as L.
    destruct (0 <? _); [|reflexivity]. exfalso. apply N. now apply L. }
  unfold field, serve, updateUsuario. cbv zeta.
  generalize (get (req_body req) "nombre") (get (req_body req) "email")
    (get (req_body req) "password") (get (req_body req) "rol")
    (get (req_body req) "activo").
  intros v1 v2 v3 v4 v5 P1 P2 P3 P4 T.
  assert (A : activo_rejected v5 = Throw e)
    by (unfold activo_rejected; now rewrite T).
  assert (U : is_undefined v5 = false)
    by (destruct v5; try reflexivity; discriminate T).
  clear T. passing;
    repeat match goal with
           | V : includes ?m "@" = true,
             N : ~ email_of_another _ (toLowerCase ?m) _ |- _ =>
               destruct (D m V N); clear V N
           end;
    cbn [call_toLowerCase call_trim printed]; follow;
    (split; [reflexivity | split; [cbn [In]; tauto | reflexivity]]).
Qed.

Lemma update_activo_that_throws_is_answered_witness :
  let req := request_of 1 [("activo", Obj [("toString", Num (of_Z 0))]);
                           ("nombre", Str "Ana B")] in
  response_of (serve (updateUsuario sample_hash) req store_with_ana [])
  = json 500 (error_body msg_update_internal)
  /\ In (ConsoleError "Error al actualizar usuario:" type_error)
       (calls (snd (serve (updateUsuario sample_hash) req store_with_ana [])))
  /\ db (snd (serve (updateUsuario sample_hash) req store_with_ana []))
     = store_with_ana.
Proof.
  apply (update_activo_that_throws_is_answered sample_hash
           (request_of 1 [("activo", Obj [("toString", Num (of_Z 0))]);
                          ("nombre", Str "Ana B")])
           store_with_ana [] type_error).
  - exists ana. split; [now left | reflexivity].
  - constructor.
  - right. reflexivity.
  - left. reflexivity.
  - left. reflexivity.
  - left. reflexivity.
  - reflexivity.
Defined.
